(** * dbhub.io webui: the versioned artifact store behind the HTTP handlers

    A shallow embedding of the handlers of [webui/main.go] that upload,
    fork, star and browse SQLite databases, together with the storage,
    metadata and cache services of package [common] they call, and the
    properties of version numbering, access control, cache keys, cache
    invalidation and fork preconditions proved about them.

    Go values are modelled as the code has them: [int] is a 64-bit integer
    (a [Z] with its wrap-around), a [string] is a byte string, a function
    returning [(v, err)] returns a pair whose second component is an
    [error], and [nil] is [None]. *)

From Stdlib Require Import ZArith List String Ascii Bool Lia.
From Stdlib Require Import Decimal DecimalString DecimalZ DecimalPos DecimalFacts.
Import ListNotations.
Local Open Scope string_scope.
Local Open Scope Z_scope.
Local Open Scope list_scope.

Set Implicit Arguments.

(** ** Go base types *)

Module Go.

(** Go's [error]: [None] is [nil]. *)
Definition error : Type := option string.

Definition is_nil (e : error) : bool :=
  match e with None => true | Some _ => false end.

(** [err.Error()] *)
Definition Error (e : error) : string :=
  match e with None => "" | Some m => m end.

(** A byte slice. *)
Definition bytes : Type := string.

Definition MaxInt : Z := 2 ^ 63 - 1.
Definition MinInt : Z := - 2 ^ 63.

(** Two's complement wrap-around of a 64-bit [int]. *)
Definition wrap (z : Z) : Z := (z + 2 ^ 63) mod 2 ^ 64 - 2 ^ 63.

(** [a + b] on [int]. *)
Definition add (a b : Z) : Z := wrap (a + b).

(** [len(s)] *)
Definition len (s : string) : Z := Z.of_nat (String.length s).

(** The verb [%d] of [fmt.Sprintf]. *)
Definition fmt_d (z : Z) : string := NilZero.string_of_int (Z.to_int z).

Definition dquote : string := String (ascii_of_nat 34) EmptyString.

Definition digit_of (c : ascii) : option Z :=
  let n := Z.of_N (N_of_ascii c) in
  if (48 <=? n) && (n <=? 57) then Some (n - 48) else None.

Fixpoint digits_val (s : string) (acc : Z) : option Z :=
  match s with
  | EmptyString => Some acc
  | String c r =>
      match digit_of c with
      | Some d => digits_val r (10 * acc + d)
      | None => None
      end
  end.

(** [strconv.Atoi]: an optional sign, then at least one decimal digit; the
    value has to fit an [int]. *)
Definition Atoi (s : string) : Z * error :=
  let syntax := Some ("strconv.Atoi: parsing " ++ dquote ++ s ++ dquote ++ ": invalid syntax")%string in
  let range := Some ("strconv.Atoi: parsing " ++ dquote ++ s ++ dquote ++ ": value out of range")%string in
  let '(neg, body) :=
    match s with
    | String "+"%char r => (false, r)
    | String "-"%char r => (true, r)
    | _ => (false, s)
    end in
  match body with
  | EmptyString => (0, syntax)
  | _ =>
      match digits_val body 0 with
      | None => (0, syntax)
      | Some v =>
          let v' := if neg then - v else v in
          if v' <? MinInt then (MinInt, range)
          else if MaxInt <? v' then (MaxInt, range)
          else (v', None)
      end
  end.

End Go.

Import Go.

(** [net/http] status codes used by the handlers. *)
Definition StatusTemporaryRedirect : Z := 307.
Definition StatusBadRequest : Z := 400.
Definition StatusUnauthorized : Z := 401.
Definition StatusInternalServerError : Z := 500.

(** ** Data model *)

(** The (owner, folder, name) triple naming one database across versions. *)
Record Identity : Type := mkIdentity {
  id_owner : string;
  id_folder : string;
  id_name : string
}.

Definition Identity_eqb (a b : Identity) : bool :=
  String.eqb (id_owner a) (id_owner b)
  && String.eqb (id_folder a) (id_folder b)
  && String.eqb (id_name a) (id_name b).

(** Where the bytes of one version live in Minio. *)
Record BlobRef : Type := mkBlobRef {
  bucket : string;
  objid : string;
  size : Z;
  digest : bytes
}.

(** One row of the blob locator table. *)
Record VersionEntry : Type := mkVersionEntry {
  v_ident : Identity;
  v_version : Z;
  v_blob : BlobRef
}.

(** The metadata record of an identity, with its access policy. *)
Record DBEntry : Type := mkDBEntry {
  d_ident : Identity;
  d_public : bool;
  d_descrip : string;
  d_readme : string;
  d_forked_from : option Identity
}.

Record MinioObject : Type := mkMinioObject {
  o_bucket : string;
  o_id : string;
  o_data : bytes;
  o_ctype : string
}.

(** [com.SQLiteRecordSet]: a page of table rows. *)
Record SQLiteRecordSet : Type := mkRecordSet {
  Tablename : string;
  ColNames : list string;
  Records : list (list string);
  TotalRows : Z
}.

Definition emptyRecordSet : SQLiteRecordSet := mkRecordSet "" [] [] 0.

Definition set_TotalRows (d : SQLiteRecordSet) (n : Z) : SQLiteRecordSet :=
  mkRecordSet (Tablename d) (ColNames d) (Records d) n.

(** The operations that can fail outside the handler: the calls into
    package [common] that reach PostgreSQL, Minio or memcached, with their
    arguments, and the temporary file of an upload. *)
Module Op.
Inductive t : Type :=
| CheckUserDBVAccess (dbOwner dbFolder dbName : string) (dbVer : Z) (loggedInUser : string)
| HighestDBVersion (dbOwner dbName dbFolder loggedInUser : string)
| MinioBucketID (dbOwner dbName : string) (dbVer : Z) (loggedInUser : string)
| MinioUserBucket (userName : string)
| MinioObjCopy (srcBucket srcID dstBucket : string)
| ForkDatabase (srcOwner dbFolder dbName : string) (srcVer : Z) (dstOwner dstFolder dstMinioID : string)
| InvalidateCacheEntry (loggedInUser dbOwner dbFolder dbName : string) (dbVer : Z)
| ToggleDBStar (loggedInUser dbOwner dbFolder dbName : string)
| DBStars (dbOwner dbName : string)
| GetCachedData (key : string)
| CacheData (key : string)
| OpenMinioObject (bkt id : string)
| CheckMinioIDAvail (userName id : string)
| StoreMinioObject (bkt id : string)
| AddDatabase (dbOwner dbFolder dbName : string) (dbVer : Z) (bkt id : string)
| TempFile
| TempFileWrite.
End Op.

(** What a request leaves behind, in program order: log lines, what is
    written to the [http.ResponseWriter], the digest computation, and every
    operation of [Op.t] with whether it returned a [nil] error. *)
Inductive Event : Type :=
| Log (msg : string)
| ErrorPage (status : Z) (msg : string)
| RedirectTo (url : string) (status : Z)
| Fprint (body : string)
| SessionRemove
| Sha256Sum
| Call (c : Op.t) (ok : bool).

(** The shared services (PostgreSQL, Minio, memcached), the behaviour of
    the environment during the request ([fails]: which calls hit a service
    failure; [rnd]: the tokens [com.RandomString] will draw), and the trace
    of what has happened. *)
Record World : Type := mkWorld {
  pg_dbs : list DBEntry;
  pg_versions : list VersionEntry;
  pg_stars : list (string * Identity);
  minio : list MinioObject;
  memcache : list (string * SQLiteRecordSet);
  fails : Op.t -> bool;
  rnd : list string;
  trace : list Event
}.

Definition set_pg_dbs (x : list DBEntry) (w : World) : World :=
  mkWorld x (pg_versions w) (pg_stars w) (minio w) (memcache w) (fails w) (rnd w) (trace w).
Definition set_pg_versions (x : list VersionEntry) (w : World) : World :=
  mkWorld (pg_dbs w) x (pg_stars w) (minio w) (memcache w) (fails w) (rnd w) (trace w).
Definition set_pg_stars (x : list (string * Identity)) (w : World) : World :=
  mkWorld (pg_dbs w) (pg_versions w) x (minio w) (memcache w) (fails w) (rnd w) (trace w).
Definition set_minio (x : list MinioObject) (w : World) : World :=
  mkWorld (pg_dbs w) (pg_versions w) (pg_stars w) x (memcache w) (fails w) (rnd w) (trace w).
Definition set_memcache (x : list (string * SQLiteRecordSet)) (w : World) : World :=
  mkWorld (pg_dbs w) (pg_versions w) (pg_stars w) (minio w) x (fails w) (rnd w) (trace w).
Definition set_rnd (x : list string) (w : World) : World :=
  mkWorld (pg_dbs w) (pg_versions w) (pg_stars w) (minio w) (memcache w) (fails w) x (trace w).
Definition set_trace (x : list Event) (w : World) : World :=
  mkWorld (pg_dbs w) (pg_versions w) (pg_stars w) (minio w) (memcache w) (fails w) (rnd w) x.

(** ** The handler monad

    A handler threads the world and may leave early: [Returned] is Go's
    [return] from the handler, [NoFuel] is a loop that has used up the
    random tape without finishing. *)

Inductive Outcome (A : Type) : Type :=
| Continue (a : A)
| Returned
| NoFuel.
Arguments Continue {A} a.
Arguments Returned {A}.
Arguments NoFuel {A}.

Definition Handler (A : Type) : Type := World -> Outcome A * World.

Definition ret {A : Type} (a : A) : Handler A := fun w => (Continue a, w).

Definition bind {A B : Type} (c : Handler A) (k : A -> Handler B) : Handler B :=
  fun w =>
    match c w with
    | (Continue a, w') => k a w'
    | (Returned, w') => (Returned, w')
    | (NoFuel, w') => (NoFuel, w')
    end.

Declare Scope handler_scope.
Delimit Scope handler_scope with handler.
Notation "x <- c ;; k" := (bind c (fun x => k))
  (at level 61, c at next level, right associativity) : handler_scope.
Notation "' p <- c ;; k" := (bind c (fun x => let 'p := x in k))
  (at level 61, p pattern, c at next level, right associativity) : handler_scope.
Notation "c ;; k" := (bind c (fun _ => k))
  (at level 61, right associativity) : handler_scope.
Local Open Scope handler_scope.

(** Go's [return] from the handler. *)
Definition go_return {A : Type} : Handler A := fun w => (Returned, w).

Definition no_fuel {A : Type} : Handler A := fun w => (NoFuel, w).

Definition when (b : bool) (h : Handler unit) : Handler unit :=
  if b then h else ret tt.

Definition emit (e : Event) : Handler unit :=
  fun w => (Continue tt, set_trace (trace w ++ [e]) w).

Definition get_world : Handler World := fun w => (Continue w, w).

(** [log.Printf] *)
Definition log_Printf (msg : string) : Handler unit := emit (Log msg).

(** [errorPage(w, r, status, msg)] (defined with the page templates). *)
Definition errorPage (status : Z) (msg : string) : Handler unit :=
  emit (ErrorPage status msg).

(** [http.Redirect] *)
Definition http_Redirect (url : string) (status : Z) : Handler unit :=
  emit (RedirectTo url status).

(** [fmt.Fprint(w, ...)] *)
Definition fmt_Fprint (body : string) : Handler unit := emit (Fprint body).

(** The world a handler leaves, or [None] when it does not finish. *)
Definition run (h : Handler unit) (w : World) : option World :=
  match h w with
  | (Continue _, w') => Some w'
  | (Returned, w') => Some w'
  | (NoFuel, _) => None
  end.

(** What a handler run has added to the trace. *)
Definition new_events (w w' : World) : list Event :=
  skipn (List.length (trace w)) (trace w').

(** ** The request, as the handlers read it *)

(** [session.Get(r)] and its [UserName] attribute. *)
Inductive Session : Type :=
| NoSession
| SessionWithoutUser
| SessionOf (userName : string).

(** The uploaded file of a multipart form: [r.FormFile]. *)
Record FormFile : Type := mkFormFile {
  Filename : string;
  ContentType : string;
  file_data : bytes;
  file_read_err : error
}.

Record Request : Type := mkRequest {
  req_session : Session;
  (* the URL path, as com.GetOD, com.GetODV and com.GetODTV split it *)
  url_owner : string;
  url_dbname : string;
  url_table : string;
  url_version : Z;
  url_err : error;
  (* r.FormValue / r.PostFormValue *)
  form : string -> string;
  parse_form_err : error;
  (* com.GetPub *)
  form_public : bool * error;
  (* r.FormFile with the name database *)
  form_file : option FormFile
}.

(** The functions the handlers call whose result they only pass along:
    validators, the SQLite reader, the digest, the JSON encoder and the
    naming of buckets and cache entries. *)
Class Externals : Type := {
  (** [com.ValidateDB] *)
  ValidateDB : string -> error;
  (** [com.ValidateFieldName] *)
  ValidateFieldName : string -> error;
  (** [com.SanityCheck], on the bytes written to the temporary file *)
  SanityCheck : bytes -> error;
  (** [sha256.Sum256] *)
  sha256_Sum256 : bytes -> bytes;
  (** [com.PrefUserMaxRows] *)
  PrefUserMaxRows : string -> Z;
  (** the bucket of an owner: one bucket per owner *)
  userBucket : string -> string;
  (** [sdb.Tables], [sdb.Columns], [com.ReadSQLiteDB] and
      [com.GetSQLiteRowCount] on an opened object ([None]: a [nil] handle) *)
  sdb_Tables : option bytes -> list string * error;
  sdb_Columns : option bytes -> string -> list string * error;
  ReadSQLiteDB : option bytes -> string -> Z -> string -> string -> Z -> SQLiteRecordSet * error;
  GetSQLiteRowCount : option bytes -> string -> Z * error;
  (** [json.MarshalIndent] *)
  json_MarshalIndent : SQLiteRecordSet -> string * error;
  (** the identity and version a cache key belongs to *)
  keyIdentity : string -> option (Identity * Z)
}.

(** [com.GetOD], [com.GetODV], [com.GetODTV]: the owner, database, table
    and version named by the URL. *)
Definition GetOD (r : Request) : string * string * error :=
  (url_owner r, url_dbname r, url_err r).
Definition GetODV (r : Request) : string * string * Z * error :=
  (url_owner r, url_dbname r, url_version r, url_err r).
Definition GetODTV (r : Request) : string * string * string * Z * error :=
  (url_owner r, url_dbname r, url_table r, url_version r, url_err r).

(** The block every handler starts with:
    [sess := session.Get(r); if sess != nil { u := sess.CAttr(...) ... }]. *)
Definition session_user (r : Request) : Handler (string * bool) :=
  match req_session r with
  | NoSession => ret ("", false)
  | SessionWithoutUser => emit SessionRemove ;; ret ("", false)
  | SessionOf u => ret (u, true)
  end.

(** ** Package [common]: metadata store, blob store and cache *)

Module com.

(** [com.DefaultNumDisplayRows]: 10 rows for visitors who are not logged in. *)
Definition DefaultNumDisplayRows : Z := 10.

(** [com.CacheTime]: the time to live of a cache entry, in seconds. *)
Definition CacheTime : Z := 3600.

(** The spec's error taxonomy. *)
Definition NotFound : error := Some "NotFound".
Definition Forbidden : error := Some "Forbidden".
Definition DuplicateVersion : error := Some "DuplicateVersion".
Definition UpstreamUnavailable : error := Some "UpstreamUnavailable".

(** A call that reaches a service: it fails when the environment says so,
    and leaves a [Call] event either way. *)
Definition call {A : Type} (c : Op.t) (dflt : A)
    (body : World -> (A * error) * World) : Handler (A * error) :=
  fun w =>
    if fails w c then
      (Continue (dflt, UpstreamUnavailable), set_trace (trace w ++ [Call c false]) w)
    else
      let '((a, e), w') := body w in
      (Continue (a, e), set_trace (trace w' ++ [Call c (is_nil e)]) w').

Definition versions_of (vs : list VersionEntry) (i : Identity) : list Z :=
  map v_version (filter (fun v => Identity_eqb (v_ident v) i) vs).

(** Modelled from the spec: the body of [com.HighestDBVersion] is missing;
    section 4.2: the highest existing version for the identity, or 0 if the
    identity does not yet exist. *)
Definition highest (vs : list VersionEntry) (i : Identity) : Z :=
  fold_right Z.max 0 (versions_of vs i).

Definition HighestDBVersion (dbOwner dbName dbFolder loggedInUser : string)
    : Handler (Z * error) :=
  call (Op.HighestDBVersion dbOwner dbName dbFolder loggedInUser) 0
    (fun w => ((highest (pg_versions w) (mkIdentity dbOwner dbFolder dbName), None), w)).

Definition find_db (w : World) (i : Identity) : option DBEntry :=
  find (fun d => Identity_eqb (d_ident d) i) (pg_dbs w).

(** The [public] flag of an identity's access policy, when the identity
    has a metadata record. *)
Definition identity_public (w : World) (i : Identity) : option bool :=
  option_map d_public (find_db w i).

(** Modelled from the spec: the body of [com.CheckUserDBVAccess] is missing;
    section 4.4: viewer == owner is always true, else true iff the
    identity's access policy is public. *)
Definition canRead (w : World) (viewer owner folder name : string) (version : Z) : bool :=
  if String.eqb viewer owner then true
  else match identity_public w (mkIdentity owner folder name) with
       | Some p => p
       | None => false
       end.

Definition CheckUserDBVAccess (dbOwner dbFolder dbName : string) (dbVer : Z)
    (loggedInUser : string) : Handler (bool * error) :=
  call (Op.CheckUserDBVAccess dbOwner dbFolder dbName dbVer loggedInUser) false
    (fun w => ((canRead w loggedInUser dbOwner dbFolder dbName dbVer, None), w)).

(** Modelled from the spec: section 4.3, [resolve]. *)
Definition resolve (w : World) (i : Identity) (version : Z) : option BlobRef :=
  option_map v_blob
    (find (fun v => Identity_eqb (v_ident v) i && (v_version v =? version)) (pg_versions w)).

(** Modelled from the spec: the body of [com.MinioBucketID] is missing; its
    callers use it to check that the database exists and may be read by the
    user, and to get the bucket and id of its blob: the access guard of
    section 4.4, then [resolve] of section 4.3. *)
Definition MinioBucketID (dbOwner dbName : string) (dbVer : Z) (loggedInUser : string)
    : Handler (string * string * error) :=
  fun w =>
    let c := Op.MinioBucketID dbOwner dbName dbVer loggedInUser in
    let out (b i : string) (e : error) :=
      (Continue (b, i, e), set_trace (trace w ++ [Call c (is_nil e)]) w) in
    if fails w c then out "" "" UpstreamUnavailable
    else if negb (canRead w loggedInUser dbOwner "/" dbName dbVer) then out "" "" Forbidden
    else match resolve w (mkIdentity dbOwner "/" dbName) dbVer with
         | Some b => out (bucket b) (objid b) None
         | None => out "" "" NotFound
         end.

Section WithExternals.
Context `{Externals}.

(** Modelled from the spec: section 6, one bucket per owner. *)
Definition MinioUserBucket (userName : string) : Handler (string * error) :=
  call (Op.MinioUserBucket userName) ""
    (fun w => ((userBucket userName, None), w)).

(** [com.RandomString]: the next token of the random tape. *)
Definition RandomString (n : Z) : Handler string :=
  fun w =>
    match rnd w with
    | [] => (NoFuel, w)
    | s :: rest => (Continue s, set_rnd rest w)
    end.

(** Modelled from the spec: section 4.1, the identifier is checked against
    the object ids the owner already uses. *)
Definition id_used (w : World) (userName id : string) : bool :=
  existsb (fun v => String.eqb (id_owner (v_ident v)) userName
                    && String.eqb (objid (v_blob v)) id) (pg_versions w).

Definition CheckMinioIDAvail (userName id : string) : Handler (bool * error) :=
  call (Op.CheckMinioIDAvail userName id) false
    (fun w => ((negb (id_used w userName id), None), w)).

Definition find_object (w : World) (bkt id : string) : option MinioObject :=
  find (fun o => String.eqb (o_bucket o) bkt && String.eqb (o_id o) id) (minio w).

(** Modelled from the spec: section 6, [store(bucket, id, bytes, contentType) -> size]. *)
Definition StoreMinioObject (bkt id : string) (data : bytes) (ctype : string)
    : Handler (Z * error) :=
  call (Op.StoreMinioObject bkt id) 0
    (fun w => ((len data, None),
               set_minio (minio w ++ [mkMinioObject bkt id data ctype]) w)).

(** Modelled from the spec: section 6, [open(bucket, id)]. *)
Definition OpenMinioObject (bkt id : string) : Handler (option bytes * error) :=
  call (Op.OpenMinioObject bkt id) None
    (fun w => match find_object w bkt id with
              | Some o => ((Some (o_data o), None), w)
              | None => ((None, NotFound), w)
              end).

(** The first token of the tape that names no object of the bucket yet. *)
Fixpoint fresh_id (w : World) (bkt : string) (tape : list string)
    : option (string * list string) :=
  match tape with
  | [] => None
  | s :: rest =>
      match find_object w bkt s with
      | None => Some (s, rest)
      | Some _ => fresh_id w bkt rest
      end
  end.

(** Modelled from the spec: section 6, [copy(srcBucket, srcId, destBucket) -> newId],
    with the new object id drawn as in section 4.1. *)
Definition MinioObjCopy (srcBucket srcID dstBucket : string) : Handler (string * error) :=
  fun w =>
    let c := Op.MinioObjCopy srcBucket srcID dstBucket in
    if fails w c then
      (Continue ("", UpstreamUnavailable), set_trace (trace w ++ [Call c false]) w)
    else
      match find_object w srcBucket srcID with
      | None => (Continue ("", NotFound), set_trace (trace w ++ [Call c false]) w)
      | Some o =>
          match fresh_id w dstBucket (rnd w) with
          | None => (NoFuel, w)
          | Some (newID, rest) =>
              (Continue (newID, None),
               set_trace (trace w ++ [Call c true])
                 (set_rnd rest
                    (set_minio (minio w ++ [mkMinioObject dstBucket newID (o_data o) (o_ctype o)]) w)))
          end
      end.

Definition has_version (w : World) (i : Identity) (version : Z) : bool :=
  existsb (fun v => Identity_eqb (v_ident v) i && (v_version v =? version)) (pg_versions w).

(** The metadata record of an identity is created with its first version
    and edited in place afterwards. *)
Definition upsert_db (d : DBEntry) (ds : list DBEntry) : list DBEntry :=
  if existsb (fun x => Identity_eqb (d_ident x) (d_ident d)) ds
  then map (fun x => if Identity_eqb (d_ident x) (d_ident d) then d else x) ds
  else ds ++ [d].

(** Modelled from the spec: the body of [com.AddDatabase] is missing;
    section 4.3, [put]: records the mapping, and fails with
    [DuplicateVersion] if (owner, folder, name, version) already exists. *)
Definition AddDatabase (dbOwner dbFolder dbName : string) (dbVer : Z) (shaSum : bytes)
    (dbSize : Z) (public : bool) (bkt id descrip readme : string) : Handler error :=
  fun w =>
    let c := Op.AddDatabase dbOwner dbFolder dbName dbVer bkt id in
    let i := mkIdentity dbOwner dbFolder dbName in
    if fails w c then
      (Continue UpstreamUnavailable, set_trace (trace w ++ [Call c false]) w)
    else if has_version w i dbVer then
      (Continue DuplicateVersion, set_trace (trace w ++ [Call c false]) w)
    else
      let forked := match find_db w i with Some d => d_forked_from d | None => None end in
      (Continue None,
       set_trace (trace w ++ [Call c true])
         (set_pg_dbs (upsert_db (mkDBEntry i public descrip readme forked) (pg_dbs w))
            (set_pg_versions
               (pg_versions w ++ [mkVersionEntry i dbVer (mkBlobRef bkt id dbSize shaSum)]) w))).

(** Modelled from the spec: the body of [com.ForkDatabase] is missing;
    section 4.3, [fork]: the version of the new row is
    [nextVersion(destOwner, folder, srcName)], its blob is the copy in the
    bucket of the destination owner, and size and digest are those of the
    source version. *)
Definition ForkDatabase (srcOwner dbFolder dbName : string) (srcVer : Z)
    (dstOwner dstFolder dstMinioID : string) : Handler (Z * error) :=
  call (Op.ForkDatabase srcOwner dbFolder dbName srcVer dstOwner dstFolder dstMinioID) 0
    (fun w =>
       let src := mkIdentity srcOwner dbFolder dbName in
       let dst := mkIdentity dstOwner dstFolder dbName in
       match resolve w src srcVer with
       | None => ((0, NotFound), w)
       | Some b =>
           let newVer := Go.add (highest (pg_versions w) dst) 1 in
           let pub := match find_db w src with Some d => d_public d | None => false end in
           let descr := match find_db w src with Some d => d_descrip d | None => "" end in
           let readme := match find_db w src with Some d => d_readme d | None => "" end in
           ((newVer, None),
            set_pg_dbs (upsert_db (mkDBEntry dst pub descr readme (Some src)) (pg_dbs w))
              (set_pg_versions
                 (pg_versions w ++
                  [mkVersionEntry dst newVer
                     (mkBlobRef (userBucket dstOwner) dstMinioID (size b) (digest b))]) w))
       end).

Definition star_eqb (a b : string * Identity) : bool :=
  String.eqb (fst a) (fst b) && Identity_eqb (snd a) (snd b).

(** [com.ToggleDBStar]: stars the database for the user, or removes the star. *)
Definition ToggleDBStar (loggedInUser dbOwner dbFolder dbName : string) : Handler error :=
  fun w =>
    let c := Op.ToggleDBStar loggedInUser dbOwner dbFolder dbName in
    let s := (loggedInUser, mkIdentity dbOwner dbFolder dbName) in
    if fails w c then
      (Continue UpstreamUnavailable, set_trace (trace w ++ [Call c false]) w)
    else
      (Continue None,
       set_trace (trace w ++ [Call c true])
         (set_pg_stars
            (if existsb (star_eqb s) (pg_stars w)
             then filter (fun x => negb (star_eqb s x)) (pg_stars w)
             else pg_stars w ++ [s]) w)).

(** [com.DBStars]: the number of stars of a database. *)
Definition DBStars (dbOwner dbName : string) : Handler (Z * error) :=
  call (Op.DBStars dbOwner dbName) 0
    (fun w => ((Z.of_nat (List.length
                  (filter (fun x => Identity_eqb (snd x) (mkIdentity dbOwner "/" dbName))
                     (pg_stars w))), None), w)).

(** Modelled from the spec: section 4.5, [get]: a miss is not an error. *)
Definition cache_lookup (w : World) (key : string) : option SQLiteRecordSet :=
  option_map snd (find (fun e => String.eqb (fst e) key) (memcache w)).

Definition GetCachedData (key : string) (cur : SQLiteRecordSet)
    : Handler (SQLiteRecordSet * bool * error) :=
  fun w =>
    let c := Op.GetCachedData key in
    if fails w c then
      (Continue (cur, false, UpstreamUnavailable), set_trace (trace w ++ [Call c false]) w)
    else
      match cache_lookup w key with
      | Some v => (Continue (v, true, None), set_trace (trace w ++ [Call c true]) w)
      | None => (Continue (cur, false, None), set_trace (trace w ++ [Call c true]) w)
      end.

(** Modelled from the spec: section 4.5, [set]. *)
Definition CacheData (key : string) (value : SQLiteRecordSet) (ttl : Z) : Handler error :=
  fun w =>
    let c := Op.CacheData key in
    if fails w c then
      (Continue UpstreamUnavailable, set_trace (trace w ++ [Call c false]) w)
    else
      (Continue None,
       set_trace (trace w ++ [Call c true])
         (set_memcache
            ((key, value) :: filter (fun e => negb (String.eqb (fst e) key)) (memcache w)) w)).

(** Modelled from the spec: section 4.5, [invalidate]: removes all entries
    whose key matches (owner, folder, name) and whose version is the given
    one, or any version when the given version is 0. *)
Definition key_matches (dbOwner dbFolder dbName : string) (dbVer : Z) (key : string) : bool :=
  match keyIdentity key with
  | Some (i, v) =>
      Identity_eqb i (mkIdentity dbOwner dbFolder dbName) && ((dbVer =? 0) || (v =? dbVer))
  | None => false
  end.

Definition InvalidateCacheEntry (loggedInUser dbOwner dbFolder dbName : string) (dbVer : Z)
    : Handler error :=
  fun w =>
    let c := Op.InvalidateCacheEntry loggedInUser dbOwner dbFolder dbName dbVer in
    if fails w c then
      (Continue UpstreamUnavailable, set_trace (trace w ++ [Call c false]) w)
    else
      (Continue None,
       set_trace (trace w ++ [Call c true])
         (set_memcache
            (filter (fun e => negb (key_matches dbOwner dbFolder dbName dbVer (fst e)))
               (memcache w)) w)).

(** One field of a cache key, with its length in front. *)
Definition field (s : string) : string := (fmt_d (len s) ++ ":" ++ s)%string.

(** Modelled from the spec: the body of [com.TableRowsCacheKey] is missing;
    section 4.5, [key]: the fingerprint is built by concatenating all
    fields with unambiguous separators. *)
Definition TableRowsCacheKey (prefix loggedInUser dbOwner dbFolder dbName : string)
    (dbVersion : Z) (dbTable : string) (rows : Z) : string :=
  (field prefix ++ field loggedInUser ++ field dbOwner ++ field dbFolder ++ field dbName
   ++ field (fmt_d dbVersion) ++ field dbTable ++ field (fmt_d rows))%string.

End WithExternals.

End com.

(** ** The handlers of [webui/main.go] *)

Section Handlers.
Context `{Externals}.

Definition nl : string := String (ascii_of_nat 10) EmptyString.

(** [ioutil.TempFile] and the write of the upload to it. *)
Definition ioutil_TempFile : Handler error :=
  fun w =>
    if fails w Op.TempFile
    then (Continue (Some "TempFile"), set_trace (trace w ++ [Call Op.TempFile false]) w)
    else (Continue None, set_trace (trace w ++ [Call Op.TempFile true]) w).

Definition tempDB_Write (data : bytes) : Handler error :=
  fun w =>
    if fails w Op.TempFileWrite
    then (Continue (Some "write"), set_trace (trace w ++ [Call Op.TempFileWrite false]) w)
    else (Continue None, set_trace (trace w ++ [Call Op.TempFileWrite true]) w).

(** Forks a database for the logged in user. *)
Definition forkDBHandler (r : Request) : Handler unit :=
  (* Retrieve user and database name *)
  let '(dbOwner, dbName, dbVer, err) := GetODV r in
  when (negb (is_nil err))
    (errorPage StatusBadRequest (Error err) ;; go_return) ;;
  (* Make sure a version number was given *)
  when (dbVer =? 0)
    (errorPage StatusBadRequest "No database version number given" ;; go_return) ;;
  (* Retrieve session data (if any) *)
  '(loggedInUser, validSession) <- session_user r ;;
  (* Ensure we have a valid logged in user *)
  when (negb validSession)
    (errorPage StatusBadRequest "To fork a database, you need to be logged in" ;; go_return) ;;
  (* Check the user has access to the specific version of the source database requested *)
  '(allowed, err) <- com.CheckUserDBVAccess dbOwner "/" dbName dbVer loggedInUser ;;
  when (negb (is_nil err))
    (errorPage StatusInternalServerError (Error err) ;; go_return) ;;
  when (negb allowed)
    (errorPage StatusBadRequest "You don't have access to the requested database version" ;;
     go_return) ;;
  (* Make sure the source and destination owners are different *)
  when (String.eqb loggedInUser dbOwner)
    (errorPage StatusBadRequest "Forking your own database in-place doesn't make sense" ;;
     go_return) ;;
  (* Make sure the user doesn't have a database of the same name already *)
  '(v, err) <- com.HighestDBVersion loggedInUser dbName "/" loggedInUser ;;
  when (negb (is_nil err))
    (errorPage StatusInternalServerError (Error err) ;; go_return) ;;
  when (negb (v =? 0))
    (errorPage StatusBadRequest "You already have a database of this name" ;; go_return) ;;
  (* Get the Minio bucket and id for the database being forked (the source) *)
  '(sourceBucket, sourceID, err) <- com.MinioBucketID dbOwner dbName dbVer loggedInUser ;;
  when (negb (is_nil err))
    (errorPage StatusInternalServerError (Error err) ;; go_return) ;;
  (* Get the Minio bucket for the logged in user (the destination) *)
  '(destBucket, err) <- com.MinioUserBucket loggedInUser ;;
  when (negb (is_nil err))
    (errorPage StatusInternalServerError (Error err) ;; go_return) ;;
  (* Copy the Minio object to the destination bucket *)
  '(destMinioID, err) <- com.MinioObjCopy sourceBucket sourceID destBucket ;;
  when (negb (is_nil err))
    (errorPage StatusInternalServerError (Error err) ;; go_return) ;;
  (* Add the forked database info to PostgreSQL *)
  '(_, err) <- com.ForkDatabase dbOwner "/" dbName dbVer loggedInUser "/" destMinioID ;;
  when (negb (is_nil err))
    (errorPage StatusInternalServerError (Error err) ;; go_return) ;;
  (* Invalidate the old memcached entry for the database *)
  err <- com.InvalidateCacheEntry loggedInUser dbOwner "/" dbName 0 ;;
  when (negb (is_nil err))
    (log_Printf ("Error when invalidating memcache entries: " ++ Error err ++ nl) ;;
     go_return) ;;
  (* Log the database fork *)
  log_Printf ("Database '" ++ dbOwner ++ "/" ++ dbName ++ "' forked to user '"
              ++ loggedInUser ++ "'" ++ nl) ;;
  (* Bounce to the page of the forked database *)
  http_Redirect ("/" ++ loggedInUser ++ "/" ++ dbName) StatusTemporaryRedirect.

(** Handles JSON requests from the front end to toggle a database's star. *)
Definition starToggleHandler (r : Request) : Handler unit :=
  (* Extract the user and database name *)
  let '(dbOwner, dbName, err) := GetOD r in
  when (negb (is_nil err))
    (errorPage StatusBadRequest (Error err) ;; go_return) ;;
  (* Retrieve session data (if any) *)
  '(loggedInUser, validSession) <- session_user r ;;
  (* Ensure we have a valid logged in user *)
  when (negb validSession)
    (fmt_Fprint "-1" ;; go_return) ;;
  (* Toggle on or off the starring of a database by a user *)
  err <- com.ToggleDBStar loggedInUser dbOwner "/" dbName ;;
  when (negb (is_nil err))
    (fmt_Fprint "-1" ;; go_return) ;;
  (* Invalidate the old memcached entry for the database *)
  err <- com.InvalidateCacheEntry loggedInUser dbOwner "/" dbName 0 ;;
  when (negb (is_nil err))
    (log_Printf ("Error when invalidating memcache entries: " ++ Error err ++ nl) ;;
     go_return) ;;
  (* Return the updated star count *)
  '(newStarCount, err) <- com.DBStars dbOwner dbName ;;
  when (negb (is_nil err))
    (fmt_Fprint "-1" ;; go_return) ;;
  fmt_Fprint (fmt_d newStarCount).

(** [fmt.Sprintf] of the pattern tablejson/%s/%s/%d. *)
Definition tablejson_prefix (sortCol sortDir : string) (rowOffset : Z) : string :=
  ("tablejson/" ++ sortCol ++ "/" ++ sortDir ++ "/" ++ fmt_d rowOffset)%string.

(** The key under which [tableViewHandler] caches a page of rows. *)
Definition dataCacheKey (loggedInUser dbOwner dbFolder dbName : string) (dbVersion : Z)
    (requestedTable sortCol sortDir : string) (rowOffset maxRows : Z) : string :=
  com.TableRowsCacheKey (tablejson_prefix sortCol sortDir rowOffset)
    loggedInUser dbOwner dbFolder dbName dbVersion requestedTable maxRows.

(** The part of [tableViewHandler] that runs on a cache miss: it reads the
    rows from the SQLite database and caches them. *)
Definition tableView_read (pageName bkt id dbName requestedTable sortCol sortDir : string)
    (rowOffset maxRows : Z) (key : string) : Handler SQLiteRecordSet :=
  (* Open the Minio database *)
  '(sdb, _) <- com.OpenMinioObject bkt id ;;
  (* Retrieve the list of tables in the database *)
  let '(tables, err) := sdb_Tables sdb in
  when (negb (is_nil err))
    (log_Printf ("Error retrieving table names: " ++ Error err) ;; go_return) ;;
  when (Z.of_nat (List.length tables) =? 0)
    (log_Printf ("The database '" ++ dbName ++ "' doesn't seem to have any tables. Aborting.") ;;
     go_return) ;;
  (* If a specific table was requested, check it exists *)
  when (negb (String.eqb requestedTable ""))
    (let tablePresent := existsb (String.eqb requestedTable) tables in
     when (negb tablePresent)
       (errorPage StatusBadRequest "Requested table does not exist" ;; go_return)) ;;
  (* If no specific table was requested, use the first one *)
  let requestedTable := if String.eqb requestedTable "" then hd "" tables else requestedTable in
  (* If a sort column was requested, verify it exists *)
  sortCol <-
    (if negb (String.eqb sortCol "") then
       let '(colList, err) := sdb_Columns sdb requestedTable in
       when (negb (is_nil err))
         (log_Printf ("Error when reading column names for table '" ++ requestedTable ++ "': "
                      ++ Error err ++ nl) ;;
          errorPage StatusInternalServerError "Error when reading from the database" ;;
          go_return) ;;
       let colExists := existsb (fun j => String.eqb j sortCol) colList in
       (* The requested sort column doesn't exist, so we fall back to no sorting *)
       ret (if negb colExists then "" else sortCol)
     else ret sortCol) ;;
  (* Read the data from the database *)
  let '(dataRows, err) := ReadSQLiteDB sdb requestedTable maxRows sortCol sortDir rowOffset in
  when (negb (is_nil err))
    (errorPage StatusBadRequest (Error err) ;; go_return) ;;
  (* Count the total number of rows in the requested table *)
  let '(total, err) := GetSQLiteRowCount sdb requestedTable in
  let dataRows := set_TotalRows dataRows total in
  when (negb (is_nil err))
    (errorPage StatusInternalServerError (Error err) ;; go_return) ;;
  (* Cache the data in memcache *)
  err <- com.CacheData key dataRows com.CacheTime ;;
  when (negb (is_nil err))
    (log_Printf (pageName ++ ": Error when caching table data: " ++ Error err ++ nl)) ;;
  ret dataRows.

(** This passes table row data back to the main UI in JSON format. *)
Definition tableViewHandler (r : Request) : Handler unit :=
  let pageName := "Table data handler" in
  (* Retrieve user, database, and table name *)
  let '(dbOwner, dbName, requestedTable, dbVersion, err) := GetODTV r in
  when (negb (is_nil err))
    (errorPage StatusBadRequest (Error err) ;; go_return) ;;
  (* Extract sort column, sort direction, and offset variables if present *)
  let sortCol := form r "sort" in
  let sortDir := form r "dir" in
  let offsetStr := form r "offset" in
  rowOffset <-
    (if String.eqb offsetStr "" then ret 0
     else
       let '(rowOffset, err) := Atoi offsetStr in
       when (negb (is_nil err))
         (errorPage StatusBadRequest (Error err) ;; go_return) ;;
       (* Ensure the row offset isn't negative *)
       ret (if rowOffset <? 0 then 0 else rowOffset)) ;;
  (* Sanity check the sort column name *)
  when (negb (String.eqb sortCol ""))
    (let err := ValidateFieldName sortCol in
     when (negb (is_nil err))
       (log_Printf ("Validation failed on requested sort field name '" ++ sortCol ++ "': "
                    ++ Error err ++ nl) ;;
        errorPage StatusBadRequest "Validation failed on requested sort field name" ;;
        go_return)) ;;
  (* If a sort direction was provided, validate it *)
  when (negb (String.eqb sortDir ""))
    (when (negb (String.eqb sortDir "ASC") && negb (String.eqb sortDir "DESC"))
       (errorPage StatusBadRequest "Invalid sort direction" ;; go_return)) ;;
  (* Retrieve session data (if any) *)
  '(loggedInUser, _) <- session_user r ;;
  (* Check if the user has access to the requested database *)
  '(bkt, id, err) <- com.MinioBucketID dbOwner dbName dbVersion loggedInUser ;;
  when (negb (is_nil err))
    (errorPage StatusInternalServerError (Error err) ;; go_return) ;;
  (* Sanity check *)
  when (String.eqb id "")
    (log_Printf (pageName ++ ": Requested database not found. Owner: '" ++ dbOwner
                 ++ "' Database: '" ++ dbName ++ "'") ;;
     go_return) ;;
  (* Determine the number of rows to display *)
  let maxRows :=
    if negb (String.eqb loggedInUser "") then PrefUserMaxRows loggedInUser
    else com.DefaultNumDisplayRows in
  (* If the data is available from memcached, use that instead of reading from the SQLite
     database itself *)
  let key := dataCacheKey loggedInUser dbOwner "/" dbName dbVersion requestedTable
               sortCol sortDir rowOffset maxRows in
  (* If a cached version of the page data exists, use it *)
  '(dataRows, ok, err) <- com.GetCachedData key emptyRecordSet ;;
  when (negb (is_nil err))
    (log_Printf (pageName ++ ": Error retrieving table data from cache: " ++ Error err ++ nl)) ;;
  dataRows <-
    (if negb ok then
       (* Data wasn't in cache, so we gather it from the SQLite database *)
       tableView_read pageName bkt id dbName requestedTable sortCol sortDir rowOffset maxRows key
     else ret dataRows) ;;
  (* Format the output *)
  let '(jsonResponse, err) := json_MarshalIndent dataRows in
  when (negb (is_nil err))
    (log_Printf (Error err) ;; go_return) ;;
  fmt_Fprint jsonResponse.

(** What [uploadDataHandler] holds once it has determined the version
    number of the new database, before it stores anything. *)
Record Upload : Type := mkUpload {
  up_user : string;
  up_folder : string;
  up_dbName : string;
  up_data : bytes;
  up_ctype : string;
  up_shaSum : bytes;
  up_public : bool;
  up_descrip : string;
  up_readme : string;
  up_newVer : Z
}.

(** The first part of [uploadDataHandler]: the checks of the request, the
    digest, and the version number for the new database. *)
Definition upload_prepare (r : Request) : Handler Upload :=
  let pageName := "Upload DB handler" in
  (* Retrieve session data (if any) *)
  '(loggedInUser, validSession) <- session_user r ;;
  (* Ensure we have a valid logged in user *)
  when (negb validSession)
    (errorPage StatusUnauthorized "You need to be logged in" ;; go_return) ;;
  (* Prepare the form data *)
  when (negb (is_nil (parse_form_err r)))
    (log_Printf (pageName ++ ": ParseForm() error: " ++ Error (parse_form_err r) ++ nl) ;;
     errorPage StatusInternalServerError (Error (parse_form_err r)) ;;
     go_return) ;;
  (* Grab and validate the supplied public form field *)
  let '(public, err) := form_public r in
  when (negb (is_nil err))
    (log_Printf (pageName ++ ": Error when converting public value to boolean: "
                 ++ Error err ++ nl) ;;
     errorPage StatusBadRequest "Public value incorrect" ;;
     go_return) ;;
  (* Extract the other form variables *)
  let descrip := form r "descrip" in
  let readme := form r "readme" in
  (* Ensure the description is 80 chars or less *)
  when (80 <? len descrip)
    (errorPage StatusBadRequest "Description line needs to be 80 characters or less" ;;
     go_return) ;;
  let folder := "/" in
  match form_file r with
  | None =>
      log_Printf (pageName ++ ": Uploading file failed: http: no such file" ++ nl) ;;
      errorPage StatusInternalServerError "Database file missing from upload data?" ;;
      go_return
  | Some handler =>
      let dbName := Filename handler in
      (* Validate the database name *)
      let err := ValidateDB dbName in
      when (negb (is_nil err))
        (log_Printf (pageName ++ ": Validation failed for database name: " ++ Error err) ;;
         errorPage StatusBadRequest "Invalid database name" ;;
         go_return) ;;
      (* Write the temporary file locally, so we can try opening it with SQLite *)
      let tempBuf := file_data handler in
      let bytesWritten := len tempBuf in
      let err := file_read_err handler in
      when (negb (is_nil err))
        (log_Printf (pageName ++ ": Error: " ++ Error err ++ nl) ;;
         errorPage StatusInternalServerError "Internal error" ;;
         go_return) ;;
      when (bytesWritten =? 0)
        (log_Printf (pageName ++ ": Database seems to be 0 bytes in length. Username: "
                     ++ loggedInUser ++ ", Database: " ++ dbName ++ nl) ;;
         errorPage StatusBadRequest "Database file is 0 length?" ;;
         go_return) ;;
      err <- ioutil_TempFile ;;
      when (negb (is_nil err))
        (log_Printf (pageName ++ ": Error creating temporary file. User: " ++ loggedInUser
                     ++ ", Database: " ++ dbName ++ ", Error: " ++ Error err ++ nl) ;;
         errorPage StatusInternalServerError "Internal error" ;;
         go_return) ;;
      err <- tempDB_Write tempBuf ;;
      when (negb (is_nil err))
        (log_Printf (pageName ++ ": Error when writing the uploaded db to a temp file. User: "
                     ++ loggedInUser ++ ", Database: " ++ dbName ++ "Error: " ++ Error err ++ nl) ;;
         errorPage StatusInternalServerError "Internal error" ;;
         go_return) ;;
      (* Sanity check the uploaded database *)
      let err := SanityCheck tempBuf in
      when (negb (is_nil err))
        (errorPage StatusInternalServerError (Error err) ;; go_return) ;;
      (* Generate sha256 of the uploaded file *)
      emit Sha256Sum ;;
      let shaSum := sha256_Sum256 tempBuf in
      (* Determine the version number for this new database *)
      '(highVer, _) <- com.HighestDBVersion loggedInUser dbName "/" loggedInUser ;;
      let newVer :=
        if 0 <? highVer then
          (* The database already exists *)
          Go.add highVer 1
        else 1 in
      ret (mkUpload loggedInUser folder dbName tempBuf (ContentType handler) shaSum public
             descrip readme newVer)
  end.

(** The loop of [uploadDataHandler] that generates the filename to store
    the database as: a random name, drawn again until it is available. *)
Fixpoint generate_minioID (fuel : nat) (loggedInUser : string) : Handler string :=
  match fuel with
  | O => no_fuel
  | S fuel' =>
      s <- com.RandomString 8 ;;
      let minioID := (s ++ ".db")%string in
      '(okID, err) <- com.CheckMinioIDAvail loggedInUser minioID ;;
      when (negb (is_nil err))
        (errorPage StatusInternalServerError "Database query failure" ;; go_return) ;;
      if negb okID then generate_minioID fuel' loggedInUser else ret minioID
  end.

(** The second part of [uploadDataHandler]: it stores the file in Minio,
    records the new version and invalidates the cache. *)
Definition upload_commit (u : Upload) : Handler unit :=
  let pageName := "Upload DB handler" in
  let loggedInUser := up_user u in
  let dbName := up_dbName u in
  (* Retrieve the Minio bucket to store the database in *)
  '(bkt, err) <- com.MinioUserBucket loggedInUser ;;
  when (negb (is_nil err))
    (errorPage StatusInternalServerError "Database query failure" ;; go_return) ;;
  (* Generate filename to store the database as *)
  w <- get_world ;;
  minioID <- generate_minioID (S (List.length (rnd w))) loggedInUser ;;
  (* Store the database file in Minio *)
  '(dbSize, err) <- com.StoreMinioObject bkt minioID (up_data u) (up_ctype u) ;;
  when (negb (is_nil err))
    (errorPage StatusInternalServerError "Storing database file failed" ;; go_return) ;;
  (* Add the database file details to PostgreSQL *)
  err <- com.AddDatabase loggedInUser (up_folder u) dbName (up_newVer u) (up_shaSum u) dbSize
           (up_public u) bkt minioID (up_descrip u) (up_readme u) ;;
  when (negb (is_nil err))
    (errorPage StatusInternalServerError "Adding database details to PostgreSQL failed" ;;
     go_return) ;;
  (* Log the successful database upload *)
  log_Printf (pageName ++ ": Username: " ++ loggedInUser ++ ", database '" ++ dbName
              ++ "' uploaded as '" ++ minioID ++ "', bytes: " ++ fmt_d dbSize ++ nl) ;;
  (* Invalidate any memcached entries for the previous highest version # of the database *)
  err <- com.InvalidateCacheEntry loggedInUser loggedInUser (up_folder u) dbName 0 ;;
  when (negb (is_nil err))
    (log_Printf ("Error when invalidating memcache entries: " ++ Error err ++ nl) ;;
     go_return) ;;
  (* Database upload succeeded.  Bounce the user to the page for their new database *)
  http_Redirect ("/" ++ loggedInUser ++ "/" ++ dbName) StatusTemporaryRedirect.

(** This function processes new database data submitted through the upload form. *)
Definition uploadDataHandler (r : Request) : Handler unit :=
  u <- upload_prepare r ;;
  upload_commit u.

End Handlers.

(** ** Concurrent uploads

    Every request runs in a goroutine of its own against the shared
    services. An upload reads the highest version in its first part and
    records the new version in its second; the scheduler may run parts of
    other uploads in between. *)

Inductive Thread : Type :=
| Fresh (r : Request)
| Pending (u : Upload)
| Finished (assigned : option Z).

Section Scheduler.
Context `{Externals}.

(** One scheduling step of a thread: the next part of its handler. *)
Definition thread_step (t : Thread) (w : World) : Thread * World :=
  match t with
  | Fresh r =>
      match upload_prepare r w with
      | (Continue u, w') => (Pending u, w')
      | (_, w') => (Finished None, w')
      end
  | Pending u => (Finished (Some (up_newVer u)), snd (upload_commit u w))
  | Finished a => (Finished a, w)
  end.

Fixpoint set_nth {A : Type} (n : nat) (x : A) (l : list A) : list A :=
  match l, n with
  | [], _ => []
  | _ :: l', O => x :: l'
  | y :: l', S n' => y :: set_nth n' x l'
  end.

(** Runs the threads in the order the schedule names them. *)
Fixpoint run_schedule (sched : list nat) (ts : list Thread) (w : World)
    : list Thread * World :=
  match sched with
  | [] => (ts, w)
  | i :: sched' =>
      match nth_error ts i with
      | Some t =>
          let '(t', w') := thread_step t w in
          run_schedule sched' (set_nth i t' ts) w'
      | None => run_schedule sched' ts w
      end
  end.

(** The version numbers the uploads were given, thread by thread. *)
Definition assigned_versions (ts : list Thread) : list (option Z) :=
  map (fun t => match t with
                | Fresh _ => None
                | Pending u => Some (up_newVer u)
                | Finished a => a
                end) ts.

(** The version recorded by the successful [com.AddDatabase] call of a
    run, if there is one. *)
Fixpoint committed_version (evs : list Event) : option Z :=
  match evs with
  | [] => None
  | Call (Op.AddDatabase _ _ _ v _ _) true :: _ => Some v
  | _ :: evs' => committed_version evs'
  end.

(** Uploads that run one after the other, each from start to end; the
    result is the final world and the version each upload recorded. *)
Fixpoint serial_uploads (rs : list Request) (w : World) : option (World * list (option Z)) :=
  match rs with
  | [] => Some (w, [])
  | r :: rs' =>
      match run (uploadDataHandler r) w with
      | None => None
      | Some w1 =>
          match serial_uploads rs' w1 with
          | None => None
          | Some (w2, vs) => Some (w2, committed_version (new_events w w1) :: vs)
          end
      end
  end.

End Scheduler.

(** The versions that were recorded, in order. *)
Definition recorded (vs : list (option Z)) : list Z :=
  flat_map (fun o => match o with Some v => [v] | None => [] end) vs.

(** The numbers k+1, ..., k+n. *)
Definition count_from (k n : nat) : list Z := map Z.of_nat (seq (S k) n).

(** ** Cache keys *)

(** The inputs of the key of a cached page of rows. *)
Record KeyInput : Type := mkKeyInput {
  k_viewer : string;
  k_owner : string;
  k_folder : string;
  k_name : string;
  k_version : Z;
  k_table : string;
  k_sortCol : string;
  k_sortDir : string;
  k_offset : Z;
  k_rowCap : Z
}.

(** The key as [tableViewHandler] builds it, as a function of its inputs. *)
Definition cacheKey (i : KeyInput) : string :=
  dataCacheKey (k_viewer i) (k_owner i) (k_folder i) (k_name i) (k_version i) (k_table i)
    (k_sortCol i) (k_sortDir i) (k_offset i) (k_rowCap i).

(** In how many inputs two key inputs differ. *)
Definition differences (a b : KeyInput) : nat :=
  let d (same : bool) : nat := if same then 0%nat else 1%nat in
  (d (String.eqb (k_viewer a) (k_viewer b)) + d (String.eqb (k_owner a) (k_owner b))
   + d (String.eqb (k_folder a) (k_folder b)) + d (String.eqb (k_name a) (k_name b))
   + d (Z.eqb (k_version a) (k_version b)) + d (String.eqb (k_table a) (k_table b))
   + d (String.eqb (k_sortCol a) (k_sortCol b)) + d (String.eqb (k_sortDir a) (k_sortDir b))
   + d (Z.eqb (k_offset a) (k_offset b)) + d (Z.eqb (k_rowCap a) (k_rowCap b)))%nat.

(** The character does not occur in the string. *)
Fixpoint absent (c : ascii) (s : string) : Prop :=
  match s with
  | EmptyString => True
  | String x r => x <> c /\ absent c r
  end.

(** ** Predicates on traces *)

(** The properties of the handlers are stated on the events a run has
    added to the trace. *)

(** A successful mutation of a database, with the user it was made for and
    the owner, folder and name the handler passes on to the cache. *)
Definition mutation_ok (e : Event) : option (string * string * string * string) :=
  match e with
  | Call (Op.AddDatabase o f n _ _ _) true => Some (o, o, f, n)
  | Call (Op.ForkDatabase so f n _ d _ _) true => Some (d, so, f, n)
  | Call (Op.ToggleDBStar u o f n) true => Some (u, o, f, n)
  | _ => None
  end.

Fixpoint skip_logs (evs : list Event) : list Event :=
  match evs with
  | Log _ :: rest => skip_logs rest
  | _ => evs
  end.

(** Every successful mutation is followed, log lines apart, by the call
    that invalidates the cache entries of all versions of its database. *)
Fixpoint invalidation_follows (evs : list Event) : Prop :=
  match evs with
  | [] => True
  | e :: rest =>
      match mutation_ok e with
      | Some (u, o, f, n) =>
          exists ok rest', skip_logs rest = Call (Op.InvalidateCacheEntry u o f n 0) ok :: rest'
      | None => True
      end /\ invalidation_follows rest
  end.

(** The user a request is made for: the empty name when nobody is logged in. *)
Definition viewer_of (r : Request) : string :=
  match req_session r with
  | SessionOf u => u
  | _ => ""
  end.

Definition cache_read_key (e : Event) : option string :=
  match e with
  | Call (Op.GetCachedData k) _ => Some k
  | _ => None
  end.

(** No cache lookup happens before the event [access]. *)
Fixpoint reads_guarded (access : Event) (evs : list Event) : Prop :=
  match evs with
  | [] => True
  | e :: rest => e = access \/ (cache_read_key e = None /\ reads_guarded access rest)
  end.

(** The run of a handler finishes, and [Q] holds of the world it leaves and
    of the events it has added to the trace. *)
Definition ends {A : Type} (h : Handler A) (w : World)
    (Q : World -> list Event -> Prop) : Prop :=
  match h w with
  | (NoFuel, _) => False
  | (_, w') => exists evs, trace w' = trace w ++ evs /\ Q w' evs
  end.

(** If the run of a handler finishes, [Q] holds of the world it leaves and
    of the events it has added to the trace. *)
Definition always {A : Type} (h : Handler A) (w : World)
    (Q : World -> list Event -> Prop) : Prop :=
  match h w with
  | (NoFuel, _) => True
  | (_, w') => exists evs, trace w' = trace w ++ evs /\ Q w' evs
  end.

(** After a failed cache invalidation a handler does nothing but log it. *)
Fixpoint stops_after_failed_invalidation (evs : list Event) : Prop :=
  match evs with
  | [] => True
  | Call (Op.InvalidateCacheEntry _ _ _ _ _) false :: rest => exists msg, rest = [Log msg]
  | _ :: rest => stops_after_failed_invalidation rest
  end.

(** The stores a request can change. *)
Definition same_stores (w w' : World) : Prop :=
  pg_dbs w' = pg_dbs w /\ pg_versions w' = pg_versions w /\ pg_stars w' = pg_stars w
  /\ minio w' = minio w /\ memcache w' = memcache w.

(** Events that touch neither a service nor the uploaded bytes. *)
Definition response_only (e : Event) : Prop :=
  match e with
  | Log _ | ErrorPage _ _ | SessionRemove => True
  | _ => False
  end.

(** Events of a request that at most reads the metadata store. *)
Definition read_only (e : Event) : Prop :=
  match e with
  | Log _ | ErrorPage _ _ | SessionRemove => True
  | Call (Op.CheckUserDBVAccess _ _ _ _ _) _ => True
  | Call (Op.HighestDBVersion _ _ _ _) _ => True
  | _ => False
  end.

Definition is_error_page (e : Event) : Prop :=
  match e with ErrorPage _ _ => True | _ => False end.

Definition is_client_error (e : Event) : Prop :=
  match e with ErrorPage st _ => 400 <= st < 500 | _ => False end.

(** The events of the loop that draws an object id. *)
Definition loop_event (e : Event) : Prop :=
  match e with
  | Call (Op.CheckMinioIDAvail _ _) _ => True
  | ErrorPage _ _ => True
  | _ => False
  end.

(** Versions of an identity start at 1: an identity that has a version has
    version 1. *)
Definition starts_at_one (vs : list VersionEntry) (i : Identity) : Prop :=
  com.versions_of vs i <> [] -> In 1 (com.versions_of vs i).

(** ** A small deployment, for running the handlers *)

Module Demo.

(** Validators that accept every name, a reader for a database with the
    single table [t], and cache keys that are not decoded. *)
#[export] Instance ext : Externals := {|
  ValidateDB := fun _ => None;
  ValidateFieldName := fun _ => None;
  SanityCheck := fun _ => None;
  sha256_Sum256 := fun b => b;
  PrefUserMaxRows := fun _ => 25;
  userBucket := fun u => ("bkt-" ++ u)%string;
  sdb_Tables := fun _ => (["t"], None);
  sdb_Columns := fun _ _ => (["c"], None);
  ReadSQLiteDB := fun _ t _ _ _ _ => (mkRecordSet t ["c"] [["1"]] 0, None);
  GetSQLiteRowCount := fun _ _ => (1, None);
  json_MarshalIndent := fun d => (Tablename d, None);
  keyIdentity := fun _ => None
|}.

Definition healthy : Op.t -> bool := fun _ => false.

Definition empty : World :=
  mkWorld [] [] [] [] [] healthy ["aaaaaaaa"; "bbbbbbbb"; "cccccccc"] [].

Definition no_form : string -> string := fun _ => "".

(** A logged in user uploads a file. *)
Definition upload_req (user name : string) (data : bytes) (public : bool) : Request :=
  mkRequest (SessionOf user) "" "" "" 0 None no_form None (public, None)
    (Some (mkFormFile name "application/x-sqlite3" data None)).

(** A request to fork owner/name at a version, by a logged in user. *)
Definition fork_req (user owner name : string) (ver : Z) : Request :=
  mkRequest (SessionOf user) owner name "" ver None no_form None (false, None) None.

(** A request for rows of a table, or to toggle the star of a database. *)
Definition table_req (s : Session) (owner name table : string) (ver : Z) : Request :=
  mkRequest s owner name table ver None no_form None (false, None) None.

(** The world a run leaves, or the world before it when it does not finish. *)
Definition after (h : Handler unit) (w : World) : World :=
  match run h w with
  | Some w' => w'
  | None => w
  end.

Definition fresh_trace (w : World) : World := set_trace [] w.

Definition alice_sales : Identity := mkIdentity "alice" "/" "sales.db".

(** The world after alice has uploaded a private sales.db. *)
Definition alice_v1 : World :=
  fresh_trace (after (uploadDataHandler (upload_req "alice" "sales.db" "SQLite" false)) empty).

(** The world after bob has uploaded a sales.db of his own as well. *)
Definition both_v1 : World :=
  fresh_trace (after (uploadDataHandler (upload_req "bob" "sales.db" "SQLite 2" false)) alice_v1).

(** The same, with a public sales.db of alice. *)
Definition public_v1 : World :=
  fresh_trace
    (after (uploadDataHandler (upload_req "bob" "sales.db" "SQLite 2" false))
       (fresh_trace
          (after (uploadDataHandler (upload_req "alice" "sales.db" "SQLite" true)) empty))).

(** alice uploads sales.db three times. *)
Definition three_uploads : list Request :=
  [upload_req "alice" "sales.db" "one" false;
   upload_req "alice" "sales.db" "two" false;
   upload_req "alice" "sales.db" "three" false].

Definition three_results : World * list (option Z) :=
  match serial_uploads three_uploads empty with
  | Some p => p
  | None => (empty, [])
  end.

(** Two uploads of sales.db by alice, in flight at the same time. *)
Definition two_threads : list Thread :=
  [Fresh (upload_req "alice" "sales.db" "one" false);
   Fresh (upload_req "alice" "sales.db" "two" false)].

(** Both uploads read the highest version before either records its own. *)
Definition interleaved : list nat := [0; 1; 0; 1]%nat.

(** The cache service is down for invalidations. *)
Definition invalidate_down : Op.t -> bool :=
  fun c => match c with Op.InvalidateCacheEntry _ _ _ _ _ => true | _ => false end.

(** The cache service refuses writes. *)
Definition cache_write_down : Op.t -> bool :=
  fun c => match c with Op.CacheData _ => true | _ => false end.

Definition with_fails (f : Op.t -> bool) (w : World) : World :=
  mkWorld (pg_dbs w) (pg_versions w) (pg_stars w) (minio w) (memcache w) f (rnd w) (trace w).

End Demo.

(** ** More predicates on requests and traces *)

(** The sort directions [tableViewHandler] and [mainHandler] let through. *)
Definition valid_sort_dir (sortDir : string) : bool :=
  String.eqb sortDir "" || String.eqb sortDir "ASC" || String.eqb sortDir "DESC".

(** Events that reach no service and do not read the uploaded bytes. *)
Definition no_service (e : Event) : Prop :=
  match e with
  | Call _ _ | Sha256Sum => False
  | _ => True
  end.

(** Service calls of a table view that is answered from the cache. *)
Definition cache_hit_call (k : string) (e : Event) : Prop :=
  match e with
  | Call (Op.MinioBucketID _ _ _ _) _ => True
  | Call (Op.GetCachedData k') _ => k' = k
  | Call _ _ => False
  | _ => True
  end.

(** ** The handlers of pages, accounts, settings and downloads

    The other handlers of [webui/main.go] render pages, add sessions, set
    response headers and call functions of package [common] that are not
    part of the metadata, blob and cache services above. Their runs are
    recorded as lists of actions. *)

Module Site.

(** A value of a session attribute or of a field of the Auth0 profile:
    Go's [interface{}]. *)
Inductive Attr : Type :=
| AString (s : string)
| ABool (b : bool)
| AOther.

(** The request, as these handlers read it. *)
Record Visit : Type := mkVisit {
  (* the session, the URL as package common splits it, and the form *)
  req : Request;
  (* sess.CAttr, for the attributes of a registration session *)
  cattr : string -> option Attr;
  (* r.URL.Path *)
  path : string;
  (* r.URL.Query().Get with the name code *)
  query_code : string;
  (* com.GetFormVersion *)
  form_version : Z * error;
  (* com.GetFormUFD *)
  form_ufd : string * string * string * error;
  (* r.RemoteAddr, r.Method, r.URL, r.Proto, r.Referer(), the User-Agent header *)
  remote_addr : string;
  method : string;
  url : string;
  proto : string;
  referer : string;
  user_agent : string
}.

(** The functions of package [common] and of the libraries that these
    handlers call and whose code is not in [webui/main.go]. [Store] is the
    part of the PostgreSQL database they read and change. *)
Class Backend : Type := {
  Store : Type;
  (** validators of package [common] *)
  ValidateUser : string -> error;
  ReservedUsernamesCheck : string -> error;
  ValidateUserDB : string -> string -> error;
  ValidatePGTable : string -> error;
  (** [com.Validate.Var] *)
  Validate_Var : string -> string -> error;
  (** accounts *)
  CheckUserExists : Store -> string -> bool * error;
  CheckEmailExists : Store -> string -> bool * error;
  UserNameFromAuth0ID : Store -> string -> string * error;
  AddUser : Store -> string -> string -> string -> string -> Store * error;
  SetPrefUserMaxRows : Store -> string -> Z -> Store * error;
  (** client certificates *)
  ClientCert : Store -> string -> bytes * error;
  GenerateClientCert : string -> Z -> bytes * error;
  SetClientCert : Store -> bytes -> string -> Store * error;
  (** database settings *)
  SaveDBSettings :
    Store -> string -> string -> string -> string -> string -> string -> bool -> Store * error;
  RenameDatabase : Store -> string -> string -> string -> string -> Store * error;
  (** [com.Tables] and [com.ReadSQLiteDBCSV] on an opened object *)
  Tables : option bytes -> string -> list string * error;
  ReadSQLiteDBCSV : option bytes -> string -> list (list string) * error;
  (** [csv.Writer.WriteAll]: what reaches the response, and the error *)
  csv_WriteAll : list (list string) -> bytes * error;
  (** [io.Copy] to the response: [None] when all bytes are written, or the
      number of bytes written before it fails *)
  io_Copy_cut : bytes -> option nat;
  (** [com.MinioHandle] fails *)
  MinioHandle_fails : string -> string -> bool;
  (** [url.QueryEscape], [strings.ToLower], [commonmark.Md2Html] *)
  url_QueryEscape : string -> string;
  strings_ToLower : string -> string;
  Md2Html : string -> string;
  (** [time.Now().Format(time.RFC3339Nano)] *)
  time_Now : string;
  (** Auth0: [com.Auth0Domain], [conf.Exchange], [conn.Get],
      [ioutil.ReadAll] of the body, [json.Unmarshal] of the profile *)
  Auth0Domain : string;
  oauth_Exchange : string -> string * error;
  conn_Get : string -> string -> bytes * error;
  ioutil_ReadAll : bytes -> bytes * error;
  json_Unmarshal : bytes -> (string -> option Attr) * error
}.

(** The pages of the site (rendered by functions defined with the page
    templates). *)
Inductive Page : Type :=
| frontPage
| userPage (userName : string)
| databasePage (userName dbName : string) (dbVersion : Z) (dbTable sortCol sortDir : string)
    (rowOffset : Z)
| selectUsernamePage
| prefPage (userName : string)
| uploadPage (userName : string)
| forksPage (dbOwner dbFolder dbName : string)
| starsPage (dbOwner dbName : string).

(** The calls that change the store. *)
Module Change.
Inductive t : Type :=
| AddUser (auth0ID userName password email : string)
| SetPrefUserMaxRows (userName : string) (maxRows : Z)
| SetClientCert (cert : bytes) (userName : string)
| SaveDBSettings (userName dbFolder dbName descrip readme defTable : string) (public : bool)
| RenameDatabase (userName dbFolder dbName newName : string).
End Change.

Inductive Action : Type :=
(* a log line, error page, redirect, body, removed session or service call *)
| Did (e : Event)
(* a page is rendered *)
| Render (p : Page)
(* w.Header().Set *)
| SetHeader (key value : string)
(* w.Write *)
| Body (data : bytes)
(* http.Error *)
| HttpError (msg : string) (status : Z)
(* session.Add of a new session with these attributes *)
| SessionAdd (attrs : list (string * Attr))
(* a call that changes the store, and whether it returned without error *)
| Changed (c : Change.t) (ok : bool)
(* com.MinioHandle *)
| Handle (bkt id : string) (ok : bool)
(* a line of the request log *)
| RequestLog (line : string).

(** A handler of this part may also panic: an index out of range, or a
    type assertion on a value of another type. *)
Inductive Result (A : Type) : Type :=
| Next (a : A)
| Exit
| Panic
| Starved.
Arguments Next {A} a.
Arguments Exit {A}.
Arguments Panic {A}.
Arguments Starved {A}.

Section WithBackend.
Context `{Externals} `{Backend}.

Record State : Type := mkState {
  world : World;
  store : Store;
  acts : list Action
}.

Definition Script (A : Type) : Type := State -> Result A * State.

Definition sret {A : Type} (a : A) : Script A := fun s => (Next a, s).

Definition sbind {A B : Type} (c : Script A) (k : A -> Script B) : Script B :=
  fun s =>
    match c s with
    | (Next a, s') => k a s'
    | (Exit, s') => (Exit, s')
    | (Panic, s') => (Panic, s')
    | (Starved, s') => (Starved, s')
    end.

Declare Scope site_scope.
Delimit Scope site_scope with site.
Notation "x <- c ;; k" := (sbind c (fun x => k))
  (at level 61, c at next level, right associativity) : site_scope.
Notation "' p <- c ;; k" := (sbind c (fun x => let 'p := x in k))
  (at level 61, p pattern, c at next level, right associativity) : site_scope.
Notation "c ;; k" := (sbind c (fun _ => k))
  (at level 61, right associativity) : site_scope.
Local Open Scope site_scope.

(** Go's [return] from the handler, and a run-time panic. *)
Definition leave {A : Type} : Script A := fun s => (Exit, s).
Definition panic {A : Type} : Script A := fun s => (Panic, s).

Definition swhen (b : bool) (h : Script unit) : Script unit :=
  if b then h else sret tt.

Definition act (a : Action) : Script unit :=
  fun s => (Next tt, mkState (world s) (store s) (acts s ++ [a])).

(** A handler of the first part, run on the services of the state: the
    events it leaves are recorded as actions. It runs on an empty trace,
    so that the trace it leaves holds its own events. *)
Definition lift {A : Type} (h : Handler A) : Script A :=
  fun s =>
    let '(o, w') := h (set_trace [] (world s)) in
    let s' := mkState (set_trace (trace (world s) ++ trace w') w') (store s)
                (acts s ++ map Did (trace w')) in
    match o with
    | Continue a => (Next a, s')
    | Returned => (Exit, s')
    | NoFuel => (Starved, s')
    end.

(** A call that reads the store. *)
Definition query {A : Type} (f : Store -> A) : Script A :=
  fun s => (Next (f (store s)), s).

(** A call that changes the store. *)
Definition mutate (c : Change.t) (f : Store -> Store * error) : Script error :=
  fun s =>
    let '(st, err) := f (store s) in
    (Next err, mkState (world s) st (acts s ++ [Changed c (is_nil err)])).

Definition log_Printf (msg : string) : Script unit := act (Did (Log msg)).
Definition errorPage (status : Z) (msg : string) : Script unit :=
  act (Did (ErrorPage status msg)).
Definition http_Redirect (target : string) (status : Z) : Script unit :=
  act (Did (RedirectTo target status)).
Definition fmt_Fprint (body : string) : Script unit := act (Did (Fprint body)).
Definition http_Error (msg : string) (status : Z) : Script unit := act (HttpError msg status).
Definition session_Add (attrs : list (string * Attr)) : Script unit := act (SessionAdd attrs).
Definition session_Remove : Script unit := act (Did SessionRemove).
Definition render (p : Page) : Script unit := act (Render p).
Definition Header_Set (key value : string) : Script unit := act (SetHeader key value).

Definition StatusForbidden : Z := 403.
Definition StatusConflict : Z := 409.

(** [x.(string)] and [x.(bool)] *)
Definition as_string (x : Attr) : Script string :=
  match x with AString s => sret s | _ => panic end.
Definition as_bool (x : Attr) : Script bool :=
  match x with ABool b => sret b | _ => panic end.

(** [strings.Split(s, sep)] for a separator of one character. *)
Fixpoint strings_Split (s : string) (sep : ascii) : list string :=
  match s with
  | EmptyString => [EmptyString]
  | String c r =>
      match strings_Split r sep with
      | [] => [String c EmptyString]
      | p :: ps => if Ascii.eqb c sep then EmptyString :: p :: ps else String c p :: ps
      end
  end.

(** [xs[i]] *)
Definition index (xs : list string) (i : nat) : Script string :=
  match nth_error xs i with
  | Some x => sret x
  | None => panic
  end.

(** Modelled from the spec: the body of [com.MinioHandle] is missing;
    section 6, [open(bucket, id)]. *)
Definition MinioHandle (bkt id : string) : Script (bytes * error) :=
  fun s =>
    let out (data : bytes) (e : error) :=
      (Next (data, e),
       mkState (world s) (store s) (acts s ++ [Handle bkt id (is_nil e)])) in
    if MinioHandle_fails bkt id then out "" (Some "UpstreamUnavailable")
    else match com.find_object (world s) bkt id with
         | Some o => out (o_data o) None
         | None => out "" (Some "NotFound")
         end.

(** [io.Copy(w, userDB)] *)
Definition io_Copy (data : bytes) : Script (Z * error) :=
  match io_Copy_cut data with
  | None => act (Body data) ;; sret (len data, None)
  | Some n =>
      let sent := substring 0 n data in
      act (Body sent) ;; sret (len sent, Some "write failed")
  end.

(** This is called at the end of the Auth0 authentication process. *)
Definition auth0CallbackHandler (v : Visit) : Script unit :=
  let code := query_code v in
  let '(token, err) := oauth_Exchange code in
  swhen (negb (is_nil err))
    (log_Printf ("Login failure: " ++ Error err ++ nl) ;;
     errorPage StatusInternalServerError "Login failed" ;;
     leave) ;;
  (* Retrieve the user info (JSON format) *)
  let '(userInfo, err) := conn_Get token ("https://" ++ Auth0Domain ++ "/userinfo") in
  swhen (negb (is_nil err))
    (errorPage StatusInternalServerError (Error err) ;; leave) ;;
  let '(raw, err) := ioutil_ReadAll userInfo in
  swhen (negb (is_nil err))
    (errorPage StatusInternalServerError (Error err) ;; leave) ;;
  (* Convert the JSON into something usable *)
  let '(profile, err) := json_Unmarshal raw in
  swhen (negb (is_nil err))
    (errorPage StatusInternalServerError (Error err) ;; leave) ;;
  (* Extract the information we need *)
  email <- match profile "email" with Some em => as_string em | None => sret "" end ;;
  auth0ID <- match profile "user_id" with Some au => as_string au | None => sret "" end ;;
  swhen (String.eqb auth0ID "")
    (log_Printf ("Auth0 callback error: Auth0 ID string was empty. Email: " ++ email ++ nl) ;;
     errorPage StatusInternalServerError "Error: Auth0 ID string was empty" ;;
     leave) ;;
  nickName <- match profile "nickname" with Some ni => as_string ni | None => sret "" end ;;
  (* If the user has an unverified email address, tell them to verify it before proceeding *)
  match profile "email_verified" with
  | Some ve =>
      b <- as_bool ve ;;
      swhen (negb b)
        (errorPage StatusUnauthorized
           ("Please check your email.  You need to verify your "
            ++ "email address before logging in will work.") ;;
         leave)
  | None => sret tt
  end ;;
  (* Determine the DBHub.io username matching the given Auth0 ID *)
  '(userName, err) <- query (fun st => UserNameFromAuth0ID st auth0ID) ;;
  swhen (negb (is_nil err))
    (errorPage StatusInternalServerError (Error err) ;; leave) ;;
  (* If the user doesn't already exist, we need to create an account for them *)
  swhen (String.eqb userName "")
    (swhen (negb (String.eqb email ""))
       ((* Check if the email address is already in our system *)
        '(exists_, err) <- query (fun st => CheckEmailExists st email) ;;
        swhen (negb (is_nil err))
          (errorPage StatusInternalServerError "Email check failed" ;; leave) ;;
        swhen exists_
          (errorPage StatusConflict
             ("Can't create new account: Your email address is already associated "
              ++ "with a different account in our system.") ;;
           leave)) ;;
     (* Create a special session cookie, purely for the registration page *)
     session_Add [("registrationinprogress", ABool true); ("auth0id", AString auth0ID);
                  ("email", AString email); ("nickname", AString nickName)] ;;
     (* Bounce to a new page, for the user to select their preferred username *)
     http_Redirect "/selectusername" StatusTemporaryRedirect) ;;
  (* Create session cookie for the user *)
  session_Add [("UserName", AString userName)] ;;
  (* Login completed, so bounce to the users' profile page *)
  http_Redirect ("/" ++ userName) StatusTemporaryRedirect.

Definition createUserHandler (v : Visit) : Script unit :=
  (* Make sure this user creation session is valid *)
  swhen (match req_session (req v) with NoSession => true | _ => false end)
    (errorPage StatusBadRequest "Invalid user creation session" ;; leave) ;;
  validRegSession <-
    match cattr v "registrationinprogress" with
    | None => errorPage StatusBadRequest "Invalid user creation session" ;; leave
    | Some va => as_bool va
    end ;;
  swhen (negb validRegSession)
    (errorPage StatusBadRequest "Invalid user creation session" ;; leave) ;;
  (* Retrieve the registration data *)
  auth0ID <-
    match cattr v "auth0id" with
    | Some au => as_string au
    | None => errorPage StatusBadRequest "Invalid user creation id" ;; leave
    end ;;
  email <-
    match cattr v "email" with
    | Some em => as_string em
    | None => errorPage StatusBadRequest "Invalid user creation email" ;; leave
    end ;;
  (* Gather submitted form data (if any) *)
  let err := parse_form_err (req v) in
  swhen (negb (is_nil err))
    (log_Printf ("Error when parsing user creation data: " ++ Error err ++ nl) ;;
     errorPage StatusBadRequest "Error when parsing user creation data" ;;
     leave) ;;
  let userName := form (req v) "username" in
  (* Ensure username was given *)
  swhen (String.eqb userName "")
    (render selectUsernamePage ;; leave) ;;
  (* Validate the user supplied username *)
  let err := ValidateUser userName in
  swhen (negb (is_nil err))
    (log_Printf ("Username failed validation: " ++ Error err) ;;
     session_Remove ;;
     errorPage StatusBadRequest "Username failed validation" ;;
     leave) ;;
  (* Ensure the username isn't a reserved one *)
  let err := ReservedUsernamesCheck userName in
  swhen (negb (is_nil err))
    (log_Printf (Error err ++ nl) ;;
     session_Remove ;;
     errorPage StatusBadRequest (Error err) ;;
     leave) ;;
  (* Check if the username is already in our system *)
  '(exists_, err) <- query (fun st => CheckUserExists st userName) ;;
  swhen (negb (is_nil err))
    (session_Remove ;;
     errorPage StatusInternalServerError "Username check failed" ;;
     leave) ;;
  swhen exists_
    (session_Remove ;;
     errorPage StatusConflict "That username is already taken" ;;
     leave) ;;
  (* Add the user to the system *)
  password <- lift (com.RandomString 32) ;;
  err <- mutate (Change.AddUser auth0ID userName password email)
           (fun st => AddUser st auth0ID userName password email) ;;
  swhen (negb (is_nil err))
    (session_Remove ;;
     errorPage StatusInternalServerError "Something went wrong during user creation" ;;
     leave) ;;
  (* Remove the temporary username selection session data *)
  session_Remove ;;
  (* Create normal session cookie for the user *)
  session_Add [("UserName", AString userName)] ;;
  (* User creation completed, so bounce to the user's profile page *)
  http_Redirect ("/" ++ userName) StatusTemporaryRedirect.

(** This is called from the username selection page, to check if a name is available. *)
Definition checkNameHandler (v : Visit) : Script unit :=
  (* Retrieve the potential username from the URL *)
  let userName := form (req v) "name" in
  (* Validate the user supplied username *)
  swhen (negb (is_nil (ValidateUser userName)))
    (fmt_Fprint "n" ;; leave) ;;
  (* Ensure the username isn't a reserved one *)
  swhen (negb (is_nil (ReservedUsernamesCheck userName)))
    (fmt_Fprint "n" ;; leave) ;;
  (* Check if the username is already in our system *)
  '(exists_, err) <- query (fun st => CheckUserExists st userName) ;;
  swhen (negb (is_nil err))
    (fmt_Fprint "n" ;; leave) ;;
  swhen exists_
    (fmt_Fprint "n" ;; leave) ;;
  (* The username is available *)
  fmt_Fprint "y" ;;
  leave.

Definition downloadCertHandler (v : Visit) : Script unit :=
  (* Retrieve session data (if any) *)
  '(loggedInUser, validSession) <- lift (session_user (req v)) ;;
  (* Ensure we have a valid logged in user *)
  swhen (negb validSession)
    (errorPage StatusBadRequest "Not logged in" ;; leave) ;;
  (* Retrieve the client certificate from the PG database *)
  '(cert, err) <- query (fun st => ClientCert st loggedInUser) ;;
  swhen (negb (is_nil err))
    (errorPage StatusInternalServerError
       ("Retrieving client cert from database failed for user: " ++ loggedInUser) ;;
     leave) ;;
  (* Send the client certificate to the user *)
  Header_Set "Content-Disposition" ("attachment; filename=" ++ loggedInUser ++ ".cert.pem") ;;
  Header_Set "Content-Type" "application/x-pem-file" ;;
  act (Body cert) ;;
  leave.

Definition downloadCSVHandler (v : Visit) : Script unit :=
  let pageName := "Download CSV" in
  (* Extract the username, database, table, and version requested *)
  let '(dbOwner, dbName, dbTable, dbVersion, err) := GetODTV (req v) in
  swhen (negb (is_nil err))
    (errorPage StatusBadRequest (Error err) ;; leave) ;;
  (* Abort if no table name was given *)
  swhen (String.eqb dbTable "")
    (log_Printf (pageName ++ ": No table name given" ++ nl) ;;
     errorPage StatusBadRequest "No table name given" ;;
     leave) ;;
  (* Retrieve session data (if any) *)
  '(loggedInUser, _) <- lift (session_user (req v)) ;;
  (* Verify the given database exists and is ok to be downloaded *)
  '(bkt, id, err) <- lift (com.MinioBucketID dbOwner dbName dbVersion loggedInUser) ;;
  swhen (negb (is_nil err))
    (errorPage StatusInternalServerError (Error err) ;; leave) ;;
  (* Get a handle from Minio for the database object *)
  '(sdb, err) <- lift (com.OpenMinioObject bkt id) ;;
  swhen (negb (is_nil err))
    (log_Printf (pageName ++ ": Error retrieving DB from Minio: " ++ Error err ++ nl) ;;
     errorPage StatusInternalServerError "Database query failed" ;;
     leave) ;;
  (* Read the table data from the database object *)
  let '(resultSet, _) := ReadSQLiteDBCSV sdb dbTable in
  (* Convert resultSet into CSV and send to the user *)
  Header_Set "Content-Disposition"
    ("attachment; filename=" ++ url_QueryEscape dbTable ++ ".csv") ;;
  Header_Set "Content-Type" "text/csv" ;;
  let '(sent, err) := csv_WriteAll resultSet in
  act (Body sent) ;;
  swhen (negb (is_nil err))
    (log_Printf (pageName ++ ": Error when generating CSV: " ++ Error err ++ nl) ;;
     errorPage StatusInternalServerError "Error when generating CSV" ;;
     leave).

Definition downloadHandler (v : Visit) : Script unit :=
  let pageName := "Download Handler" in
  let '(dbOwner, dbName, dbVersion, err) := GetODV (req v) in
  swhen (negb (is_nil err))
    (errorPage StatusBadRequest (Error err) ;; leave) ;;
  (* Retrieve session data (if any) *)
  '(loggedInUser, _) <- lift (session_user (req v)) ;;
  (* Verify the given database exists and is ok to be downloaded *)
  '(bkt, id, err) <- lift (com.MinioBucketID dbOwner dbName dbVersion loggedInUser) ;;
  swhen (negb (is_nil err))
    (errorPage StatusInternalServerError (Error err) ;; leave) ;;
  (* Get a handle from Minio for the database object *)
  '(userDB, err) <- MinioHandle bkt id ;;
  swhen (negb (is_nil err))
    (errorPage StatusInternalServerError (Error err) ;; leave) ;;
  (* Send the database to the user *)
  Header_Set "Content-Disposition" ("attachment; filename=" ++ url_QueryEscape dbName) ;;
  Header_Set "Content-Type" "application/x-sqlite3" ;;
  '(bytesWritten, err) <- io_Copy userDB ;;
  swhen (negb (is_nil err))
    (log_Printf (pageName ++ ": Error returning DB file: " ++ Error err ++ nl) ;;
     fmt_Fprint (pageName ++ ": Error returning DB file: " ++ Error err ++ nl) ;;
     leave) ;;
  (* Log the number of bytes written *)
  log_Printf (pageName ++ ": '" ++ dbOwner ++ "/" ++ dbName ++ "' downloaded. "
              ++ fmt_d bytesWritten ++ " bytes").

(** Present the forks page to the user. *)
Definition forksHandler (v : Visit) : Script unit :=
  let '(dbOwner, dbName, err) := GetOD (req v) in
  swhen (negb (is_nil err))
    (errorPage StatusBadRequest (Error err) ;; leave) ;;
  render (forksPage dbOwner "/" dbName).

(** Generates a client certificate for the user and gives it to the browser. *)
Definition generateCertHandler (v : Visit) : Script unit :=
  (* Retrieve session data (if any) *)
  '(loggedInUser, validSession) <- lift (session_user (req v)) ;;
  (* Ensure we have a valid logged in user *)
  swhen (negb validSession)
    (errorPage StatusBadRequest "Not logged in" ;; leave) ;;
  (* Generate a new certificate *)
  let '(newCert, err) := GenerateClientCert loggedInUser 14 in
  swhen (negb (is_nil err))
    (log_Printf ("Error generating client certificate for user '" ++ loggedInUser ++ "': "
                 ++ Error err ++ "!" ++ nl) ;;
     http_Error ("Error generating client certificate for user '" ++ loggedInUser ++ "': "
                 ++ Error err ++ "!" ++ nl) StatusInternalServerError ;;
     leave) ;;
  (* Store the new certificate in the database *)
  err <- mutate (Change.SetClientCert newCert loggedInUser)
           (fun st => SetClientCert st newCert loggedInUser) ;;
  swhen (negb (is_nil err))
    (http_Error ("Updating client certificate failed: " ++ Error err)
       StatusInternalServerError ;;
     leave) ;;
  (* Send the client certificate to the user *)
  Header_Set "Content-Disposition" ("attachment; filename=" ++ loggedInUser ++ ".cert.pem") ;;
  Header_Set "Content-Type" "application/x-pem-file" ;;
  act (Body newCert) ;;
  leave.

(** Removes the logged in users session information. *)
Definition logoutHandler (v : Visit) : Script unit :=
  swhen (match req_session (req v) with NoSession => false | _ => true end)
    session_Remove ;;
  (* Bounce to the front page *)
  http_Redirect "/" StatusTemporaryRedirect.

(** Wrapper function to log incoming https requests. *)
Definition logReq (fn : Visit -> Script unit) (v : Visit) : Script unit :=
  let loggedInUser :=
    match req_session (req v) with
    | SessionOf u => u
    | _ => "-"
    end in
  act (RequestLog
         (remote_addr v ++ " - " ++ loggedInUser ++ " [" ++ time_Now ++ "] "
          ++ dquote ++ method v ++ " " ++ url v ++ " " ++ proto v ++ dquote
          ++ " " ++ dquote ++ "-" ++ dquote ++ " " ++ dquote ++ "-" ++ dquote
          ++ " " ++ dquote ++ referer v ++ dquote
          ++ " " ++ dquote ++ user_agent v ++ dquote ++ nl)) ;;
  (* Call the original function *)
  fn v.

Definition mainHandler (v : Visit) : Script unit :=
  let pageName := "Main handler" in
  (* Split the request URL into path components *)
  let pathStrings := strings_Split (path v) "/" in
  let numPieces := List.length pathStrings in
  swhen (Nat.eqb numPieces 2)
    (userName <- index pathStrings 1 ;;
     (* Check if the request was for the root directory *)
     swhen (String.eqb userName "")
       (render frontPage ;; leave) ;;
     (* The request was for a user page *)
     render (userPage userName) ;;
     leave) ;;
  userName <- index pathStrings 1 ;;
  dbName <- index pathStrings 2 ;;
  (* Validate the user supplied user and database name *)
  swhen (negb (is_nil (ValidateUserDB userName dbName)))
    (errorPage StatusBadRequest "Invalid user or database name" ;; leave) ;;
  (* This catches the case where a "/" is on the end of a user page URL *)
  swhen (String.eqb dbName "")
    (render (userPage userName) ;; leave) ;;
  (* Check if a version number was also requested *)
  let '(dbVersion, err) := form_version v in
  swhen (negb (is_nil err))
    (errorPage StatusBadRequest "Invalid database version number" ;; leave) ;;
  (* Check if a table name was also requested *)
  let err := parse_form_err (req v) in
  swhen (negb (is_nil err))
    (log_Printf (pageName ++ ": Error with ParseForm() in main handler: " ++ Error err ++ nl)) ;;
  let dbTable := form (req v) "table" in
  (* If a table name was supplied, validate it *)
  dbTable <-
    (if negb (String.eqb dbTable "") then
       let err := ValidatePGTable dbTable in
       if negb (is_nil err) then
         (* Validation failed, so don't pass on the table name *)
         log_Printf (pageName ++ ": Validation failed for table name: " ++ Error err) ;;
         sret ""
       else sret dbTable
     else sret dbTable) ;;
  (* Extract sort column, sort direction, and offset variables if present *)
  let sortCol := form (req v) "sort" in
  let sortDir := form (req v) "dir" in
  let offsetStr := form (req v) "offset" in
  rowOffset <-
    (if String.eqb offsetStr "" then sret 0
     else
       let '(rowOffset, err) := Atoi offsetStr in
       swhen (negb (is_nil err))
         (errorPage StatusBadRequest (Error err) ;; leave) ;;
       (* Ensure the row offset isn't negative *)
       sret (if rowOffset <? 0 then 0 else rowOffset)) ;;
  (* Sanity check the sort column name *)
  swhen (negb (String.eqb sortCol ""))
    (let err := ValidateFieldName sortCol in
     swhen (negb (is_nil err))
       (log_Printf ("Validation failed on requested sort field name '" ++ sortCol ++ "': "
                    ++ Error err ++ nl) ;;
        errorPage StatusBadRequest "Validation failed on requested sort field name" ;;
        leave)) ;;
  (* If a sort direction was provided, validate it *)
  swhen (negb (String.eqb sortDir ""))
    (swhen (negb (String.eqb sortDir "ASC") && negb (String.eqb sortDir "DESC"))
       (errorPage StatusBadRequest "Invalid sort direction" ;; leave)) ;;
  render (databasePage userName dbName dbVersion dbTable sortCol sortDir rowOffset).

(** Returns HTML rendered content from a given markdown string. *)
Definition markdownPreview (v : Visit) : Script unit :=
  (* Extract the markdown text form value *)
  let mkDown := form (req v) "mkdown" in
  (* Send the rendered version back to the caller *)
  fmt_Fprint (Md2Html mkDown).

(** This handles incoming requests for the preferences page by logged in users. *)
Definition prefHandler (v : Visit) : Script unit :=
  let pageName := "Preferences handler" in
  (* Ensure user is logged in *)
  '(loggedInUser, validSession) <- lift (session_user (req v)) ;;
  swhen (negb validSession)
    (errorPage StatusForbidden "Error: Must be logged in to view that page." ;; leave) ;;
  (* Gather submitted form data (if any) *)
  let err := parse_form_err (req v) in
  swhen (negb (is_nil err))
    (log_Printf (pageName ++ ": Error when parsing preference data: " ++ Error err ++ nl) ;;
     errorPage StatusBadRequest "Error when parsing preference data" ;;
     leave) ;;
  let maxRows := form (req v) "maxrows" in
  (* If no form data was submitted, display the preferences page form *)
  swhen (String.eqb maxRows "")
    (render (prefPage loggedInUser) ;; leave) ;;
  (* Validate submitted form data *)
  let err := Validate_Var maxRows "required,numeric,min=1,max=500" in
  swhen (negb (is_nil err))
    (log_Printf (pageName ++ ": Preference data failed validation: " ++ Error err ++ nl) ;;
     errorPage StatusBadRequest "Error when parsing preference data" ;;
     leave) ;;
  let '(maxRowsNum, err) := Atoi maxRows in
  swhen (negb (is_nil err))
    (log_Printf (pageName ++ ": Error converting string '" ++ maxRows ++ "' to integer: "
                 ++ Error err ++ nl) ;;
     errorPage StatusBadRequest "Error when parsing preference data" ;;
     leave) ;;
  (* Update the preference data in the database *)
  err <- mutate (Change.SetPrefUserMaxRows loggedInUser maxRowsNum)
           (fun st => SetPrefUserMaxRows st loggedInUser maxRowsNum) ;;
  swhen (negb (is_nil err))
    (errorPage StatusInternalServerError "Error when updating preferences" ;; leave) ;;
  (* Bounce to the user home page *)
  http_Redirect ("/" ++ loggedInUser) StatusTemporaryRedirect.

(** Handler for the Database Settings page. *)
Definition saveSettingsHandler (v : Visit) : Script unit :=
  (* Ensure user is logged in *)
  '(loggedInUser, validSession) <- lift (session_user (req v)) ;;
  swhen (negb validSession)
    (errorPage StatusForbidden "Error: Must be logged in to view that page." ;; leave) ;;
  (* Extract the username, folder, and (current) database name form variables *)
  let '(u, dbFolder, dbName, err) := form_ufd v in
  swhen (negb (is_nil err))
    (errorPage StatusBadRequest (Error err) ;; leave) ;;
  let userName := strings_ToLower u in
  (* Default to the root folder if none was given *)
  let dbFolder := if String.eqb dbFolder "" then "/" else dbFolder in
  (* Make sure a username was given *)
  swhen ((len userName =? 0) || String.eqb userName "")
    (errorPage StatusBadRequest "No username supplied!" ;; leave) ;;
  (* Extract the version number *)
  let '(dbVersion, err) := form_version v in
  swhen (negb (is_nil err))
    (errorPage StatusBadRequest "No database version supplied!" ;; leave) ;;
  (* Extract the form variables *)
  let descrip := form (req v) "descrip" in
  let newName := form (req v) "newname" in
  let readme := form (req v) "readme" in
  let defTable := form (req v) "defaulttable" in
  (* Grab and validate the supplied public form field *)
  let '(public, err) := form_public (req v) in
  swhen (negb (is_nil err))
    (log_Printf ("Error when converting public value to boolean: " ++ Error err ++ nl) ;;
     errorPage StatusBadRequest "Public value incorrect" ;;
     leave) ;;
  (* If set, validate the new database name *)
  swhen (negb (String.eqb newName dbName))
    (let err := ValidateDB newName in
     swhen (negb (is_nil err))
       (log_Printf ("Validation failed for new database name '" ++ newName ++ "': "
                    ++ Error err) ;;
        errorPage StatusBadRequest "New database name failed validation" ;;
        leave)) ;;
  (* Ensure the description is 80 chars or less *)
  swhen (80 <? len descrip)
    (errorPage StatusBadRequest "Description line needs to be 80 characters or less" ;;
     leave) ;;
  (* Validate the name of the default table *)
  let err := ValidatePGTable defTable in
  swhen (negb (is_nil err))
    (log_Printf ("Validation failed for name of default table '" ++ defTable ++ "': "
                 ++ Error err) ;;
     errorPage StatusBadRequest "Validation failed for name of default table" ;;
     leave) ;;
  (* Get the Minio bucket and ID for the given database *)
  '(bkt, id, err) <- lift (com.MinioBucketID userName dbName dbVersion loggedInUser) ;;
  swhen (negb (is_nil err))
    (errorPage StatusInternalServerError
       "Could not retrieve internal information for the requested database" ;;
     leave) ;;
  (* Get a handle from Minio for the database object *)
  '(sdb, err) <- lift (com.OpenMinioObject bkt id) ;;
  swhen (negb (is_nil err))
    (errorPage StatusInternalServerError (Error err) ;; leave) ;;
  (* Retrieve the list of tables in the database *)
  let '(tables, err) := Tables sdb (userName ++ dbFolder ++ dbName) in
  swhen (negb (is_nil err))
    (errorPage StatusInternalServerError (Error err) ;; leave) ;;
  (* If a specific table was requested, check that it's present *)
  swhen (negb (String.eqb defTable ""))
    (let tablePresent := existsb (fun tbl => String.eqb tbl defTable) tables in
     swhen (negb tablePresent)
       (log_Printf ("Requested table '" ++ defTable ++ "' not present in database '"
                    ++ userName ++ dbFolder ++ dbName ++ "' version " ++ fmt_d dbVersion
                    ++ nl) ;;
        errorPage StatusBadRequest "Requested table not present" ;;
        leave)) ;;
  (* Don't save the placeholder texts *)
  let descrip := if String.eqb descrip "No description" then "" else descrip in
  let readme := if String.eqb readme "No full description" then "" else readme in
  (* Save settings *)
  err <- mutate (Change.SaveDBSettings userName dbFolder dbName descrip readme defTable public)
           (fun st => SaveDBSettings st userName dbFolder dbName descrip readme defTable
                        public) ;;
  swhen (negb (is_nil err))
    (errorPage StatusBadRequest (Error err) ;; leave) ;;
  (* If the new database name is different from the old one, perform the rename *)
  swhen (negb (String.eqb newName "") && negb (String.eqb newName dbName))
    (err <- mutate (Change.RenameDatabase userName dbFolder dbName newName)
              (fun st => RenameDatabase st userName dbFolder dbName newName) ;;
     swhen (negb (is_nil err))
       (errorPage StatusBadRequest (Error err) ;; leave)) ;;
  (* Settings saved, so bounce back to the database page *)
  http_Redirect ("/" ++ userName ++ dbFolder ++ newName) StatusTemporaryRedirect.

(** Present the stars page to the user. *)
Definition starsHandler (v : Visit) : Script unit :=
  let '(dbOwner, dbName, err) := GetOD (req v) in
  swhen (negb (is_nil err))
    (errorPage StatusBadRequest (Error err) ;; leave) ;;
  render (starsPage dbOwner dbName).

(** This function presents the database upload form to logged in users. *)
Definition uploadFormHandler (v : Visit) : Script unit :=
  (* Retrieve session data (if any) *)
  '(loggedInUser, validSession) <- lift (session_user (req v)) ;;
  (* Ensure we have a valid logged in user *)
  swhen (negb validSession)
    (errorPage StatusUnauthorized "You need to be logged in" ;; leave) ;;
  (* Render the upload page *)
  render (uploadPage loggedInUser).

(** A request served on fresh actions: how the handler ends, the state it
    leaves and the actions of the run. *)
Definition serve (h : Visit -> Script unit) (v : Visit) (w : World) (st : Store)
    : Result unit * State :=
  h v (mkState w st []).

Definition actions (h : Visit -> Script unit) (v : Visit) (w : World) (st : Store)
    : list Action :=
  acts (snd (serve h v w st)).

Definition panics (h : Visit -> Script unit) (v : Visit) (w : World) (st : Store) : bool :=
  match fst (serve h v w st) with
  | Panic => true
  | _ => false
  end.

End WithBackend.

End Site.

(** ** A small site, for running the other handlers *)

Module SiteDemo.
Import Demo.

(** A backend whose store is the list of the user names: every name is
    valid but admin, which is reserved; the Auth0 profile holds the code of
    the request as its user id, and only the id of alice has an account. *)
#[export] Instance backend : Site.Backend := {|
  Site.Store := list string;
  Site.ValidateUser := fun _ => None;
  Site.ReservedUsernamesCheck := fun u => if String.eqb u "admin" then Some "reserved" else None;
  Site.ValidateUserDB := fun _ _ => None;
  Site.ValidatePGTable := fun _ => None;
  Site.Validate_Var := fun _ _ => None;
  Site.CheckUserExists := fun st u => (existsb (String.eqb u) st, None);
  Site.CheckEmailExists := fun _ _ => (false, None);
  Site.UserNameFromAuth0ID :=
    fun _ a => (if String.eqb a "auth0|alice" then "alice" else "", None);
  Site.AddUser := fun st _ u _ _ => (st ++ [u], None);
  Site.SetPrefUserMaxRows := fun st _ _ => (st, None);
  Site.ClientCert := fun _ u => (("cert of " ++ u)%string, None);
  Site.GenerateClientCert := fun u _ => (("new cert of " ++ u)%string, None);
  Site.SetClientCert := fun st _ _ => (st, None);
  Site.SaveDBSettings := fun st _ _ _ _ _ _ _ => (st, None);
  Site.RenameDatabase := fun st _ _ _ _ => (st, None);
  Site.Tables := fun _ _ => (["t"], None);
  Site.ReadSQLiteDBCSV := fun _ _ => ([["c"]; ["1"]], None);
  Site.csv_WriteAll := fun rows => (String.concat nl (map (String.concat ",") rows), None);
  Site.io_Copy_cut := fun _ => None;
  Site.MinioHandle_fails := fun _ _ => false;
  Site.url_QueryEscape := fun s => s;
  Site.strings_ToLower := fun s => s;
  Site.Md2Html := fun s => s;
  Site.time_Now := "2017-05-01T00:00:00Z";
  Site.Auth0Domain := "dbhub.eu.auth0.com";
  Site.oauth_Exchange := fun code => (code, None);
  Site.conn_Get := fun token _ => (token, None);
  Site.ioutil_ReadAll := fun body => (body, None);
  Site.json_Unmarshal :=
    fun raw => (fun k => if String.eqb k "user_id" then Some (Site.AString raw) else None, None)
|}.

(** The store that holds these user names. *)
Definition users (names : list string) : Site.Store := names.

Definition no_attr : string -> option Site.Attr := fun _ => None.

(** A request with a session, a URL that names owner, database, table and
    version, and a form. *)
Definition visit (s : Session) (owner name table : string) (ver : Z)
    (fields : string -> string) (p : string) : Site.Visit :=
  Site.mkVisit
    (mkRequest s owner name table ver None fields None (false, None) None)
    no_attr p "" (ver, None) (owner, "", name, None)
    "203.0.113.7" "GET" p "HTTP/1.1" "" "curl".

(** The form of the registration page, and the session the Auth0 callback
    has added for it. *)
Definition chosen_name (u : string) : string -> string :=
  fun k => if String.eqb k "username" || String.eqb k "name" then u else "".

Definition registration : string -> option Site.Attr :=
  fun k =>
    if String.eqb k "registrationinprogress" then Some (Site.ABool true)
    else if String.eqb k "auth0id" then Some (Site.AString "auth0|carol")
    else if String.eqb k "email" then Some (Site.AString "carol@example.org")
    else None.

Definition register (u : string) : Site.Visit :=
  Site.mkVisit
    (mkRequest SessionWithoutUser "" "" "" 0 None (chosen_name u) None (false, None) None)
    registration "/register" "" (0, None) ("", "", "", None)
    "203.0.113.7" "POST" "/register" "HTTP/1.1" "" "curl".

(** The request at the end of an Auth0 login with the given code. *)
Definition callback (code : string) : Site.Visit :=
  Site.mkVisit
    (mkRequest NoSession "" "" "" 0 None no_form None (false, None) None)
    no_attr "/x/callback" code (0, None) ("", "", "", None)
    "203.0.113.7" "GET" "/x/callback" "HTTP/1.1" "" "curl".

(** The settings form of a database, with its name unchanged. *)
Definition settings_form (name : string) : string -> string :=
  fun k => if String.eqb k "newname" then name else "".

(** The metadata store refuses new versions; the lookup of the highest
    version is down. *)
Definition add_down : Op.t -> bool :=
  fun c => match c with Op.AddDatabase _ _ _ _ _ _ => true | _ => false end.

Definition highest_down : Op.t -> bool :=
  fun c => match c with Op.HighestDBVersion _ _ _ _ => true | _ => false end.

(** alice looks at the table t of her sales.db. *)
Definition alice_views : Request := table_req (SessionOf "alice") "alice" "sales.db" "t" 1.

Definition alice_key : KeyInput :=
  mkKeyInput "alice" "alice" "/" "sales.db" 1 "t" "" "" 0 25.

End SiteDemo.

(** * Proofs *)

Unset Implicit Arguments.

(** ** Symbolic execution of handlers *)

Ltac head_scrutinee t :=
  match t with
  | match ?x with _ => _ end => head_scrutinee x
  | ?f _ => head_match_app f
  | _ => t
  end
with head_match_app f :=
  lazymatch f with
  | match ?x with _ => _ end => head_scrutinee x
  | ?g _ => head_match_app g
  end.

Ltac hunfold :=
  cbv beta iota zeta delta
    [bind ret when go_return no_fuel emit get_world log_Printf errorPage http_Redirect
     fmt_Fprint session_user GetOD GetODV GetODTV com.call
     com.CheckUserDBVAccess com.HighestDBVersion com.MinioBucketID com.MinioUserBucket
     com.MinioObjCopy com.ForkDatabase com.InvalidateCacheEntry com.ToggleDBStar com.DBStars
     com.GetCachedData com.CacheData com.OpenMinioObject com.CheckMinioIDAvail
     com.StoreMinioObject com.AddDatabase com.RandomString ioutil_TempFile tempDB_Write
     com.NotFound com.Forbidden com.DuplicateVersion com.UpstreamUnavailable negb is_nil] in *.

Ltac hsimpl :=
  cbn [set_trace set_rnd set_minio set_memcache set_pg_dbs set_pg_versions set_pg_stars
       pg_dbs pg_versions pg_stars minio memcache fails rnd trace fst snd
       up_user up_folder up_dbName up_data up_ctype up_shaSum up_public up_descrip
       up_readme up_newVer] in *.

(** One step: case analysis on the test the handler is blocked on. *)
Ltac hstep :=
  lazymatch goal with
  | |- match ?x with _ => _ end =>
      let s := head_scrutinee x in
      destruct s eqn:?; try (exfalso; congruence); hunfold; hsimpl
  end.

Ltac hexec := hunfold; hsimpl; repeat hstep.

Lemma skipn_app_len {A : Type} (l x : list A) : skipn (List.length l) (l ++ x) = x.
Proof. induction l as [|a l IH]; [reflexivity | exact IH]. Qed.

Lemma new_events_app (w w' : World) (evs : list Event) :
  trace w' = trace w ++ evs -> new_events w w' = evs.
Proof. intros E. unfold new_events. rewrite E. apply skipn_app_len. Qed.

Lemma ends_run (h : Handler unit) (w : World) (Q : World -> list Event -> Prop) :
  ends h w Q -> exists w', run h w = Some w' /\ Q w' (new_events w w').
Proof.
  unfold ends, run. destruct (h w) as [[a| |] w']; try contradiction;
    intros (evs & E & HQ); exists w'; rewrite (new_events_app _ _ _ E); auto.
Qed.

Lemma always_run (h : Handler unit) (w : World) (Q : World -> list Event -> Prop) :
  always h w Q -> forall w', run h w = Some w' -> Q w' (new_events w w').
Proof.
  unfold always, run. destruct (h w) as [[a| |] w1]; intros HQ w' E;
    try discriminate; injection E as <-; destruct HQ as (evs & E & HQ);
    rewrite (new_events_app _ _ _ E); exact HQ.
Qed.

(** Closes the trace equation of a finished path. *)
Ltac tdone :=
  eexists; split;
  [ cbn [trace]; repeat rewrite <- List.app_assoc; cbn [List.app];
    first [reflexivity | symmetry; apply List.app_nil_r] | ].

(** Turns the boolean tests met on a path into propositions. *)
Ltac bfacts :=
  repeat match goal with
  | E : (_ =? _)%Z = true |- _ => apply Z.eqb_eq in E
  | E : (_ =? _)%Z = false |- _ => apply Z.eqb_neq in E
  | E : (_ <? _)%Z = true |- _ => apply Z.ltb_lt in E
  | E : (_ <? _)%Z = false |- _ => apply Z.ltb_ge in E
  | E : (_ =? _)%string = true |- _ => apply String.eqb_eq in E
  | E : (_ =? _)%string = false |- _ => apply String.eqb_neq in E
  end.

Ltac all_events := repeat (constructor; try exact I).

Ltac some_event :=
  repeat first [apply Exists_cons_hd; exact I | apply Exists_cons_tl].

Ltac stores := unfold same_stores; cbn [pg_dbs pg_versions pg_stars minio memcache]; repeat split.

(** ** Strings and cache keys *)

Lemma sapp_assoc (a b c : string) : ((a ++ b) ++ c = a ++ (b ++ c))%string.
Proof. induction a as [|x a IH]; cbn; [reflexivity | rewrite IH; reflexivity]. Qed.

Lemma sapp_nil_r (a : string) : (a ++ "" = a)%string.
Proof. induction a as [|x a IH]; cbn; [reflexivity | rewrite IH; reflexivity]. Qed.

Lemma slength_app (a b : string) :
  String.length (a ++ b) = (String.length a + String.length b)%nat.
Proof. induction a as [|x a IH]; cbn; [reflexivity | rewrite IH; reflexivity]. Qed.

Lemma sapp_cancel_l (s a b : string) : (s ++ a = s ++ b)%string -> a = b.
Proof. induction s as [|x s IH]; cbn; intros E; [exact E | injection E as E; exact (IH E)]. Qed.

(** Two strings of the same length at the front of equal strings are equal. *)
Lemma sapp_same_length (a b x y : string) :
  String.length a = String.length b -> (a ++ x = b ++ y)%string -> a = b /\ x = y.
Proof.
  revert b. induction a as [|c a IH]; intros [|d b] L E; cbn in L; try discriminate L.
  - split; [reflexivity | exact E].
  - cbn in E. injection E as -> E. injection L as L.
    destruct (IH b L E) as (-> & ->). split; reflexivity.
Qed.

Lemma sapp_cancel_r (s a b : string) : (a ++ s = b ++ s)%string -> a = b.
Proof.
  intros E. apply (sapp_same_length a b s s); [|exact E].
  apply (f_equal String.length) in E. rewrite !slength_app in E. lia.
Qed.

(** Equal strings are cut at their first colon at the same place. *)
Lemma split_at_colon (a b x y : string) :
  absent ":" a -> absent ":" b ->
  (a ++ String ":" x = b ++ String ":" y)%string -> a = b /\ x = y.
Proof.
  revert b. induction a as [|c a IH]; intros [|d b] Ha Hb E; cbn in *.
  - injection E as E. split; [reflexivity | exact E].
  - injection E as E _. exfalso. apply (proj1 Hb). symmetry. exact E.
  - injection E as E _. exfalso. apply (proj1 Ha). exact E.
  - injection E as -> E. destruct (IH b (proj2 Ha) (proj2 Hb) E) as (-> & ->).
    split; reflexivity.
Qed.

Lemma uint_digits_no_colon (d : uint) : absent ":" (NilEmpty.string_of_uint d).
Proof. induction d; cbn; try exact I; (split; [discriminate | assumption]). Qed.

Lemma fmt_d_nonneg_no_colon (z : Z) : 0 <= z -> absent ":" (fmt_d z).
Proof.
  intros Hz. unfold fmt_d. destruct z as [|p|p]; [cbn; split; [discriminate | exact I] | | lia].
  cbn [Z.to_int NilZero.string_of_int]. unfold NilZero.string_of_uint.
  destruct (Pos.to_uint p) eqn:E; try (rewrite <- E; apply uint_digits_no_colon).
  cbn. split; [discriminate | exact I].
Qed.

Lemma to_int_proper (z : Z) : Z.to_int z <> Pos Nil /\ Z.to_int z <> Neg Nil.
Proof.
  destruct z as [|p|p]; cbn [Z.to_int]; split; try discriminate;
    intros E; injection E as E; exact (Unsigned.to_uint_nonnil p E).
Qed.

(** [%d] prints different integers differently. *)
Lemma fmt_d_inj (a b : Z) : fmt_d a = fmt_d b -> a = b.
Proof.
  unfold fmt_d. intros E. apply to_int_inj.
  assert (S : forall z, NilZero.int_of_string (NilZero.string_of_int (Z.to_int z))
                        = Some (Z.to_int z)).
  { intros z. destruct (to_int_proper z) as (P & N). apply NilZero.isi; assumption. }
  pose proof (S a) as Sa. rewrite E, S in Sa. injection Sa as Sa. symmetry. exact Sa.
Qed.

(** A field with its length in front can be read back from the front of
    a key. *)
Lemma field_inj (a b x y : string) :
  (com.field a ++ x = com.field b ++ y)%string -> a = b /\ x = y.
Proof.
  unfold com.field. rewrite !sapp_assoc. cbn [String.append]. intros E.
  destruct (split_at_colon _ _ _ _
              (fmt_d_nonneg_no_colon (len a) (Nat2Z.is_nonneg _))
              (fmt_d_nonneg_no_colon (len b) (Nat2Z.is_nonneg _)) E) as (L & R).
  apply fmt_d_inj in L. unfold len in L. apply Nat2Z.inj in L.
  exact (sapp_same_length a b x y L R).
Qed.

Lemma field_inj_last (a b : string) : com.field a = com.field b -> a = b.
Proof.
  intros E. apply (field_inj a b "" ""). rewrite !sapp_nil_r. exact E.
Qed.

(** The key of package [common] determines each of its eight arguments. *)
Lemma TableRowsCacheKey_inj (p p' u u' o o' f f' n n' : string) (v v' : Z)
    (t t' : string) (rows rows' : Z) :
  com.TableRowsCacheKey p u o f n v t rows = com.TableRowsCacheKey p' u' o' f' n' v' t' rows' ->
  p = p' /\ u = u' /\ o = o' /\ f = f' /\ n = n' /\ v = v' /\ t = t' /\ rows = rows'.
Proof.
  unfold com.TableRowsCacheKey. intros E.
  apply field_inj in E. destruct E as (-> & E).
  apply field_inj in E. destruct E as (-> & E).
  apply field_inj in E. destruct E as (-> & E).
  apply field_inj in E. destruct E as (-> & E).
  apply field_inj in E. destruct E as (-> & E).
  apply field_inj in E. destruct E as (Ev & E).
  apply field_inj in E. destruct E as (-> & E).
  apply field_inj_last in E.
  apply fmt_d_inj in Ev. apply fmt_d_inj in E. subst. repeat split.
Qed.

(** The prefix the handler builds changes with each one of the sort
    column, the sort direction and the row offset. *)
Lemma tablejson_prefix_col (c c' d : string) (off : Z) :
  tablejson_prefix c d off = tablejson_prefix c' d off -> c = c'.
Proof.
  unfold tablejson_prefix. intros E. apply sapp_cancel_l in E. exact (sapp_cancel_r _ _ _ E).
Qed.

Lemma tablejson_prefix_dir (c d d' : string) (off : Z) :
  tablejson_prefix c d off = tablejson_prefix c d' off -> d = d'.
Proof.
  unfold tablejson_prefix. intros E.
  do 3 apply sapp_cancel_l in E. exact (sapp_cancel_r _ _ _ E).
Qed.

Lemma tablejson_prefix_off (c d : string) (off off' : Z) :
  tablejson_prefix c d off = tablejson_prefix c d off' -> off = off'.
Proof.
  unfold tablejson_prefix. intros E.
  do 5 apply sapp_cancel_l in E. exact (fmt_d_inj _ _ E).
Qed.

Lemma cacheKey_inj (a b : KeyInput) :
  cacheKey a = cacheKey b ->
  k_viewer a = k_viewer b /\ k_owner a = k_owner b /\ k_folder a = k_folder b
  /\ k_name a = k_name b /\ k_version a = k_version b /\ k_table a = k_table b
  /\ k_rowCap a = k_rowCap b
  /\ tablejson_prefix (k_sortCol a) (k_sortDir a) (k_offset a)
     = tablejson_prefix (k_sortCol b) (k_sortDir b) (k_offset b).
Proof.
  unfold cacheKey, dataCacheKey. intros E.
  apply TableRowsCacheKey_inj in E. tauto.
Qed.

Lemma find_filter_other {A : Type} (p q : A -> bool) (l : list A) :
  (forall x, p x = true -> q x = true) -> find p (filter q l) = find p l.
Proof.
  intros Hpq. induction l as [|x l IH]; [reflexivity|].
  cbn [filter find]. destruct (q x) eqn:Q; cbn [find].
  - rewrite IH. reflexivity.
  - destruct (p x) eqn:P; [rewrite (Hpq x P) in Q; discriminate | exact IH].
Qed.

(** Caching a value under one key changes no lookup under another key. *)
Lemma CacheData_other_key (w : World) (k k' : string) (val : SQLiteRecordSet) (ttl : Z) :
  k <> k' ->
  com.cache_lookup (snd (com.CacheData k val ttl w)) k' = com.cache_lookup w k'.
Proof.
  intros Hk. unfold com.CacheData, com.cache_lookup.
  destruct (fails w (Op.CacheData k)); hsimpl; [reflexivity|].
  cbn [find fst]. destruct (String.eqb_spec k k') as [E|_]; [contradiction|].
  rewrite find_filter_other; [reflexivity|].
  intros x Hx. apply String.eqb_eq in Hx.
  destruct (String.eqb_spec (fst x) k) as [E|_]; [congruence | reflexivity].
Qed.

(** C5. The cache key is a function of its ten inputs: equal inputs give
    equal keys. Inputs that differ in exactly one place give different
    keys, and so do inputs with different viewers, whatever the other
    inputs are: caching a page under the key of one viewer changes no
    lookup under a key of another viewer. *)
Theorem cache_key_separates_inputs (a b : KeyInput) :
  (a = b -> cacheKey a = cacheKey b)
  /\ (differences a b = 1%nat -> cacheKey a <> cacheKey b)
  /\ (k_viewer a <> k_viewer b -> cacheKey a <> cacheKey b)
  /\ (k_viewer a <> k_viewer b ->
      forall (w : World) (val : SQLiteRecordSet) (ttl : Z),
        com.cache_lookup (snd (com.CacheData (cacheKey a) val ttl w)) (cacheKey b)
        = com.cache_lookup w (cacheKey b)).
Proof.
  assert (V : k_viewer a <> k_viewer b -> cacheKey a <> cacheKey b).
  { intros Hv E. apply cacheKey_inj in E. tauto. }
  split; [intros ->; reflexivity | split; [|split; [exact V|]]].
  - intros D E. apply cacheKey_inj in E.
    destruct E as (E1 & E2 & E3 & E4 & E5 & E6 & E7 & P).
    unfold differences in D. rewrite E1, E2, E3, E4, E5, E6, E7 in D.
    rewrite !String.eqb_refl, !Z.eqb_refl in D. cbn [Nat.add] in D.
    destruct (String.eqb_spec (k_sortCol a) (k_sortCol b)) as [Ec|Nc];
      destruct (String.eqb_spec (k_sortDir a) (k_sortDir b)) as [Ed|Nd];
      destruct (Z.eqb_spec (k_offset a) (k_offset b)) as [Eo|No];
      cbn in D; try discriminate D.
    + rewrite Ec, Ed in P. exact (No (tablejson_prefix_off _ _ _ _ P)).
    + rewrite Ec, Eo in P. exact (Nd (tablejson_prefix_dir _ _ _ _ P)).
    + rewrite Ed, Eo in P. exact (Nc (tablejson_prefix_col _ _ _ _ P)).
  - intros Hv w val ttl. apply CacheData_other_key. exact (V Hv).
Qed.

(** ** Events of a path *)

(** Case analysis on the membership of an event in the events of a path. *)
Ltac split_in H :=
  repeat first
    [ match type of H with False => contradiction end
    | match type of H with _ \/ _ => destruct H as [H|H]; [try discriminate H|] end
    | match type of H with In _ (_ ++ _) => apply in_app_or in H end
    | match type of H with In _ (_ :: _) => cbn [In] in H end
    | match type of H with In _ [] => contradiction H end ].

(** Finds an event in the events of a path. *)
Ltac find_in :=
  repeat first [left; reflexivity | right | apply in_or_app; right].

(** *** The prefix of a cache key, for validated sort directions *)

Lemma absent_app_inv (c : ascii) (a b : string) : absent c (a ++ String c b) -> False.
Proof.
  induction a as [|x a IH]; cbn; intros (N & R); [exact (N eq_refl) | exact (IH R)].
Qed.

(** Equal strings are cut at their last slash at the same place. *)
Lemma split_at_last (c : ascii) (a b x y : string) :
  absent c x -> absent c y ->
  (a ++ String c x = b ++ String c y)%string -> a = b /\ x = y.
Proof.
  revert b. induction a as [|p a IH]; intros [|q b] Hx Hy E; cbn in E.
  - injection E as E. split; [reflexivity | exact E].
  - injection E as _ E. exfalso. rewrite E in Hx. exact (absent_app_inv _ _ _ Hx).
  - injection E as _ E. exfalso. rewrite <- E in Hy. exact (absent_app_inv _ _ _ Hy).
  - injection E as -> E. destruct (IH b Hx Hy E) as (-> & ->). split; reflexivity.
Qed.

Lemma uint_digits_no_slash (d : uint) : absent "/" (NilEmpty.string_of_uint d).
Proof. induction d; cbn; try exact I; (split; [discriminate | assumption]). Qed.

Lemma fmt_d_no_slash (z : Z) : absent "/" (fmt_d z).
Proof.
  unfold fmt_d. destruct z as [|p|p]; [cbn; split; [discriminate | exact I] | |].
  - cbn [Z.to_int NilZero.string_of_int]. unfold NilZero.string_of_uint.
    destruct (Pos.to_uint p) eqn:E; try (rewrite <- E; apply uint_digits_no_slash).
    cbn. split; [discriminate | exact I].
  - cbn [Z.to_int NilZero.string_of_int]. split; [discriminate|].
    unfold NilZero.string_of_uint.
    destruct (Pos.to_uint p) eqn:E; try (rewrite <- E; apply uint_digits_no_slash).
    cbn. split; [discriminate | exact I].
Qed.

Lemma valid_sort_dir_no_slash (d : string) : valid_sort_dir d = true -> absent "/" d.
Proof.
  unfold valid_sort_dir. intros V.
  apply orb_true_iff in V. destruct V as [V|V]; [apply orb_true_iff in V; destruct V as [V|V]|];
    apply String.eqb_eq in V; subst d; cbn; repeat split; discriminate.
Qed.

(** X1. The prefix that the table view puts in front of its cache keys,
    tablejson/ then sort column, sort direction and row offset with slashes
    in between, determines all three of them, when the sort directions are
    ones the handler lets through (empty, ASC or DESC): two requests that
    differ in the sort column, the sort direction or the row offset never
    build the same prefix, whatever characters the sort column holds. *)
Theorem sort_prefix_determines_inputs (c c' d d' : string) (off off' : Z) :
  valid_sort_dir d = true -> valid_sort_dir d' = true ->
  tablejson_prefix c d off = tablejson_prefix c' d' off' ->
  c = c' /\ d = d' /\ off = off'.
Proof.
  unfold tablejson_prefix. intros V V' E. apply sapp_cancel_l in E.
  change (c ++ "/" ++ d ++ "/" ++ fmt_d off)%string
    with (c ++ String "/" (d ++ String "/" (fmt_d off)))%string in E.
  change (c' ++ "/" ++ d' ++ "/" ++ fmt_d off')%string
    with (c' ++ String "/" (d' ++ String "/" (fmt_d off')))%string in E.
  assert (E2 : ((c ++ String "/" d) ++ String "/" (fmt_d off)
                = (c' ++ String "/" d') ++ String "/" (fmt_d off'))%string).
  { rewrite !sapp_assoc. exact E. }
  destruct (split_at_last "/" _ _ _ _ (fmt_d_no_slash off) (fmt_d_no_slash off') E2) as (E3 & E4).
  destruct (split_at_last "/" _ _ _ _ (valid_sort_dir_no_slash d V)
              (valid_sort_dir_no_slash d' V') E3) as (-> & ->).
  apply fmt_d_inj in E4. subst. repeat split.
Qed.

Section Proofs.
Context `{Externals}.

(** *** The access guard *)

(** C3. [canRead] is true whenever the viewer is the owner, whatever the
    public flag of the identity; for every other viewer, the anonymous one
    (the empty user name) included, it is true exactly when the public flag
    of the identity is set. *)
Theorem canRead_owner_or_public (w : World) (viewer owner folder name : string) (version : Z) :
  (viewer = owner -> com.canRead w viewer owner folder name version = true)
  /\ (viewer <> owner ->
      (com.canRead w viewer owner folder name version = true
       <-> com.identity_public w (mkIdentity owner folder name) = Some true))
  /\ (owner <> "" ->
      (com.canRead w "" owner folder name version = true
       <-> com.identity_public w (mkIdentity owner folder name) = Some true)).
Proof.
  assert (G : forall v, v <> owner ->
            (com.canRead w v owner folder name version = true
             <-> com.identity_public w (mkIdentity owner folder name) = Some true)).
  { intros v Hne. unfold com.canRead.
    destruct (String.eqb_spec v owner) as [->|_]; [contradiction|].
    destruct (com.identity_public w (mkIdentity owner folder name)) as [[|]|];
      split; congruence. }
  split; [|split].
  - intros ->. unfold com.canRead. rewrite String.eqb_refl. reflexivity.
  - apply G.
  - intros Hne. apply G. congruence.
Qed.

(** *** Uploads *)

(** The loop that draws an object id changes no store: it consumes random
    tokens and asks whether each is available. *)
Lemma generate_minioID_spec (fuel : nat) (user : string) :
  forall w,
    match generate_minioID fuel user w with
    | (_, w') =>
        same_stores w w' /\ fails w' = fails w
        /\ exists evs, trace w' = trace w ++ evs /\ Forall loop_event evs
    end.
Proof.
  induction fuel as [|fuel IH]; intros w.
  - cbn [generate_minioID]. hunfold.
    split; [stores | split; [reflexivity | exists []; split; [symmetry; apply List.app_nil_r | constructor]]].
  - cbn [generate_minioID]. hunfold. hsimpl.
    destruct (rnd w) as [|s rest] eqn:Hr.
    + split; [stores | split; [reflexivity | exists []; split; [symmetry; apply List.app_nil_r | constructor]]].
    + hsimpl.
      destruct (fails w (Op.CheckMinioIDAvail user (s ++ ".db"))) eqn:Hf; hsimpl.
      * split; [stores | split; [reflexivity |]]. tdone. all_events.
      * destruct (com.id_used w user (s ++ ".db")) eqn:Hu.
        -- unfold com.id_used in Hu |- *. hsimpl. rewrite Hu. hsimpl.
           match goal with |- context [generate_minioID fuel user ?w1] =>
             specialize (IH w1); destruct (generate_minioID fuel user w1) as [o w2] end.
           destruct IH as (S & F & evs & T & L). hsimpl.
           split; [|split; [exact F|]].
           ++ unfold same_stores in *. hsimpl. exact S.
           ++ exists (Call (Op.CheckMinioIDAvail user (s ++ ".db")) true :: evs).
              split; [rewrite T; rewrite <- List.app_assoc; reflexivity|].
              constructor; [exact I | exact L].
        -- unfold com.id_used in Hu |- *. hsimpl. rewrite Hu. hsimpl.
           split; [stores | split; [reflexivity |]]. tdone. all_events.
Qed.

(** The loop runs out of random tokens only when every token of the tape
    names an object id that is in use. *)
Lemma generate_minioID_fuel (fuel : nat) (user : string) :
  forall w,
    fst (generate_minioID fuel user w) = NoFuel ->
    (List.length (rnd w) < fuel)%nat ->
    Forall (fun s => com.id_used w user (s ++ ".db") = true) (rnd w).
Proof.
  induction fuel as [|fuel IH]; intros w E L; [inversion L|].
  cbn [generate_minioID] in E. hunfold. hsimpl.
  destruct (rnd w) as [|s rest] eqn:Hr; [constructor|].
  hsimpl. destruct (fails w (Op.CheckMinioIDAvail user (s ++ ".db"))) eqn:Hf; hsimpl;
    [congruence|].
  unfold com.id_used in *. hsimpl.
  destruct (existsb _ (pg_versions w)) eqn:Hu; hsimpl; [|congruence].
  constructor; [exact Hu|].
  match type of E with fst (generate_minioID fuel user ?w1) = _ =>
    specialize (IH w1 E); hsimpl end.
  cbn [List.length] in L. apply IH. lia.
Qed.

(** The step over the loop of [uploadDataHandler]: the world it leaves is
    described by [generate_minioID_spec]. *)
Ltac hloop :=
  lazymatch goal with
  | |- match ?x with _ => _ end =>
      let s := head_scrutinee x in
      lazymatch s with
      | generate_minioID ?n ?u ?w1 =>
          let S := fresh "S" in
          let Fu := fresh "Fu" in
          pose proof (generate_minioID_fuel n u w1) as Fu;
          pose proof (generate_minioID_spec n u w1) as S;
          destruct s as [[minioID| |] [d v st m c fl rn tr]];
          destruct S as ((? & ? & ? & ? & ?) & ? & loop_evs & ? & ?);
          hsimpl; subst d v st m c fl tr; hunfold; hsimpl
      end
  end.

Ltac hexec_upload := hunfold; hsimpl; repeat first [hloop | hstep].

Lemma committed_version_loop (l rest : list Event) :
  Forall loop_event l -> committed_version (l ++ rest) = committed_version rest.
Proof.
  induction 1 as [|e l He _ IH]; [reflexivity|].
  cbn [List.app]. destruct e as [m|st m|u st|b| | |c ok]; cbn in He; try contradiction;
    cbn [committed_version]; try exact IH.
  destruct c; cbn in He; try contradiction. exact IH.
Qed.

Lemma committed_version_loop_nil (l : list Event) :
  Forall loop_event l -> committed_version l = None.
Proof.
  intros Hl. rewrite <- (List.app_nil_r l). rewrite (committed_version_loop l [] Hl). reflexivity.
Qed.

(** What an upload does to the blob locator table: nothing, or one new
    row for the database of the request, at the version number the handler
    has determined. *)
Lemma upload_version_exec (r : Request) (w : World) :
  always (uploadDataHandler r) w (fun w' evs =>
    match committed_version evs with
    | None => pg_versions w' = pg_versions w
    | Some v =>
        exists user f b,
          req_session r = SessionOf user /\ form_file r = Some f
          /\ com.has_version w (mkIdentity user "/" (Filename f)) v = false
          /\ v = (let highVer :=
                    if fails w (Op.HighestDBVersion user (Filename f) "/" user) then 0
                    else com.highest (pg_versions w) (mkIdentity user "/" (Filename f)) in
                  if 0 <? highVer then Go.add highVer 1 else 1)
          /\ pg_versions w' =
             pg_versions w ++ [mkVersionEntry (mkIdentity user "/" (Filename f)) v b]
    end).
Proof.
  unfold always, uploadDataHandler, upload_prepare, upload_commit. hexec_upload.
  all: try exact I.
  all: tdone.
  all: cbn [committed_version];
       try (rewrite committed_version_loop by assumption; cbn [committed_version]);
       try (rewrite committed_version_loop_nil by assumption);
       try reflexivity.
  all: do 3 eexists; split; [reflexivity|]; split; [reflexivity|];
       split; [unfold com.has_version in *; hsimpl; assumption|]; split; [|reflexivity].
  all: match goal with
       | E : fails _ (Op.HighestDBVersion _ _ _ _) = _ |- _ => rewrite E
       end; reflexivity.
Qed.


(** *** Version arithmetic *)

Lemma Identity_eqb_refl (i : Identity) : Identity_eqb i i = true.
Proof. unfold Identity_eqb. rewrite !String.eqb_refl. reflexivity. Qed.

Lemma versions_of_app (vs1 vs2 : list VersionEntry) (i : Identity) :
  com.versions_of (vs1 ++ vs2) i = com.versions_of vs1 i ++ com.versions_of vs2 i.
Proof. unfold com.versions_of. rewrite filter_app, map_app. reflexivity. Qed.

Lemma versions_of_new (vs : list VersionEntry) (i : Identity) (v : Z) (b : BlobRef) :
  com.versions_of (vs ++ [mkVersionEntry i v b]) i = com.versions_of vs i ++ [v].
Proof.
  rewrite versions_of_app. unfold com.versions_of at 2. cbn [filter v_ident].
  rewrite Identity_eqb_refl. reflexivity.
Qed.

Lemma has_version_false (w : World) (i : Identity) (v : Z) :
  com.has_version w i v = false -> ~ In v (com.versions_of (pg_versions w) i).
Proof.
  unfold com.has_version, com.versions_of. intros E HIn.
  apply in_map_iff in HIn. destruct HIn as (x & Hx & HIn).
  apply filter_In in HIn. destruct HIn as (HIn & Hi).
  assert (T : existsb (fun v0 => Identity_eqb (v_ident v0) i && (v_version v0 =? v))
                (pg_versions w) = true).
  { apply existsb_exists. exists x. split; [exact HIn|].
    rewrite Hi. cbn [andb]. apply Z.eqb_eq. exact Hx. }
  congruence.
Qed.

Lemma lmax_nonneg (l : list Z) : 0 <= fold_right Z.max 0 l.
Proof. induction l as [|a l IH]; cbn [fold_right]; lia. Qed.

Lemma lmax_app (l1 l2 : list Z) :
  fold_right Z.max 0 (l1 ++ l2) = Z.max (fold_right Z.max 0 l1) (fold_right Z.max 0 l2).
Proof.
  induction l1 as [|a l1 IH]; cbn [List.app fold_right].
  - pose proof (lmax_nonneg l2). lia.
  - rewrite IH. lia.
Qed.

Lemma highest_nonneg (vs : list VersionEntry) (i : Identity) : 0 <= com.highest vs i.
Proof. apply lmax_nonneg. Qed.

Lemma highest_nil (vs : list VersionEntry) (i : Identity) :
  com.versions_of vs i = [] -> com.highest vs i = 0.
Proof. unfold com.highest. intros ->. reflexivity. Qed.

Lemma add_one (z : Z) : 0 <= z < MaxInt -> Go.add z 1 = z + 1.
Proof.
  unfold Go.add, Go.wrap, MaxInt. intros Hz.
  rewrite Z.mod_small; lia.
Qed.

(** The version number [uploadDataHandler] determines, when the new row is
    accepted by the blob locator table, is the highest existing version
    plus one: also when the query for the highest version has failed, as
    the row with version 1 is only accepted for a new identity. *)
Lemma next_version_value (w : World) (i : Identity) (failed : bool) (v : Z) :
  starts_at_one (pg_versions w) i ->
  com.highest (pg_versions w) i < MaxInt ->
  com.has_version w i v = false ->
  v = (let highVer := if failed then 0 else com.highest (pg_versions w) i in
       if 0 <? highVer then Go.add highVer 1 else 1) ->
  v = com.highest (pg_versions w) i + 1.
Proof.
  intros Hs Hm Hv E. cbv zeta in E.
  pose proof (highest_nonneg (pg_versions w) i) as H0.
  destruct failed.
  - cbn in E. subst v. apply has_version_false in Hv.
    destruct (com.versions_of (pg_versions w) i) as [|a l] eqn:El.
    + rewrite (highest_nil _ _ El). reflexivity.
    + exfalso. apply Hv. rewrite <- El. apply Hs. rewrite El. discriminate.
  - destruct (0 <? com.highest (pg_versions w) i) eqn:Hp; bfacts.
    + rewrite add_one in E by lia. exact E.
    + subst v. lia.
Qed.

(** C1. A successful upload records the new database at the highest
    existing version of its (owner, folder, name) plus one, and at version
    1 when the identity has no version yet. The identity is the logged in
    user, the root folder and the name of the uploaded file; version
    numbers are Go integers, so the highest version is below the largest
    one. *)
Theorem upload_assigns_next_version (r : Request) (w w' : World) (user : string)
    (f : FormFile) (v : Z) :
  req_session r = SessionOf user ->
  form_file r = Some f ->
  starts_at_one (pg_versions w) (mkIdentity user "/" (Filename f)) ->
  com.highest (pg_versions w) (mkIdentity user "/" (Filename f)) < MaxInt ->
  run (uploadDataHandler r) w = Some w' ->
  committed_version (new_events w w') = Some v ->
  v = com.highest (pg_versions w) (mkIdentity user "/" (Filename f)) + 1
  /\ (com.versions_of (pg_versions w) (mkIdentity user "/" (Filename f)) = [] -> v = 1)
  /\ com.versions_of (pg_versions w') (mkIdentity user "/" (Filename f))
     = com.versions_of (pg_versions w) (mkIdentity user "/" (Filename f)) ++ [v].
Proof.
  intros Hs Hf Hone Hmax R C.
  pose proof (always_run _ _ _ (upload_version_exec r w) w' R) as E.
  cbv beta in E. rewrite C in E.
  destruct E as (user' & f' & b & Hs' & Hf' & Hv & Ev & Ew).
  rewrite Hs in Hs'. injection Hs' as <-. rewrite Hf in Hf'. injection Hf' as <-.
  assert (V : v = com.highest (pg_versions w) (mkIdentity user "/" (Filename f)) + 1).
  { exact (next_version_value w _ _ v Hone Hmax Hv Ev). }
  split; [exact V | split].
  - intros En. rewrite V, (highest_nil _ _ En). reflexivity.
  - rewrite Ew. apply versions_of_new.
Qed.

(** *** Uploads one after the other *)

Lemma count_from_snoc (k n : nat) :
  count_from k (S n) = count_from k n ++ [Z.of_nat (S (k + n))].
Proof.
  unfold count_from. rewrite seq_S, map_app. cbn [map]. rewrite Nat.add_succ_l. reflexivity.
Qed.

Lemma count_from_cons (k n : nat) :
  count_from k (S n) = Z.of_nat (S k) :: count_from (S k) n.
Proof. reflexivity. Qed.

Lemma lmax_count_from (n : nat) : fold_right Z.max 0 (count_from 0 n) = Z.of_nat n.
Proof.
  induction n as [|n IH]; [reflexivity|].
  rewrite count_from_snoc, lmax_app, IH. cbn [fold_right]. lia.
Qed.

Lemma count_from_starts_at_one (n : nat) : count_from 0 n <> [] -> In 1 (count_from 0 n).
Proof.
  destruct n as [|n]; [intros E; exfalso; apply E; reflexivity|].
  intros _. rewrite count_from_cons. left. reflexivity.
Qed.

Lemma serial_uploads_exec (user name : string) (rs : list Request) :
  Forall (fun r => req_session r = SessionOf user
                   /\ option_map Filename (form_file r) = Some name) rs ->
  forall (w w' : World) (vs : list (option Z)) (k : nat),
    com.versions_of (pg_versions w) (mkIdentity user "/" name) = count_from 0 k ->
    Z.of_nat (k + List.length rs) <= MaxInt ->
    serial_uploads rs w = Some (w', vs) ->
    recorded vs = count_from k (List.length (recorded vs))
    /\ com.versions_of (pg_versions w') (mkIdentity user "/" name)
       = count_from 0 (k + List.length (recorded vs)).
Proof.
  induction 1 as [|r rs [Hs Hn] _ IH]; intros w w' vs k Hk Hm R.
  - cbn [serial_uploads] in R. injection R as <- <-. cbn [recorded flat_map List.length].
    rewrite Nat.add_0_r. split; [reflexivity | exact Hk].
  - cbn [serial_uploads] in R.
    destruct (run (uploadDataHandler r) w) as [w1|] eqn:R1; [|discriminate].
    destruct (serial_uploads rs w1) as [[w2 vs']|] eqn:R2; [|discriminate].
    injection R as <- <-.
    pose proof (always_run _ _ _ (upload_version_exec r w) w1 R1) as E. cbv beta in E.
    cbn [List.length] in Hm.
    destruct (committed_version (new_events w w1)) as [v|].
    + destruct E as (user' & f & b & Hs' & Hf & Hv & Ev & Ew).
      rewrite Hs in Hs'. injection Hs' as <-.
      rewrite Hf in Hn. cbn [option_map] in Hn. injection Hn as Hn. rewrite Hn in *.
      assert (Hh : com.highest (pg_versions w) (mkIdentity user "/" name) = Z.of_nat k).
      { unfold com.highest. rewrite Hk. apply lmax_count_from. }
      assert (V : v = Z.of_nat (S k)).
      { assert (V0 : v = com.highest (pg_versions w) (mkIdentity user "/" name) + 1).
        { apply (next_version_value w _
                   (fails w (Op.HighestDBVersion user name "/" user)) v);
            [ | | exact Hv | exact Ev].
          - unfold starts_at_one. rewrite Hk. apply count_from_starts_at_one.
          - rewrite Hh. lia. }
        rewrite V0, Hh. lia. }
      assert (Hk1 : com.versions_of (pg_versions w1) (mkIdentity user "/" name)
                    = count_from 0 (S k)).
      { rewrite Ew, versions_of_new, Hk, V, count_from_snoc. reflexivity. }
      destruct (IH w1 w2 vs' (S k) Hk1 ltac:(lia) R2) as (IH1 & IH2).
      cbn [recorded flat_map List.app List.length]. fold (recorded vs').
      split.
      * rewrite count_from_cons, V. f_equal. exact IH1.
      * rewrite IH2. f_equal. lia.
    + assert (Hk1 : com.versions_of (pg_versions w1) (mkIdentity user "/" name)
                    = count_from 0 k) by (rewrite E; exact Hk).
      destruct (IH w1 w2 vs' k Hk1 ltac:(lia) R2) as (IH1 & IH2).
      cbn [recorded flat_map List.app]. fold (recorded vs'). split; assumption.
Qed.

(** C2, as the code has it. Uploads to one (owner, folder, name) that run
    one after the other, each from start to end, starting from an identity
    without versions: the versions they record are 1, 2, ..., in that
    order, without gaps or duplicates, and they are the versions of the
    identity afterwards. Uploads whose runs overlap are not covered. *)
Theorem serial_uploads_number_consecutively (user name : string) (rs : list Request)
    (w w' : World) (vs : list (option Z)) :
  Forall (fun r => req_session r = SessionOf user
                   /\ option_map Filename (form_file r) = Some name) rs ->
  com.versions_of (pg_versions w) (mkIdentity user "/" name) = [] ->
  Z.of_nat (List.length rs) <= MaxInt ->
  serial_uploads rs w = Some (w', vs) ->
  recorded vs = count_from 0 (List.length (recorded vs))
  /\ com.versions_of (pg_versions w') (mkIdentity user "/" name) = recorded vs.
Proof.
  intros Hrs Hw Hm R.
  destruct (serial_uploads_exec user name rs Hrs w w' vs 0 Hw Hm R) as (A & B).
  split; [exact A | rewrite B; cbn [Nat.add]; symmetry; exact A].
Qed.

(** *** Empty uploads *)

Lemma upload_empty_file_exec (r : Request) (w : World) (f : FormFile) (user : string) :
  form_file r = Some f ->
  file_data f = "" ->
  ends (uploadDataHandler r) w (fun w' evs =>
    same_stores w w'
    /\ Forall response_only evs
    /\ Exists is_error_page evs
    /\ (parse_form_err r = None -> file_read_err f = None -> Exists is_client_error evs)
    /\ (req_session r = SessionOf user ->
        parse_form_err r = None ->
        snd (form_public r) = None ->
        len (form r "descrip") <= 80 ->
        ValidateDB (Filename f) = None ->
        file_read_err f = None ->
        evs =
          [Log ("Upload DB handler: Database seems to be 0 bytes in length. Username: "
                ++ user ++ ", Database: " ++ Filename f ++ nl);
           ErrorPage StatusBadRequest "Database file is 0 length?"])).
Proof.
  intros Hf Hd. unfold ends, uploadDataHandler, upload_prepare, upload_commit.
  hunfold. rewrite Hf, Hd. change (len "" =? 0) with true. hexec.
  all: tdone; split; [stores | split; [all_events | split; [some_event | split]]].
  all: intros; bfacts; cbn [snd] in *; try congruence; try lia.
  all: repeat first [apply Exists_cons_hd; cbn; unfold StatusBadRequest, StatusUnauthorized; lia
                    | apply Exists_cons_tl].
  match goal with E : SessionOf _ = SessionOf _ |- _ => injection E as -> end.
  reflexivity.
Qed.

(** C10. An upload whose database file is zero bytes long is rejected: the
    handler finishes, changes no store and does nothing but log and answer
    with an error page, so no digest is computed, no version number is read
    or allocated and no blob is stored. The page is a client error (a 4xx
    status) whenever the form was parsed and the file was read without an
    I/O error, and it is the 400 page of the length check when the request
    has passed the checks that come first. *)
Theorem upload_empty_file_rejected (r : Request) (w : World) (f : FormFile) (user : string) :
  form_file r = Some f ->
  file_data f = "" ->
  exists w',
    run (uploadDataHandler r) w = Some w'
    /\ same_stores w w'
    /\ Forall response_only (new_events w w')
    /\ Exists is_error_page (new_events w w')
    /\ (parse_form_err r = None -> file_read_err f = None ->
        Exists is_client_error (new_events w w'))
    /\ (req_session r = SessionOf user ->
        parse_form_err r = None ->
        snd (form_public r) = None ->
        len (form r "descrip") <= 80 ->
        ValidateDB (Filename f) = None ->
        file_read_err f = None ->
        new_events w w' =
          [Log ("Upload DB handler: Database seems to be 0 bytes in length. Username: "
                ++ user ++ ", Database: " ++ Filename f ++ nl);
           ErrorPage StatusBadRequest "Database file is 0 length?"]).
Proof.
  intros Hf Hd.
  exact (ends_run _ _ _ (upload_empty_file_exec r w f user Hf Hd)).
Qed.

(** *** Forks *)

Lemma fork_same_owner_exec (r : Request) (w : World) (user : string) :
  req_session r = SessionOf user ->
  url_owner r = user ->
  ends (forkDBHandler r) w (fun w' evs =>
    same_stores w w'
    /\ Forall read_only evs
    /\ Exists is_error_page evs
    /\ (url_err r = None ->
        url_version r <> 0 ->
        fails w (Op.CheckUserDBVAccess user "/" (url_dbname r) (url_version r) user) = false ->
        evs =
          [Call (Op.CheckUserDBVAccess user "/" (url_dbname r) (url_version r) user) true;
           ErrorPage StatusBadRequest "Forking your own database in-place doesn't make sense"])).
Proof.
  intros Hs Ho. unfold ends, forkDBHandler. hunfold. rewrite Hs, Ho.
  unfold com.canRead. rewrite String.eqb_refl. hexec.
  all: tdone; split; [stores | split; [all_events | split; [some_event |]]].
  all: intros; bfacts; first [congruence | contradiction].
Qed.

(** C8, as the code has it. A fork request by the owner of the source
    database is rejected: whatever else the request says, the handler
    finishes, changes no store, makes no call that copies a blob or records
    a version, and answers with an error page. That page is the 400 page of
    the same-owner check when the request has passed the checks that come
    first: the URL names a version and the access check is answered. *)
Theorem fork_same_owner_rejected (r : Request) (w : World) (user : string) :
  req_session r = SessionOf user ->
  url_owner r = user ->
  exists w',
    run (forkDBHandler r) w = Some w'
    /\ same_stores w w'
    /\ Forall read_only (new_events w w')
    /\ Exists is_error_page (new_events w w')
    /\ (url_err r = None ->
        url_version r <> 0 ->
        fails w (Op.CheckUserDBVAccess user "/" (url_dbname r) (url_version r) user) = false ->
        new_events w w' =
          [Call (Op.CheckUserDBVAccess user "/" (url_dbname r) (url_version r) user) true;
           ErrorPage StatusBadRequest "Forking your own database in-place doesn't make sense"]).
Proof.
  intros Hs Ho.
  exact (ends_run _ _ _ (fork_same_owner_exec r w user Hs Ho)).
Qed.

Lemma fork_existing_name_exec (r : Request) (w : World) (user : string) :
  req_session r = SessionOf user ->
  com.highest (pg_versions w) (mkIdentity user "/" (url_dbname r)) <> 0 ->
  ends (forkDBHandler r) w (fun w' evs =>
    same_stores w w'
    /\ Forall read_only evs
    /\ Exists is_error_page evs
    /\ (url_err r = None ->
        url_version r <> 0 ->
        user <> url_owner r ->
        fails w (Op.CheckUserDBVAccess (url_owner r) "/" (url_dbname r) (url_version r) user)
          = false ->
        com.canRead w user (url_owner r) "/" (url_dbname r) (url_version r) = true ->
        fails w (Op.HighestDBVersion user (url_dbname r) "/" user) = false ->
        evs =
          [Call (Op.CheckUserDBVAccess (url_owner r) "/" (url_dbname r) (url_version r) user)
             true;
           Call (Op.HighestDBVersion user (url_dbname r) "/" user) true;
           ErrorPage StatusBadRequest "You already have a database of this name"])).
Proof.
  intros Hs Hv. unfold ends, forkDBHandler. hunfold. rewrite Hs. hexec.
  all: try (exfalso; bfacts; congruence).
  all: tdone; split; [stores | split; [all_events | split; [some_event |]]].
  all: intros; bfacts; first [congruence | contradiction].
Qed.

(** C9, as the code has it. When the logged in user already has a database
    of the requested name, a fork request never succeeds: the handler
    finishes, changes no store, copies no blob and answers with an error
    page. That page is the 400 page of the name check when the request has
    passed the checks that come first: it names a version, the user is not
    the owner of the source and may read it, and the metadata store
    answers. *)
Theorem fork_existing_name_rejected (r : Request) (w : World) (user : string) :
  req_session r = SessionOf user ->
  com.highest (pg_versions w) (mkIdentity user "/" (url_dbname r)) <> 0 ->
  exists w',
    run (forkDBHandler r) w = Some w'
    /\ same_stores w w'
    /\ Forall read_only (new_events w w')
    /\ Exists is_error_page (new_events w w')
    /\ (url_err r = None ->
        url_version r <> 0 ->
        user <> url_owner r ->
        fails w (Op.CheckUserDBVAccess (url_owner r) "/" (url_dbname r) (url_version r) user)
          = false ->
        com.canRead w user (url_owner r) "/" (url_dbname r) (url_version r) = true ->
        fails w (Op.HighestDBVersion user (url_dbname r) "/" user) = false ->
        new_events w w' =
          [Call (Op.CheckUserDBVAccess (url_owner r) "/" (url_dbname r) (url_version r) user)
             true;
           Call (Op.HighestDBVersion user (url_dbname r) "/" user) true;
           ErrorPage StatusBadRequest "You already have a database of this name"]).
Proof.
  intros Hs Hv.
  exact (ends_run _ _ _ (fork_existing_name_exec r w user Hs Hv)).
Qed.

(** *** Cache invalidation *)

Lemma invalidation_follows_app (l1 l2 : list Event) :
  Forall (fun e => mutation_ok e = None) l1 ->
  invalidation_follows l2 -> invalidation_follows (l1 ++ l2).
Proof.
  induction 1 as [|e l1 He _ IH]; intros H2; [exact H2|].
  cbn [List.app invalidation_follows]. rewrite He. split; [exact I | exact (IH H2)].
Qed.

Lemma loop_event_no_mutation (evs : list Event) :
  Forall loop_event evs -> Forall (fun e => mutation_ok e = None) evs.
Proof.
  apply Forall_impl. intros [m|st m|u st|b| | |c ok]; cbn; try contradiction; try reflexivity.
  destruct c; cbn; try contradiction; reflexivity.
Qed.

Lemma invalidation_follows_none (l : list Event) :
  Forall (fun e => mutation_ok e = None) l -> invalidation_follows l.
Proof.
  intros Hl. rewrite <- (List.app_nil_r l). apply invalidation_follows_app; [exact Hl | exact I].
Qed.

Ltac inv_follows :=
  repeat first
    [ exact I
    | progress cbn [invalidation_follows mutation_ok skip_logs List.app]
    | split
    | apply invalidation_follows_app; [apply loop_event_no_mutation; assumption|]
    | apply invalidation_follows_none; apply loop_event_no_mutation; assumption
    | do 2 eexists; reflexivity ].

Lemma upload_invalidates (r : Request) (w : World) :
  always (uploadDataHandler r) w (fun _ evs => invalidation_follows evs).
Proof.
  unfold always, uploadDataHandler, upload_prepare, upload_commit. hexec_upload.
  all: try exact I.
  all: tdone; inv_follows.
Qed.

Lemma fork_invalidates (r : Request) (w : World) :
  always (forkDBHandler r) w (fun _ evs => invalidation_follows evs).
Proof.
  unfold always, forkDBHandler. hexec.
  all: try exact I.
  all: tdone; inv_follows.
Qed.

Lemma star_invalidates (r : Request) (w : World) :
  always (starToggleHandler r) w (fun _ evs => invalidation_follows evs).
Proof.
  unfold always, starToggleHandler. hexec.
  all: try exact I.
  all: tdone; inv_follows.
Qed.

Lemma invalidation_follows_at (evs pre post : list Event) (e : Event) (u o f n : string) :
  invalidation_follows evs ->
  evs = pre ++ e :: post ->
  mutation_ok e = Some (u, o, f, n) ->
  exists ok rest, skip_logs post = Call (Op.InvalidateCacheEntry u o f n 0) ok :: rest.
Proof.
  revert evs. induction pre as [|x pre IH]; intros evs Hi -> Hm.
  - cbn [List.app invalidation_follows] in Hi. rewrite Hm in Hi. exact (proj1 Hi).
  - cbn [List.app invalidation_follows] in Hi. exact (IH _ (proj2 Hi) eq_refl Hm).
Qed.

(** C6. In a run of the upload, fork or star handler, every successful
    mutation (a new version recorded, a fork recorded, a star toggled) is
    followed in the same run, with nothing but log lines in between, by the
    call of [com.InvalidateCacheEntry] for the database of the request with
    version 0, the wildcard for all versions. *)
Theorem mutations_invalidate_cache (r : Request) (w w' : World)
    (pre post : list Event) (e : Event) (u o f n : string) :
  run (uploadDataHandler r) w = Some w'
  \/ run (forkDBHandler r) w = Some w'
  \/ run (starToggleHandler r) w = Some w' ->
  new_events w w' = pre ++ e :: post ->
  mutation_ok e = Some (u, o, f, n) ->
  exists ok rest, skip_logs post = Call (Op.InvalidateCacheEntry u o f n 0) ok :: rest.
Proof.
  intros R E M.
  apply (invalidation_follows_at (new_events w w') pre post e); [|exact E|exact M].
  destruct R as [R|[R|R]].
  - exact (always_run _ _ _ (upload_invalidates r w) w' R).
  - exact (always_run _ _ _ (fork_invalidates r w) w' R).
  - exact (always_run _ _ _ (star_invalidates r w) w' R).
Qed.

(** *** Failed invalidations *)

Lemma stops_after_loop (l rest : list Event) :
  Forall loop_event l ->
  stops_after_failed_invalidation rest -> stops_after_failed_invalidation (l ++ rest).
Proof.
  induction 1 as [|e l He _ IH]; intros Hr; [exact Hr|].
  cbn [List.app]. destruct e as [m|st m|u st|b| | |c ok]; cbn in He; try contradiction;
    cbn [stops_after_failed_invalidation]; try exact (IH Hr).
  destruct c; cbn in He; try contradiction. exact (IH Hr).
Qed.

Ltac stops :=
  repeat first
    [ exact I
    | progress cbn [stops_after_failed_invalidation List.app]
    | apply stops_after_loop; [assumption|]
    | match goal with
      | L : Forall loop_event ?l |- stops_after_failed_invalidation ?l =>
          rewrite <- (List.app_nil_r l); apply stops_after_loop; [exact L | exact I]
      end
    | eexists; reflexivity ].

(** X3. In the upload, fork and star handlers a failed cache invalidation is
    logged, and the handler returns: nothing is written to the response
    after it. *)
Lemma invalidation_failure_returns (r : Request) (w w' : World) :
  run (uploadDataHandler r) w = Some w'
  \/ run (forkDBHandler r) w = Some w'
  \/ run (starToggleHandler r) w = Some w' ->
  stops_after_failed_invalidation (new_events w w').
Proof.
  intros [R|[R|R]].
  - refine (always_run _ _ (fun _ evs => stops_after_failed_invalidation evs) _ w' R).
    unfold always, uploadDataHandler, upload_prepare, upload_commit. hexec_upload.
    all: try exact I.
    all: tdone; stops.
  - refine (always_run _ _ (fun _ evs => stops_after_failed_invalidation evs) _ w' R).
    unfold always, forkDBHandler. hexec.
    all: try exact I.
    all: tdone; stops.
  - refine (always_run _ _ (fun _ evs => stops_after_failed_invalidation evs) _ w' R).
    unfold always, starToggleHandler. hexec.
    all: try exact I.
    all: tdone; stops.
Qed.

(** *** The table view *)

Lemma tableView_read_spec (pageName bkt id dbName requestedTable sortCol sortDir : string)
    (rowOffset maxRows : Z) (key : string) (w : World) :
  match tableView_read pageName bkt id dbName requestedTable sortCol sortDir
          rowOffset maxRows key w with
  | (NoFuel, _) => False
  | (_, w') =>
      fails w' = fails w
      /\ exists evs, trace w' = trace w ++ evs /\ Forall (fun e => cache_read_key e = None) evs
  end.
Proof.
  unfold tableView_read. hexec.
  all: split; [reflexivity|]; tdone; repeat (constructor; try reflexivity).
Qed.

Ltac hread :=
  lazymatch goal with
  | |- match ?x with _ => _ end =>
      let s := head_scrutinee x in
      lazymatch s with
      | @tableView_read _ ?a1 ?a2 ?a3 ?a4 ?a5 ?a6 ?a7 ?a8 ?a9 ?a10 ?w1 =>
          let S := fresh "S" in
          pose proof (tableView_read_spec a1 a2 a3 a4 a5 a6 a7 a8 a9 a10 w1) as S;
          destruct s as [[dataRows| |] [d v st m c fl rn tr]];
          [ destruct S as (? & read_evs & ? & ?) | destruct S as (? & read_evs & ? & ?)
          | contradiction ];
          hsimpl; subst fl tr; hunfold; hsimpl
      end
  end.

Ltac hexec_view := hunfold; hsimpl; repeat first [hread | hstep].

Lemma reads_guarded_at (access : Event) (evs pre post : list Event) (k : string) (ok : bool) :
  cache_read_key access = None ->
  reads_guarded access evs ->
  evs = pre ++ Call (Op.GetCachedData k) ok :: post ->
  In access pre.
Proof.
  intros Ha. revert evs. induction pre as [|x pre IH]; intros evs G ->.
  - cbn [List.app reads_guarded] in G. destruct G as [E|[E _]].
    + rewrite <- E in Ha. discriminate Ha.
    + discriminate E.
  - cbn [List.app reads_guarded] in G. destruct G as [E|[_ G]].
    + left. exact E.
    + right. exact (IH _ G eq_refl).
Qed.

Ltac guarded :=
  cbn [reads_guarded];
  repeat first [exact I | left; reflexivity | right; split; [reflexivity|]; cbn [reads_guarded]].

Ltac keyed :=
  repeat first
    [ apply Forall_nil
    | apply Forall_cons;
      [ cbn [cache_read_key]; intros ? E;
        first [discriminate E | injection E as <-; do 2 eexists; reflexivity] |]
    | apply Forall_app; split;
      [ eapply Forall_impl; [|eassumption]; cbn beta; intros ? E0 ? E1; congruence |]
    | solve [eapply Forall_impl; [|eassumption]; cbn beta; intros ? E0 ? E1; congruence] ].

(** The cache lookups of a table view: none before the access check of the
    request has succeeded, and each under the key of the viewer and
    database of the request. *)
Lemma tableView_exec (r : Request) (w : World) :
  always (tableViewHandler r) w (fun _ evs =>
    reads_guarded
      (Call (Op.MinioBucketID (url_owner r) (url_dbname r) (url_version r) (viewer_of r)) true)
      evs
    /\ (In (Call (Op.MinioBucketID (url_owner r) (url_dbname r) (url_version r) (viewer_of r))
              true) evs ->
        com.canRead w (viewer_of r) (url_owner r) "/" (url_dbname r) (url_version r) = true)
    /\ Forall (fun e => forall k, cache_read_key e = Some k ->
                 exists off rows,
                   k = dataCacheKey (viewer_of r) (url_owner r) "/" (url_dbname r)
                         (url_version r) (url_table r) (form r "sort") (form r "dir")
                         off rows) evs).
Proof.
  unfold always, tableViewHandler, viewer_of. hexec_view.
  all: unfold com.canRead, com.identity_public, com.find_db in *; hsimpl.
  all: tdone; split; [guarded | split; [|keyed]].
  all: intros HIn; first
         [ assumption | reflexivity
         | exfalso; cbn [In] in HIn;
           repeat (destruct HIn as [HIn|HIn]; [try discriminate HIn|]);
           first [exact HIn | congruence] ].
Qed.

(** C4. In every run of the table view handler, a lookup in the result
    cache comes after the access check of the request has succeeded: the
    call of [com.MinioBucketID] for the owner, database and version of the
    request and for its viewer has returned without error, which it does
    only when the access guard lets the viewer read. The key that is looked
    up is the one of that viewer and database. *)
Theorem cache_lookup_after_access_check (r : Request) (w w' : World)
    (pre post : list Event) (k : string) (ok : bool) :
  run (tableViewHandler r) w = Some w' ->
  new_events w w' = pre ++ Call (Op.GetCachedData k) ok :: post ->
  In (Call (Op.MinioBucketID (url_owner r) (url_dbname r) (url_version r) (viewer_of r)) true)
    pre
  /\ com.canRead w (viewer_of r) (url_owner r) "/" (url_dbname r) (url_version r) = true
  /\ exists off rows,
       k = dataCacheKey (viewer_of r) (url_owner r) "/" (url_dbname r) (url_version r)
             (url_table r) (form r "sort") (form r "dir") off rows.
Proof.
  intros R E.
  destruct (always_run _ _ _ (tableView_exec r w) w' R) as (G & A & K).
  assert (P : In (Call (Op.MinioBucketID (url_owner r) (url_dbname r) (url_version r)
                          (viewer_of r)) true) pre).
  { apply (reads_guarded_at _ (new_events w w') pre post k ok); [reflexivity | exact G | exact E]. }
  split; [exact P | split].
  - apply A. rewrite E. apply in_or_app. left. exact P.
  - rewrite E in K. apply Forall_app in K. destruct K as (_ & K).
    apply Forall_cons_iff in K. destruct K as (K & _). exact (K k eq_refl).
Qed.

(** *** What the handlers never do *)

(** An event that is none of the loop's is not among the events of the loop. *)
Ltac not_in_loop H :=
  match goal with
  | L : Forall loop_event ?l |- _ =>
      match type of H with
      | In _ l => rewrite Forall_forall in L; apply L in H; contradiction H
      end
  end.

Lemma upload_store_exec (r : Request) (w : World) :
  always (uploadDataHandler r) w (fun _ evs =>
    forall bkt id ok,
      In (Call (Op.StoreMinioObject bkt id) ok) evs ->
      exists user f,
        req_session r = SessionOf user /\ form_file r = Some f
        /\ parse_form_err r = None /\ snd (form_public r) = None
        /\ len (form r "descrip") <= 80
        /\ ValidateDB (Filename f) = None /\ file_read_err f = None
        /\ len (file_data f) <> 0
        /\ SanityCheck (file_data f) = None
        /\ bkt = userBucket user).
Proof.
  unfold always, uploadDataHandler, upload_prepare, upload_commit. hexec_upload.
  all: try exact I.
  all: tdone; intros zb zi zok HIn; split_in HIn; try not_in_loop HIn.
  all: injection HIn as <- <- <-; do 2 eexists; bfacts; cbn [snd];
       repeat split; try reflexivity; try assumption; try lia.
Qed.

(** X4. An upload stores a file in the blob store only for a logged in
    user, in the bucket of that user, and only after every check of the
    request has passed: the form parsed, the public flag was a boolean, the
    description has at most 80 characters, the file name is a valid
    database name, the file was read and is not empty, and the sanity check
    of its bytes has passed. *)
Theorem upload_stores_only_checked_files (r : Request) (w w' : World)
    (bkt id : string) (ok : bool) :
  run (uploadDataHandler r) w = Some w' ->
  In (Call (Op.StoreMinioObject bkt id) ok) (new_events w w') ->
  exists user f,
    req_session r = SessionOf user /\ form_file r = Some f
    /\ parse_form_err r = None /\ snd (form_public r) = None
    /\ len (form r "descrip") <= 80
    /\ ValidateDB (Filename f) = None /\ file_read_err f = None
    /\ len (file_data f) <> 0
    /\ SanityCheck (file_data f) = None
    /\ bkt = userBucket user.
Proof.
  intros R HIn.
  exact (always_run _ _ _ (upload_store_exec r w) w' R bkt id ok HIn).
Qed.

(** *** What an upload leaves behind *)

Lemma find_app_none {A : Type} (p : A -> bool) (l l' : list A) :
  find p l = None -> find p (l ++ l') = find p l'.
Proof.
  induction l as [|x l IH]; [reflexivity|]. cbn [find List.app].
  destruct (p x); [discriminate | exact IH].
Qed.

Lemma find_app_some {A : Type} (p : A -> bool) (l l' : list A) (x : A) :
  find p l = Some x -> find p (l ++ l') = Some x.
Proof.
  induction l as [|y l IH]; [discriminate|]. cbn [find List.app].
  destruct (p y); [trivial | exact IH].
Qed.

Lemma find_existsb_false {A : Type} (p : A -> bool) (l : list A) :
  existsb p l = false -> find p l = None.
Proof.
  induction l as [|x l IH]; [reflexivity|]. cbn [existsb find].
  destruct (p x); [discriminate | exact IH].
Qed.

(** A version that is recorded at the end of the table resolves to its
    blob, when the identity had no such version before. *)
Lemma resolve_new_version (w w' : World) (i : Identity) (v : Z) (b : BlobRef) :
  com.has_version w i v = false ->
  pg_versions w' = pg_versions w ++ [mkVersionEntry i v b] ->
  com.resolve w' i v = Some b.
Proof.
  unfold com.has_version, com.resolve. intros N ->.
  rewrite find_app_none by (apply find_existsb_false; exact N).
  cbn [find v_ident v_version]. rewrite Identity_eqb_refl, Z.eqb_refl. reflexivity.
Qed.

(** Rows added at the end of the table change no version that resolves. *)
Lemma resolve_old_version (w w' : World) (i : Identity) (v : Z) (b : BlobRef)
    (rows : list VersionEntry) :
  pg_versions w' = pg_versions w ++ rows ->
  com.resolve w i v = Some b -> com.resolve w' i v = Some b.
Proof.
  unfold com.resolve. intros -> R.
  destruct (find _ (pg_versions w)) as [x|] eqn:F; [|discriminate R].
  rewrite (find_app_some _ _ _ _ F). exact R.
Qed.

Lemma upload_record_exec (r : Request) (w : World) :
  always (uploadDataHandler r) w (fun w' evs =>
    forall o f n v b i ok,
      In (Call (Op.AddDatabase o f n v b i) ok) evs ->
      exists file,
        req_session r = SessionOf o /\ form_file r = Some file
        /\ f = "/" /\ n = Filename file /\ b = userBucket o
        /\ minio w' = minio w ++ [mkMinioObject b i (file_data file) (ContentType file)]
        /\ if ok then
             com.has_version w (mkIdentity o "/" n) v = false
             /\ pg_versions w' =
                pg_versions w ++
                [mkVersionEntry (mkIdentity o "/" n) v
                   (mkBlobRef b i (len (file_data file)) (sha256_Sum256 (file_data file)))]
           else
             pg_versions w' = pg_versions w /\ pg_dbs w' = pg_dbs w
             /\ In (ErrorPage StatusInternalServerError
                      "Adding database details to PostgreSQL failed") evs
             /\ Forall (fun e => match e with RedirectTo _ _ => False | _ => True end) evs).
Proof.
  unfold always, uploadDataHandler, upload_prepare, upload_commit. hexec_upload.
  all: try exact I.
  all: tdone; intros zo zf zn zv zb zi zok HIn; split_in HIn; try not_in_loop HIn.
  all: injection HIn as <- <- <- <- <- <- <-; eexists;
       repeat (split; [reflexivity|]); cbn [minio pg_versions pg_dbs].
  all: unfold com.has_version in *; hsimpl.
  all: repeat split; try reflexivity; try assumption.
  all: try solve [find_in].
  all: repeat first
         [ apply Forall_nil | apply Forall_cons; [exact I|]
         | apply Forall_app; split;
           [ eapply Forall_impl; [|eassumption]; intros [m|st m|u st|bd| | |c okc] L;
             first [exact I | contradiction L] |] ].
Qed.

(** X5. When the metadata store refuses the new version after the file has
    been stored, the upload answers with status 500 and does not redirect;
    the stored object stays in the blob store, and no version refers to
    it: the handler does not remove it. *)
Theorem upload_failed_record_leaves_blob (r : Request) (w w' : World)
    (o f n : string) (v : Z) (b i : string) :
  run (uploadDataHandler r) w = Some w' ->
  In (Call (Op.AddDatabase o f n v b i) false) (new_events w w') ->
  exists file,
    form_file r = Some file
    /\ minio w' = minio w ++ [mkMinioObject b i (file_data file) (ContentType file)]
    /\ pg_versions w' = pg_versions w /\ pg_dbs w' = pg_dbs w
    /\ In (ErrorPage StatusInternalServerError "Adding database details to PostgreSQL failed")
         (new_events w w')
    /\ Forall (fun e => match e with RedirectTo _ _ => False | _ => True end)
         (new_events w w').
Proof.
  intros R HIn.
  destruct (always_run _ _ _ (upload_record_exec r w) w' R o f n v b i false HIn)
    as (file & _ & F & _ & _ & _ & M & V & D & E & N).
  exists file. repeat split; assumption.
Qed.

(** X6. After an upload has recorded a version, that version of the
    database of the logged in user resolves to the object the handler has
    stored in the bucket of the user, with the length of the uploaded bytes
    as its size and their SHA-256 as its digest; the object holds the
    uploaded bytes, and every version that resolved before the upload still
    resolves to the same blob. *)
Theorem upload_then_resolve (r : Request) (w w' : World)
    (o f n : string) (v : Z) (b i : string) :
  run (uploadDataHandler r) w = Some w' ->
  In (Call (Op.AddDatabase o f n v b i) true) (new_events w w') ->
  exists file,
    req_session r = SessionOf o /\ form_file r = Some file /\ n = Filename file
    /\ com.resolve w' (mkIdentity o "/" n) v
       = Some (mkBlobRef (userBucket o) i (len (file_data file))
                 (sha256_Sum256 (file_data file)))
    /\ In (mkMinioObject (userBucket o) i (file_data file) (ContentType file)) (minio w')
    /\ forall i' v' b', com.resolve w i' v' = Some b' -> com.resolve w' i' v' = Some b'.
Proof.
  intros R HIn.
  destruct (always_run _ _ _ (upload_record_exec r w) w' R o f n v b i true HIn)
    as (file & S & F & _ & N & -> & M & V & P).
  exists file. split; [exact S | split; [exact F | split; [exact N | split; [|split]]]].
  - exact (resolve_new_version w w' _ v _ V P).
  - rewrite M. apply in_or_app. right. left. reflexivity.
  - intros i' v' b'. exact (resolve_old_version w w' i' v' b' _ P).
Qed.

Lemma upload_lookup_failure_exec (r : Request) (w : World) :
  always (uploadDataHandler r) w (fun _ evs =>
    forall o n f u,
      In (Call (Op.HighestDBVersion o n f u) false) evs ->
      In (Call (Op.MinioUserBucket o) (negb (fails w (Op.MinioUserBucket o)))) evs).
Proof.
  unfold always, uploadDataHandler, upload_prepare, upload_commit. hexec_upload.
  all: try exact I.
  all: tdone; intros zo zn zf zu HIn; split_in HIn; try not_in_loop HIn.
  all: injection HIn as <- <- <- <-.
  all: match goal with
       | E : fails _ (Op.MinioUserBucket _) = _ |- _ => rewrite E
       end; cbn [negb]; find_in.
Qed.

(** X7. The upload does not check the error of the lookup of the highest
    version: when that lookup fails, the handler does not stop, it goes on
    to ask for the bucket of the user. *)
Theorem upload_ignores_failed_version_lookup (r : Request) (w w' : World)
    (o n f u : string) :
  run (uploadDataHandler r) w = Some w' ->
  In (Call (Op.HighestDBVersion o n f u) false) (new_events w w') ->
  In (Call (Op.MinioUserBucket o) (negb (fails w (Op.MinioUserBucket o)))) (new_events w w').
Proof.
  intros R HIn.
  exact (always_run _ _ _ (upload_lookup_failure_exec r w) w' R o n f u HIn).
Qed.

(** *** Forks *)

Lemma fresh_id_unused (w : World) (bkt : string) (tape : list string) (s : string)
    (rest : list string) :
  com.fresh_id w bkt tape = Some (s, rest) -> com.find_object w bkt s = None.
Proof.
  induction tape as [|x tape IH]; cbn [com.fresh_id]; [discriminate|].
  destruct (com.find_object w bkt x) eqn:F; [exact IH|].
  intros E. injection E as <- _. exact F.
Qed.

(** An identity whose highest version is 0 has no version 1. *)
Lemma highest_zero_no_version (vs : list VersionEntry) (i : Identity) (v : Z) :
  com.highest vs i = 0 -> 0 < v ->
  existsb (fun x => Identity_eqb (v_ident x) i && (v_version x =? v)) vs = false.
Proof.
  unfold com.highest, com.versions_of. intros Hh Hv.
  induction vs as [|x vs IH]; [reflexivity|].
  cbn [existsb filter] in *. destruct (Identity_eqb (v_ident x) i) eqn:E.
  - cbn [map fold_right] in Hh. cbn [andb].
    pose proof (lmax_nonneg (map v_version
                  (filter (fun v0 => Identity_eqb (v_ident v0) i) vs))) as P.
    destruct (Z.eqb_spec (v_version x) v) as [Ev|_]; [lia|].
    cbn [orb]. apply IH. lia.
  - cbn [andb orb]. apply IH. exact Hh.
Qed.

Lemma fork_copy_exec (r : Request) (w : World) :
  always (forkDBHandler r) w (fun _ evs =>
    forall sb si db ok,
      In (Call (Op.MinioObjCopy sb si db) ok) evs ->
      exists user b,
        req_session r = SessionOf user /\ url_err r = None /\ url_version r <> 0
        /\ com.canRead w user (url_owner r) "/" (url_dbname r) (url_version r) = true
        /\ user <> url_owner r
        /\ com.highest (pg_versions w) (mkIdentity user "/" (url_dbname r)) = 0
        /\ com.resolve w (mkIdentity (url_owner r) "/" (url_dbname r)) (url_version r) = Some b
        /\ sb = bucket b /\ si = objid b /\ db = userBucket user).
Proof.
  unfold always, forkDBHandler. hexec.
  all: try exact I.
  all: tdone; intros zsb zsi zdb zok HIn; split_in HIn.
  all: injection HIn as <- <- <- <-; do 2 eexists; bfacts;
       repeat split; try reflexivity; try assumption.
Qed.

(** X8. A fork copies a blob only when every check of the request has
    passed: a version number is given, the user is logged in, may read the
    requested version of the source, is not its owner and has no database
    of that name; the blob that is copied is the one the requested version
    resolves to, and it is copied to the bucket of the user. *)
Theorem fork_copies_only_checked_sources (r : Request) (w w' : World)
    (sb si db : string) (ok : bool) :
  run (forkDBHandler r) w = Some w' ->
  In (Call (Op.MinioObjCopy sb si db) ok) (new_events w w') ->
  exists user b,
    req_session r = SessionOf user /\ url_err r = None /\ url_version r <> 0
    /\ com.canRead w user (url_owner r) "/" (url_dbname r) (url_version r) = true
    /\ user <> url_owner r
    /\ com.highest (pg_versions w) (mkIdentity user "/" (url_dbname r)) = 0
    /\ com.resolve w (mkIdentity (url_owner r) "/" (url_dbname r)) (url_version r) = Some b
    /\ sb = bucket b /\ si = objid b /\ db = userBucket user.
Proof.
  intros R HIn.
  exact (always_run _ _ _ (fork_copy_exec r w) w' R sb si db ok HIn).
Qed.

Lemma fork_record_exec (r : Request) (w : World) :
  always (forkDBHandler r) w (fun w' evs =>
    forall so f n sv d df id,
      In (Call (Op.ForkDatabase so f n sv d df id) true) evs ->
      exists b o,
        req_session r = SessionOf d /\ so = url_owner r /\ n = url_dbname r
        /\ sv = url_version r /\ f = "/" /\ df = "/"
        /\ com.highest (pg_versions w) (mkIdentity d "/" n) = 0
        /\ com.resolve w (mkIdentity so "/" n) sv = Some b
        /\ com.find_object w (bucket b) (objid b) = Some o
        /\ com.find_object w (userBucket d) id = None
        /\ minio w' = minio w ++ [mkMinioObject (userBucket d) id (o_data o) (o_ctype o)]
        /\ pg_versions w' =
           pg_versions w ++
           [mkVersionEntry (mkIdentity d "/" n) 1
              (mkBlobRef (userBucket d) id (size b) (digest b))]).
Proof.
  unfold always, forkDBHandler. hexec.
  all: try exact I.
  all: tdone; intros zso zf zn zsv zd zdf zid HIn; split_in HIn.
  all: injection HIn as <- <- <- <- <- <- <-; bfacts.
  all: match goal with
       | F : com.fresh_id _ _ _ = Some _ |- _ => apply fresh_id_unused in F
       end.
  all: unfold com.resolve, com.find_object in *; hsimpl.
  all: match goal with
       | A : ?x = Some ?b1, B : ?x = Some ?b2 |- _ =>
           rewrite A in B; injection B as <-
       end.
  all: match goal with
       | E : com.highest _ _ = 0 |- _ => rewrite E
       end.
  all: do 2 eexists; repeat split; try reflexivity; try eassumption.
Qed.

(** X9. After a fork has been recorded, version 1 of the database of the
    same name of the logged in user resolves to a new object in the bucket
    of that user, with the size and digest of the source version; the new
    object holds the bytes of the object the source version resolves to,
    and every version that resolved before the fork, the source among
    them, still resolves to the same blob. *)
Theorem fork_then_resolve (r : Request) (w w' : World)
    (so f n : string) (sv : Z) (d df id : string) :
  run (forkDBHandler r) w = Some w' ->
  In (Call (Op.ForkDatabase so f n sv d df id) true) (new_events w w') ->
  exists b o,
    req_session r = SessionOf d
    /\ com.resolve w (mkIdentity (url_owner r) "/" (url_dbname r)) (url_version r) = Some b
    /\ com.find_object w (bucket b) (objid b) = Some o
    /\ com.resolve w' (mkIdentity d "/" (url_dbname r)) 1
       = Some (mkBlobRef (userBucket d) id (size b) (digest b))
    /\ com.find_object w' (userBucket d) id
       = Some (mkMinioObject (userBucket d) id (o_data o) (o_ctype o))
    /\ forall i' v' b', com.resolve w i' v' = Some b' -> com.resolve w' i' v' = Some b'.
Proof.
  intros R HIn.
  destruct (always_run _ _ _ (fork_record_exec r w) w' R so f n sv d df id HIn)
    as (b & o & S & -> & -> & -> & _ & _ & Hh & Rs & Fo & Fn & M & P).
  exists b, o. split; [exact S | split; [exact Rs | split; [exact Fo | split; [|split]]]].
  - apply (resolve_new_version w w' _ 1 _); [|exact P].
    unfold com.has_version. apply highest_zero_no_version; [exact Hh | lia].
  - unfold com.find_object in *. rewrite M. rewrite (find_app_none _ _ _ Fn).
    cbn [find o_bucket o_id]. rewrite !String.eqb_refl. reflexivity.
  - intros i' v' b'. exact (resolve_old_version w w' i' v' b' _ P).
Qed.

(** *** Visitors who are not logged in *)

Lemma visitor_exec (r : Request) (w : World) (h : Request -> Handler unit) :
  (forall u, req_session r <> SessionOf u) ->
  In h [uploadDataHandler; forkDBHandler; starToggleHandler] ->
  ends (h r) w (fun w' evs => same_stores w w' /\ Forall no_service evs).
Proof.
  intros Hs [<-|[<-|[<-|[]]]].
  - unfold ends, uploadDataHandler, upload_prepare, upload_commit. hunfold.
    destruct (req_session r) as [| |u] eqn:S; [| |exfalso; exact (Hs u eq_refl)];
      hexec; tdone; split; [stores | all_events | stores | all_events].
  - unfold ends, forkDBHandler. hunfold.
    destruct (req_session r) as [| |u] eqn:S; [| |exfalso; exact (Hs u eq_refl)];
      hexec; tdone; (split; [stores | all_events]).
  - unfold ends, starToggleHandler. hunfold.
    destruct (req_session r) as [| |u] eqn:S; [| |exfalso; exact (Hs u eq_refl)];
      hexec; tdone; (split; [stores | all_events]).
Qed.

(** X10. For a visitor who is not logged in, the upload, fork and star
    handlers finish without reaching any service: no call is made, the
    uploaded bytes are not read, and the metadata store, the blob store and
    the cache are as before. *)
Theorem visitors_reach_no_service (r : Request) (w : World) (h : Request -> Handler unit) :
  (forall u, req_session r <> SessionOf u) ->
  In h [uploadDataHandler; forkDBHandler; starToggleHandler] ->
  exists w', run (h r) w = Some w' /\ same_stores w w' /\ Forall no_service (new_events w w').
Proof.
  intros Hs Hh. exact (ends_run _ _ _ (visitor_exec r w h Hs Hh)).
Qed.

(** *** More on the table view *)

Lemma tableView_checks_exec (r : Request) (w : World) :
  always (tableViewHandler r) w (fun _ evs =>
    forall c ok,
      In (Call c ok) evs ->
      url_err r = None
      /\ (form r "offset" = "" \/ snd (Atoi (form r "offset")) = None)
      /\ (form r "sort" = "" \/ ValidateFieldName (form r "sort") = None)
      /\ valid_sort_dir (form r "dir") = true).
Proof.
  unfold always, tableViewHandler, valid_sort_dir. hexec_view.
  all: tdone; intros zc zok HIn.
  all: try solve [exfalso; split_in HIn].
  all: cbn [snd orb]; repeat split.
  all: first
         [ reflexivity | assumption | right; assumption | right; reflexivity
         | left; apply String.eqb_eq; assumption
         | destruct (String.eqb (form r "dir") "ASC");
           destruct (String.eqb (form r "dir") "DESC"); cbn [andb orb] in *; congruence ].
Qed.

(** X11. The table view reaches a service (the metadata store, the cache,
    the blob store) only for a request that has passed its checks: the URL
    names owner, database, table and version, the offset is empty or a
    number, the sort column is empty or a valid field name, and the sort
    direction is empty, ASC or DESC. *)
Theorem table_view_checks_before_services (r : Request) (w w' : World)
    (c : Op.t) (ok : bool) :
  run (tableViewHandler r) w = Some w' ->
  In (Call c ok) (new_events w w') ->
  url_err r = None
  /\ (form r "offset" = "" \/ snd (Atoi (form r "offset")) = None)
  /\ (form r "sort" = "" \/ ValidateFieldName (form r "sort") = None)
  /\ valid_sort_dir (form r "dir") = true.
Proof.
  intros R HIn.
  exact (always_run _ _ _ (tableView_checks_exec r w) w' R c ok HIn).
Qed.

Lemma tableView_key_exec (r : Request) (w : World) :
  always (tableViewHandler r) w (fun _ evs =>
    Forall (fun e => forall k, cache_read_key e = Some k ->
      k = dataCacheKey (viewer_of r) (url_owner r) "/" (url_dbname r) (url_version r)
            (url_table r) (form r "sort") (form r "dir")
            (if String.eqb (form r "offset") "" then 0
             else Z.max 0 (fst (Atoi (form r "offset"))))
            (if String.eqb (viewer_of r) "" then com.DefaultNumDisplayRows
             else PrefUserMaxRows (viewer_of r))) evs).
Proof.
  unfold always, tableViewHandler, viewer_of. hexec_view.
  all: tdone.
  all: repeat first
    [ apply Forall_nil
    | apply Forall_cons;
      [ cbn [cache_read_key]; intros ? E;
        first [ discriminate E
              | injection E as <-; bfacts; cbn [fst String.eqb];
                try match goal with
                    | |- context [if ?b then false else true] => destruct b
                    end;
                try match goal with
                    | |- context [if ?a <? 0 then _ else _] => destruct (Z.ltb_spec a 0)
                    end;
                first [ reflexivity
                      | rewrite Z.max_l by lia; reflexivity
                      | rewrite Z.max_r by lia; reflexivity ] ] |]
    | apply Forall_app; split;
      [ eapply Forall_impl; [|eassumption]; cbn beta; intros ? E0 ? E1; congruence |]
    | solve [eapply Forall_impl; [|eassumption]; cbn beta; intros ? E0 ? E1; congruence] ].
Qed.

(** X12. The key of every cache lookup of a table view is a function of the
    request: it is built from the viewer, the owner, database, version and
    table of the URL, the sort column and direction of the form, the row
    offset, which is 0 when the form gives none and is never negative, and
    the row limit, which is 10 for a visitor and the preference of the user
    otherwise. *)
Theorem table_view_key_of_request (r : Request) (w w' : World) (k : string) (ok : bool) :
  run (tableViewHandler r) w = Some w' ->
  In (Call (Op.GetCachedData k) ok) (new_events w w') ->
  k = dataCacheKey (viewer_of r) (url_owner r) "/" (url_dbname r) (url_version r)
        (url_table r) (form r "sort") (form r "dir")
        (if String.eqb (form r "offset") "" then 0
         else Z.max 0 (fst (Atoi (form r "offset"))))
        (if String.eqb (viewer_of r) "" then com.DefaultNumDisplayRows
         else PrefUserMaxRows (viewer_of r)).
Proof.
  intros R HIn.
  pose proof (always_run _ _ _ (tableView_key_exec r w) w' R) as K.
  rewrite Forall_forall in K. exact (K _ HIn k eq_refl).
Qed.

Lemma tableView_hit_exec (r : Request) (w : World) :
  always (tableViewHandler r) w (fun w' evs =>
    forall k rows,
      In (Call (Op.GetCachedData k) true) evs ->
      com.cache_lookup w k = Some rows ->
      same_stores w w'
      /\ Forall (cache_hit_call k) evs
      /\ match json_MarshalIndent rows with
         | (body, None) => exists pre, evs = pre ++ [Fprint body]
         | (_, Some _) => Forall (fun e => match e with Fprint _ => False | _ => True end) evs
         end).
Proof.
  unfold always, tableViewHandler. hexec_view.
  all: tdone; intros zk zrows HIn HL.
  all: try solve [exfalso; split_in HIn].
  all: split_in HIn.
  all: try match goal with
       | R : Forall (fun e => cache_read_key e = None) ?l, I : In _ ?l |- _ =>
           exfalso; rewrite Forall_forall in R; apply R in I; discriminate I
       end.
  all: injection HIn as <-.
  all: try match goal with
       | A : com.cache_lookup _ _ = None |- _ =>
           exfalso; assert (X : Some zrows = None) by (rewrite <- HL; exact A); discriminate X
       end.
  all: match goal with
       | A : com.cache_lookup _ _ = Some ?s |- _ =>
           assert (X : Some zrows = Some s) by (rewrite <- HL; exact A); injection X as ->
       end.
  all: match goal with
       | E : json_MarshalIndent _ = _ |- _ => rewrite E
       end.
  all: split; [stores | split; [all_events; reflexivity |]].
  all: first [ eexists [_; _]; reflexivity | eexists [_; _; _]; reflexivity | all_events ].
Qed.

(** X13. A table view that finds the rows of its key in the cache answers
    from the cache: it opens no blob and writes nothing to the cache (its
    only service calls are the access check and the lookup), it changes no
    store, and the body it sends is the JSON of the cached rows, or
    nothing when they cannot be encoded. *)
Theorem table_view_answers_from_cache (r : Request) (w w' : World)
    (k : string) (rows : SQLiteRecordSet) :
  run (tableViewHandler r) w = Some w' ->
  In (Call (Op.GetCachedData k) true) (new_events w w') ->
  com.cache_lookup w k = Some rows ->
  same_stores w w'
  /\ Forall (cache_hit_call k) (new_events w w')
  /\ match json_MarshalIndent rows with
     | (body, None) => exists pre, new_events w w' = pre ++ [Fprint body]
     | (_, Some _) =>
         Forall (fun e => match e with Fprint _ => False | _ => True end) (new_events w w')
     end.
Proof.
  intros R HIn HL.
  exact (always_run _ _ _ (tableView_hit_exec r w) w' R k rows HIn HL).
Qed.

(** *** The same table view, twice *)

(** What the read of a table view leaves in the cache: when it has written
    to the cache, it has written the rows it returns, under the key it was
    given. *)
Lemma tableView_read_cached (pageName bkt id dbName requestedTable sortCol sortDir : string)
    (rowOffset maxRows : Z) (key : string) (w : World) :
  match tableView_read pageName bkt id dbName requestedTable sortCol sortDir
          rowOffset maxRows key w with
  | (NoFuel, _) => False
  | (o, w') =>
      fails w' = fails w /\ pg_dbs w' = pg_dbs w /\ pg_versions w' = pg_versions w
      /\ exists evs,
           trace w' = trace w ++ evs
           /\ Forall (fun e => match e with
                               | Fprint _ | Call (Op.GetCachedData _) _ => False
                               | _ => True
                               end) evs
           /\ forall k, In (Call (Op.CacheData k) true) evs ->
                k = key
                /\ match o with
                   | Continue rows => com.cache_lookup w' key = Some rows
                   | _ => False
                   end
  end.
Proof.
  unfold tableView_read. hexec.
  all: repeat (split; [reflexivity|]); tdone; split; [all_events|].
  all: intros zk HIn; split_in HIn.
  all: injection HIn as <-; split; [reflexivity|].
  all: unfold com.cache_lookup; hsimpl; cbn [find fst snd option_map];
       rewrite String.eqb_refl; reflexivity.
Qed.

Ltac hread_cached :=
  lazymatch goal with
  | |- match ?x with _ => _ end =>
      let s := head_scrutinee x in
      lazymatch s with
      | @tableView_read _ ?a1 ?a2 ?a3 ?a4 ?a5 ?a6 ?a7 ?a8 ?a9 ?a10 ?w1 =>
          let S := fresh "S" in
          pose proof (tableView_read_cached a1 a2 a3 a4 a5 a6 a7 a8 a9 a10 w1) as S;
          destruct s as [[dataRows| |] [d v st m c fl rn tr]];
          [ destruct S as (? & ? & ? & read_evs & ? & ? & Cached)
          | destruct S as (? & ? & ? & read_evs & ? & ? & Cached)
          | contradiction ];
          hsimpl; subst d v fl tr; hunfold; hsimpl
      end
  end.

(** The second run reads the same metadata and the cache the first run
    has left. *)
Ltac same_reads :=
  repeat match goal with
  | E : com.canRead ?w0 ?a ?b ?c ?d ?e = _ |- context [com.canRead ?W ?a ?b ?c ?d ?e] =>
      progress change (com.canRead W a b c d e) with (com.canRead w0 a b c d e)
  | E : com.resolve ?w0 ?i ?v = _ |- context [com.resolve ?W ?i ?v] =>
      progress change (com.resolve W i v) with (com.resolve w0 i v)
  | E : com.cache_lookup ?w0 ?k = _ |- context [com.cache_lookup ?W ?k] =>
      progress change (com.cache_lookup W k) with (com.cache_lookup w0 k)
  end.

Ltac hstep_again :=
  same_reads;
  lazymatch goal with
  | |- match ?x with _ => _ end =>
      let s := head_scrutinee x in
      first [ match goal with E : s = _ |- _ => rewrite E end
            | destruct s eqn:?; try (exfalso; congruence) ];
      hunfold; hsimpl
  end.

Lemma tableView_twice_exec (r : Request) (w : World) :
  match tableViewHandler r w with
  | (NoFuel, _) => True
  | (_, w1) =>
      exists evs1,
        trace w1 = trace w ++ evs1
        /\ forall k,
             In (Call (Op.CacheData k) true) evs1 ->
             fails w (Op.GetCachedData k) = false ->
             match tableViewHandler r w1 with
             | (NoFuel, _) => False
             | (_, w2) =>
                 exists evs2,
                   trace w2 = trace w1 ++ evs2
                   /\ same_stores w1 w2
                   /\ In (Call (Op.GetCachedData k) true) evs2
                   /\ Forall (cache_hit_call k) evs2
                   /\ forall body, In (Fprint body) evs1 -> In (Fprint body) evs2
             end
  end.
Proof.
  unfold tableViewHandler at 1. hunfold; hsimpl; repeat first [hread_cached | hstep].
  all: tdone; intros zk HIn Hf; hsimpl.
  all: try solve [exfalso; split_in HIn].
  all: split_in HIn.
  all: match goal with
       | C : forall k, In _ ?l -> _, I : In _ ?l |- _ => destruct (C _ I) as (-> & C1)
       end; try contradiction.
  all: try congruence.
  all: unfold tableViewHandler; hunfold; hsimpl; repeat hstep_again.
  all: tdone; split; [stores | split; [find_in | split; [all_events; reflexivity|]]].
  all: intros body HB; split_in HB.
  all: try match goal with
       | R : Forall _ ?l, I : In _ ?l |- _ =>
           exfalso; rewrite Forall_forall in R; apply R in I; contradiction I
       end.
  all: injection HB as <-; find_in.
Qed.

(** X14. When a table view has written a page of rows to the cache and the
    cache can be read, the same request served again is answered from the
    cache: the second run finds the rows under the key the first run has
    written, opens no blob, changes no store, and sends the body the first
    run has sent. *)
Theorem table_view_repeated_is_cached (r : Request) (w w1 : World) (k : string) :
  run (tableViewHandler r) w = Some w1 ->
  In (Call (Op.CacheData k) true) (new_events w w1) ->
  fails w (Op.GetCachedData k) = false ->
  exists w2,
    run (tableViewHandler r) w1 = Some w2
    /\ same_stores w1 w2
    /\ In (Call (Op.GetCachedData k) true) (new_events w1 w2)
    /\ Forall (cache_hit_call k) (new_events w1 w2)
    /\ forall body, In (Fprint body) (new_events w w1) -> In (Fprint body) (new_events w1 w2).
Proof.
  intros R HIn Hf. pose proof (tableView_twice_exec r w) as T.
  unfold run in R. destruct (tableViewHandler r w) as [[[]| |] w0]; try discriminate R;
    injection R as ->; destruct T as (evs1 & E1 & T);
    rewrite (new_events_app _ _ _ E1) in *; specialize (T k HIn Hf);
    unfold run; destruct (tableViewHandler r w1) as [[[]| |] w2]; try contradiction;
    destruct T as (evs2 & E2 & T); exists w2; rewrite (new_events_app _ _ _ E2);
    (split; [reflexivity | exact T]).
Qed.

End Proofs.

(** ** The handlers of pages, accounts, settings and downloads *)

Section SiteProofs.
Context `{Externals} `{Site.Backend}.

Ltac sunfold :=
  cbv beta iota zeta delta
    [Site.sbind Site.sret Site.swhen Site.leave Site.panic Site.act Site.lift Site.query
     Site.mutate Site.log_Printf Site.errorPage Site.http_Redirect Site.fmt_Fprint
     Site.http_Error Site.session_Add Site.session_Remove Site.render Site.Header_Set
     Site.as_string Site.as_bool Site.index Site.MinioHandle Site.io_Copy
     bind ret emit session_user GetOD GetODV GetODTV
     com.MinioBucketID com.OpenMinioObject com.RandomString com.call
     com.NotFound com.Forbidden com.UpstreamUnavailable negb is_nil] in *.

Ltac ssimpl :=
  cbn [Site.world Site.store Site.acts fst snd map List.app nth_error Nat.eqb List.length
       set_trace set_rnd pg_dbs pg_versions pg_stars minio memcache fails rnd trace] in *.

Ltac sstep :=
  lazymatch goal with
  | |- match ?x with _ => _ end =>
      let s := head_scrutinee x in
      destruct s eqn:?; try (exfalso; congruence); sunfold; ssimpl
  end.

Ltac sexec := sunfold; ssimpl; repeat sstep.

(** *** The main handler *)

Lemma strings_Split_length (s : string) (sep : ascii) :
  (1 <= List.length (Site.strings_Split s sep))%nat
  /\ (List.length (Site.strings_Split s sep) = 1%nat <-> absent sep s).
Proof.
  induction s as [|c s (IH1 & IH2)]; cbn [Site.strings_Split absent].
  - split; [cbn; lia | split; [intros _; exact I | reflexivity]].
  - destruct (Site.strings_Split s sep) as [|p ps] eqn:E; [cbn in IH1; lia|].
    destruct (Ascii.eqb_spec c sep) as [->|N].
    + split; [cbn; lia|]. cbn [List.length]. split; [lia | intros (N & _); contradiction].
    + split; [cbn; lia|]. cbn [List.length] in *. split.
      * intros L. split; [exact N | apply IH2; exact L].
      * intros (_ & A). apply IH2. exact A.
Qed.

Lemma mainHandler_index_exec (v : Site.Visit) (w : World) (st : Site.Store) :
  match Site.serve Site.mainHandler v w st with
  | (Site.Panic, _) => List.length (Site.strings_Split (Site.path v) "/") = 1%nat
  | (Site.Starved, _) => False
  | _ => (2 <= List.length (Site.strings_Split (Site.path v) "/"))%nat
  end.
Proof.
  unfold Site.serve, Site.mainHandler.
  destruct (strings_Split_length (Site.path v) "/") as (L & _).
  destruct (Site.strings_Split (Site.path v) "/") as [|a [|b [|c l]]];
    cbn [List.length Nat.eqb nth_error] in *; try lia.
  - sexec. reflexivity.
  - sexec; lia.
  - sexec; lia.
Qed.

(** X15. The main handler indexes the components of the URL path without
    checking how many there are: it panics, with an index out of range,
    exactly when the path contains no slash. For every path with a slash,
    as the paths of requests are, the indexes are in range. *)
Theorem mainHandler_panics_without_slash (v : Site.Visit) (w : World) (st : Site.Store) :
  Site.panics Site.mainHandler v w st = true <-> absent "/" (Site.path v).
Proof.
  pose proof (mainHandler_index_exec v w st) as E.
  destruct (strings_Split_length (Site.path v) "/") as (_ & A).
  unfold Site.panics. destruct (Site.serve Site.mainHandler v w st) as [[[]| | |] s];
    cbn [fst]; try contradiction.
  - split; [discriminate | intros P; apply A in P; lia].
  - split; [discriminate | intros P; apply A in P; lia].
  - split; [intros _; apply A; exact E | reflexivity].
Qed.

Lemma strings_Split_cons (a b : string) (sep : ascii) :
  absent sep a ->
  Site.strings_Split (a ++ String sep b)%string sep = a :: Site.strings_Split b sep.
Proof.
  induction a as [|c a IH]; cbn [absent String.append Site.strings_Split].
  - intros _. rewrite Ascii.eqb_refl.
    destruct (Site.strings_Split b sep) as [|p ps] eqn:E; [|reflexivity].
    destruct (strings_Split_length b sep) as (L & _). rewrite E in L. cbn in L. lia.
  - intros (N & A). rewrite (IH A). destruct (Ascii.eqb_spec c sep) as [E|_]; [contradiction|].
    reflexivity.
Qed.

Lemma strings_Split_absent (a : string) (sep : ascii) :
  absent sep a -> Site.strings_Split a sep = [a].
Proof.
  induction a as [|c a IH]; cbn [absent Site.strings_Split]; [reflexivity|].
  intros (N & A). rewrite (IH A). destruct (Ascii.eqb_spec c sep) as [E|_]; [contradiction|].
  reflexivity.
Qed.

(** X16. For a path of one component, /name, the main handler renders the
    user page of that name without validating the name (and the front page
    when the name is empty); for the same path with a slash at its end,
    /name/, it renders the user page only when the name passes
    [com.ValidateUserDB], and answers with status 400 otherwise. *)
Theorem mainHandler_user_page (v : Site.Visit) (w : World) (st : Site.Store) (name : string) :
  absent "/" name ->
  (Site.path v = ("/" ++ name)%string ->
   Site.actions Site.mainHandler v w st
   = [Site.Render (if String.eqb name "" then Site.frontPage else Site.userPage name)])
  /\ (Site.path v = ("/" ++ name ++ "/")%string ->
      Site.actions Site.mainHandler v w st
      = [match Site.ValidateUserDB name "" with
         | None => Site.Render (Site.userPage name)
         | Some _ => Site.Did (ErrorPage StatusBadRequest "Invalid user or database name")
         end]).
Proof.
  intros A. split; intros P; unfold Site.actions, Site.serve, Site.mainHandler; rewrite P.
  - pose proof (strings_Split_cons "" name "/" I) as E. cbn [String.append] in E |- *.
    rewrite E, (strings_Split_absent name "/" A).
    sunfold; ssimpl. destruct (String.eqb name ""); reflexivity.
  - pose proof (strings_Split_cons "" (name ++ "/")%string "/" I) as E.
    cbn [String.append] in E |- *. rewrite E, (strings_Split_cons name "" "/" A).
    cbn [Site.strings_Split]. sunfold; ssimpl.
    destruct (Site.ValidateUserDB name ""); reflexivity.
Qed.

Lemma mainHandler_page_exec (v : Site.Visit) (w : World) (st : Site.Store) :
  match Site.serve Site.mainHandler v w st with
  | (_, s) =>
      forall u d ver t sc sd off,
        In (Site.Render (Site.databasePage u d ver t sc sd off)) (Site.acts s) ->
        nth_error (Site.strings_Split (Site.path v) "/") 1 = Some u
        /\ nth_error (Site.strings_Split (Site.path v) "/") 2 = Some d
        /\ d <> "" /\ Site.ValidateUserDB u d = None
        /\ Site.form_version v = (ver, None)
        /\ (t = "" \/ (t = form (Site.req v) "table" /\ Site.ValidatePGTable t = None))
        /\ sc = form (Site.req v) "sort" /\ (sc = "" \/ ValidateFieldName sc = None)
        /\ sd = form (Site.req v) "dir" /\ valid_sort_dir sd = true
        /\ 0 <= off
  end.
Proof.
  unfold Site.serve, Site.mainHandler, valid_sort_dir.
  destruct (Site.strings_Split (Site.path v) "/") as [|a [|b [|c l]]];
    cbn [List.length Nat.eqb nth_error] in *.
  all: sexec.
  all: intros zu zd zver zt zsc zsd zoff HIn; split_in HIn.
  all: injection HIn as <- <- <- <- <- <- <-.
  all: repeat match goal with
       | |- _ /\ _ => split
       end.
  all: try first
         [ reflexivity | assumption | left; reflexivity | right; reflexivity
         | right; assumption | right; split; [reflexivity | assumption]
         | left; apply String.eqb_eq; assumption
         | apply String.eqb_neq; assumption
         | lia
         | apply Z.ltb_ge; assumption
         | match goal with
           | |- context [if ?z <? 0 then _ else _] => destruct (Z.ltb_spec z 0); lia
           end
         | repeat match goal with
                  | E : String.eqb _ _ = _ |- _ => rewrite E
                  end;
           try reflexivity;
           destruct (String.eqb (form (Site.req v) "dir") "ASC");
           destruct (String.eqb (form (Site.req v) "dir") "DESC");
           cbn [andb orb] in *; congruence ].
Qed.

(** X17. The main handler renders a database page only with arguments that
    have passed its checks: owner and database are the first two components
    of the path and pass [com.ValidateUserDB], the version is the one of
    the form, the table is empty or the one of the form and a valid table
    name (an invalid one is dropped, not refused), the sort column is empty
    or a valid field name, the sort direction is empty, ASC or DESC, and
    the row offset is not negative. *)
Theorem mainHandler_database_page_checked (v : Site.Visit) (w : World) (st : Site.Store)
    (u d : string) (ver : Z) (t sc sd : string) (off : Z) :
  In (Site.Render (Site.databasePage u d ver t sc sd off))
     (Site.actions Site.mainHandler v w st) ->
  nth_error (Site.strings_Split (Site.path v) "/") 1 = Some u
  /\ nth_error (Site.strings_Split (Site.path v) "/") 2 = Some d
  /\ d <> "" /\ Site.ValidateUserDB u d = None
  /\ Site.form_version v = (ver, None)
  /\ (t = "" \/ (t = form (Site.req v) "table" /\ Site.ValidatePGTable t = None))
  /\ sc = form (Site.req v) "sort" /\ (sc = "" \/ ValidateFieldName sc = None)
  /\ sd = form (Site.req v) "dir" /\ valid_sort_dir sd = true
  /\ 0 <= off.
Proof.
  intros HIn. pose proof (mainHandler_page_exec v w st) as E.
  unfold Site.actions in HIn. destruct (Site.serve Site.mainHandler v w st) as [o s].
  exact (E u d ver t sc sd off HIn).
Qed.

(** *** Accounts *)

Lemma createUser_exec (v : Site.Visit) (w : World) (st : Site.Store) :
  match Site.serve Site.createUserHandler v w st with
  | (_, s) =>
      (forall a u p e ok,
         In (Site.Changed (Site.Change.AddUser a u p e) ok) (Site.acts s) ->
         req_session (Site.req v) <> NoSession
         /\ Site.cattr v "registrationinprogress" = Some (Site.ABool true)
         /\ Site.cattr v "auth0id" = Some (Site.AString a)
         /\ Site.cattr v "email" = Some (Site.AString e)
         /\ parse_form_err (Site.req v) = None
         /\ u = form (Site.req v) "username" /\ u <> ""
         /\ Site.ValidateUser u = None
         /\ Site.ReservedUsernamesCheck u = None
         /\ Site.CheckUserExists st u = (false, None)
         /\ hd_error (rnd w) = Some p)
      /\ (forall attrs,
            In (Site.SessionAdd attrs) (Site.acts s) ->
            exists a p e,
              Site.acts s =
              [Site.Changed (Site.Change.AddUser a (form (Site.req v) "username") p e) true;
               Site.Did SessionRemove;
               Site.SessionAdd [("UserName", Site.AString (form (Site.req v) "username"))];
               Site.Did (RedirectTo ("/" ++ form (Site.req v) "username")
                           StatusTemporaryRedirect)]
              /\ attrs = [("UserName", Site.AString (form (Site.req v) "username"))])
  end.
Proof.
  unfold Site.serve, Site.createUserHandler. sexec.
  all: split.
  all: try (intros za zu zp ze zok HIn; split_in HIn).
  all: try (intros zattrs HIn; split_in HIn).
  all: try (injection HIn as <- <- <- <- <-; bfacts;
            repeat split; first [reflexivity | assumption | discriminate]).
  all: injection HIn as <-; do 3 eexists; split; reflexivity.
Qed.

(** X18. Registration creates an account only for a request with a valid
    registration session, carrying the Auth0 id and email of that session,
    and only for a name that is not empty, passes [com.ValidateUser] and
    [com.ReservedUsernamesCheck], and is not taken. *)
Theorem registration_adds_only_checked_names (v : Site.Visit) (w : World) (st : Site.Store)
    (a u p e : string) (ok : bool) :
  In (Site.Changed (Site.Change.AddUser a u p e) ok)
     (Site.actions Site.createUserHandler v w st) ->
  req_session (Site.req v) <> NoSession
  /\ Site.cattr v "registrationinprogress" = Some (Site.ABool true)
  /\ Site.cattr v "auth0id" = Some (Site.AString a)
  /\ Site.cattr v "email" = Some (Site.AString e)
  /\ parse_form_err (Site.req v) = None
  /\ u = form (Site.req v) "username" /\ u <> ""
  /\ Site.ValidateUser u = None
  /\ Site.ReservedUsernamesCheck u = None
  /\ Site.CheckUserExists st u = (false, None)
  /\ hd_error (rnd w) = Some p.
Proof.
  intros HIn. pose proof (createUser_exec v w st) as E.
  unfold Site.actions in HIn. destruct (Site.serve Site.createUserHandler v w st) as [o s].
  exact (proj1 E a u p e ok HIn).
Qed.

(** X19. Registration adds a login session only in a run that has created
    the account: the actions of such a run are the successful call of
    [com.AddUser] for the chosen name, the removal of the registration
    session, the new session for that name, and the redirect to the page
    of the user. *)
Theorem registration_session_after_account (v : Site.Visit) (w : World) (st : Site.Store)
    (attrs : list (string * Site.Attr)) :
  In (Site.SessionAdd attrs) (Site.actions Site.createUserHandler v w st) ->
  exists a p e,
    Site.actions Site.createUserHandler v w st =
    [Site.Changed (Site.Change.AddUser a (form (Site.req v) "username") p e) true;
     Site.Did SessionRemove;
     Site.SessionAdd [("UserName", Site.AString (form (Site.req v) "username"))];
     Site.Did (RedirectTo ("/" ++ form (Site.req v) "username") StatusTemporaryRedirect)]
    /\ attrs = [("UserName", Site.AString (form (Site.req v) "username"))].
Proof.
  intros HIn. pose proof (createUser_exec v w st) as E.
  unfold Site.actions in *. destruct (Site.serve Site.createUserHandler v w st) as [o s].
  exact (proj2 E attrs HIn).
Qed.

Lemma checkName_exec (v : Site.Visit) (w : World) (st : Site.Store) :
  match Site.serve Site.checkNameHandler v w st with
  | (_, s) =>
      (Site.acts s = [Site.Did (Fprint "y")]
       /\ Site.ValidateUser (form (Site.req v) "name") = None
       /\ Site.ReservedUsernamesCheck (form (Site.req v) "name") = None
       /\ Site.CheckUserExists st (form (Site.req v) "name") = (false, None))
      \/ (Site.acts s = [Site.Did (Fprint "n")]
          /\ ~ (Site.ValidateUser (form (Site.req v) "name") = None
                /\ Site.ReservedUsernamesCheck (form (Site.req v) "name") = None
                /\ Site.CheckUserExists st (form (Site.req v) "name") = (false, None)))
  end.
Proof.
  unfold Site.serve, Site.checkNameHandler. sexec.
  all: first
         [ left; repeat split; first [reflexivity | assumption]
         | right; split; [reflexivity | intros (A & B & C); congruence] ].
Qed.

Lemma createUser_accepts (v : Site.Visit) (w : World) (st : Site.Store) (a e p : string)
    (tape : list string) :
  req_session (Site.req v) <> NoSession ->
  Site.cattr v "registrationinprogress" = Some (Site.ABool true) ->
  Site.cattr v "auth0id" = Some (Site.AString a) ->
  Site.cattr v "email" = Some (Site.AString e) ->
  parse_form_err (Site.req v) = None ->
  form (Site.req v) "username" <> "" ->
  Site.ValidateUser (form (Site.req v) "username") = None ->
  Site.ReservedUsernamesCheck (form (Site.req v) "username") = None ->
  Site.CheckUserExists st (form (Site.req v) "username") = (false, None) ->
  rnd w = p :: tape ->
  match Site.serve Site.createUserHandler v w st with
  | (_, s) =>
      exists ok,
        In (Site.Changed (Site.Change.AddUser a (form (Site.req v) "username") p e) ok)
           (Site.acts s)
  end.
Proof.
  intros Hs Hr Ha He Hp Hn Hv Hres Hc Ht.
  apply String.eqb_neq in Hn.
  unfold Site.serve, Site.createUserHandler. sexec.
  all: injection Ha as <-; injection He as <-; injection Ht as <- <-.
  all: eexists; left; reflexivity.
Qed.

(** X20. The name check of the registration page agrees with registration:
    for a name it answers with n, registration in the same store does not
    create an account; for a name it answers with y, registration with a
    valid registration session creates the account, when the name is not
    empty and a random password can be drawn. *)
Theorem name_check_agrees_with_registration (v1 v2 : Site.Visit) (w : World)
    (st : Site.Store) :
  form (Site.req v2) "username" = form (Site.req v1) "name" ->
  (In (Site.Did (Fprint "n")) (Site.actions Site.checkNameHandler v1 w st) ->
   forall a u p e ok,
     ~ In (Site.Changed (Site.Change.AddUser a u p e) ok)
          (Site.actions Site.createUserHandler v2 w st))
  /\ (In (Site.Did (Fprint "y")) (Site.actions Site.checkNameHandler v1 w st) ->
      forall a e p tape,
        form (Site.req v1) "name" <> "" ->
        req_session (Site.req v2) <> NoSession ->
        Site.cattr v2 "registrationinprogress" = Some (Site.ABool true) ->
        Site.cattr v2 "auth0id" = Some (Site.AString a) ->
        Site.cattr v2 "email" = Some (Site.AString e) ->
        parse_form_err (Site.req v2) = None ->
        rnd w = p :: tape ->
        exists ok,
          In (Site.Changed (Site.Change.AddUser a (form (Site.req v1) "name") p e) ok)
             (Site.actions Site.createUserHandler v2 w st)).
Proof.
  intros Hn. pose proof (checkName_exec v1 w st) as C.
  unfold Site.actions at 1 3. destruct (Site.serve Site.checkNameHandler v1 w st) as [o s].
  cbn [snd]. split.
  - intros HIn a u p e ok HA.
    destruct C as [(C & _)|(_ & C)]; [rewrite C in HIn; split_in HIn|].
    pose proof (createUser_exec v2 w st) as E. unfold Site.actions in HA.
    destruct (Site.serve Site.createUserHandler v2 w st) as [o2 s2].
    destruct (proj1 E a u p e ok HA) as (_ & _ & _ & _ & _ & -> & _ & V & R & X & _).
    apply C. rewrite <- Hn. repeat split; assumption.
  - intros HIn a e p tape Hne Hs Hr Ha He Hp Ht.
    destruct C as [(_ & V & R & X)|(C & _)]; [|rewrite C in HIn; split_in HIn].
    rewrite <- Hn in *.
    pose proof (createUser_accepts v2 w st a e p tape Hs Hr Ha He Hp Hne V R X Ht) as E.
    unfold Site.actions. destruct (Site.serve Site.createUserHandler v2 w st) as [o2 s2].
    exact E.
Qed.

Lemma auth0Callback_exec (v : Site.Visit) (w : World) (st : Site.Store) :
  match Site.serve Site.auth0CallbackHandler v w st with
  | (_, s) =>
      (forall reg,
         In (Site.SessionAdd reg) (Site.acts s) ->
         In ("registrationinprogress", Site.ABool true) reg ->
         exists pre,
           Site.acts s =
         pre ++ [Site.SessionAdd reg;
                 Site.Did (RedirectTo "/selectusername" StatusTemporaryRedirect);
                 Site.SessionAdd [("UserName", Site.AString "")];
                 Site.Did (RedirectTo "/" StatusTemporaryRedirect)])
      /\ (forall attrs,
            In (Site.SessionAdd attrs) (Site.acts s) ->
            exists token userInfo raw profile auth0ID name,
              Site.oauth_Exchange (Site.query_code v) = (token, None)
              /\ Site.conn_Get token ("https://" ++ Site.Auth0Domain ++ "/userinfo")
                 = (userInfo, None)
              /\ Site.ioutil_ReadAll userInfo = (raw, None)
              /\ Site.json_Unmarshal raw = (profile, None)
              /\ profile "user_id" = Some (Site.AString auth0ID) /\ auth0ID <> ""
              /\ profile "email_verified" <> Some (Site.ABool false)
              /\ Site.UserNameFromAuth0ID st auth0ID = (name, None)
              /\ (attrs = [("UserName", Site.AString name)] \/ name = ""))
  end.
Proof.
  unfold Site.serve, Site.auth0CallbackHandler. sexec.
  all: (split; [intros zreg HIn HR | intros zattrs HIn]); split_in HIn.
  all: try (injection HIn as <-); bfacts; subst.
  all: try solve [exfalso; split_in HR].
  all: try solve [exfalso; congruence].
  all: try solve [eexists []; reflexivity | eexists [_]; reflexivity].
  all: do 6 eexists; repeat split.
  all: try first [eassumption | reflexivity | congruence
                 | left; reflexivity | right; reflexivity].
Qed.

(** X21. For a profile without an account, the Auth0 callback does not
    return after it has added the registration session and redirected to
    the page that selects a user name: it goes on to add a login session
    whose user name is the empty string, and to redirect to the front
    page. *)
Theorem auth0_callback_falls_through (v : Site.Visit) (w : World) (st : Site.Store)
    (reg : list (string * Site.Attr)) :
  In (Site.SessionAdd reg) (Site.actions Site.auth0CallbackHandler v w st) ->
  In ("registrationinprogress", Site.ABool true) reg ->
  exists pre,
    Site.actions Site.auth0CallbackHandler v w st =
    pre ++ [Site.SessionAdd reg;
            Site.Did (RedirectTo "/selectusername" StatusTemporaryRedirect);
            Site.SessionAdd [("UserName", Site.AString "")];
            Site.Did (RedirectTo "/" StatusTemporaryRedirect)].
Proof.
  intros HIn HR. pose proof (auth0Callback_exec v w st) as E.
  unfold Site.actions in *. destruct (Site.serve Site.auth0CallbackHandler v w st) as [o s].
  exact (proj1 E reg HIn HR).
Qed.

(** X22. The Auth0 callback adds a session only when the token exchange,
    the request of the profile, its reading and its decoding have all
    succeeded, the profile has a user id that is not empty, its email is
    not marked as unverified, and the lookup of the account has succeeded;
    a login session carries the user name of that account. *)
Theorem auth0_callback_sessions (v : Site.Visit) (w : World) (st : Site.Store)
    (attrs : list (string * Site.Attr)) :
  In (Site.SessionAdd attrs) (Site.actions Site.auth0CallbackHandler v w st) ->
  exists token userInfo raw profile auth0ID name,
    Site.oauth_Exchange (Site.query_code v) = (token, None)
    /\ Site.conn_Get token ("https://" ++ Site.Auth0Domain ++ "/userinfo") = (userInfo, None)
    /\ Site.ioutil_ReadAll userInfo = (raw, None)
    /\ Site.json_Unmarshal raw = (profile, None)
    /\ profile "user_id" = Some (Site.AString auth0ID) /\ auth0ID <> ""
    /\ profile "email_verified" <> Some (Site.ABool false)
    /\ Site.UserNameFromAuth0ID st auth0ID = (name, None)
    /\ (attrs = [("UserName", Site.AString name)] \/ name = "").
Proof.
  intros HIn. pose proof (auth0Callback_exec v w st) as E.
  unfold Site.actions in *. destruct (Site.serve Site.auth0CallbackHandler v w st) as [o s].
  exact (proj2 E attrs HIn).
Qed.

(** *** Settings *)

Lemma saveSettings_exec (v : Site.Visit) (w : World) (st : Site.Store) :
  match Site.serve Site.saveSettingsHandler v w st with
  | (_, s) =>
      (forall o f n d r t p ok,
         In (Site.Changed (Site.Change.SaveDBSettings o f n d r t p) ok) (Site.acts s) ->
         exists user u0 f0 ver,
           req_session (Site.req v) = SessionOf user
           /\ Site.form_ufd v = (u0, f0, n, None)
           /\ o = Site.strings_ToLower u0 /\ o <> ""
           /\ f = (if String.eqb f0 "" then "/" else f0)
           /\ Site.form_version v = (ver, None)
           /\ form_public (Site.req v) = (p, None)
           /\ (form (Site.req v) "newname" = n
               \/ ValidateDB (form (Site.req v) "newname") = None)
           /\ len (form (Site.req v) "descrip") <= 80
           /\ t = form (Site.req v) "defaulttable"
           /\ Site.ValidatePGTable t = None
           /\ com.canRead w user o "/" n ver = true
           /\ In (Site.Did (Call (Op.MinioBucketID o n ver user) true)) (Site.acts s))
      /\ (forall o f n new ok,
            In (Site.Changed (Site.Change.RenameDatabase o f n new) ok) (Site.acts s) ->
            new = form (Site.req v) "newname" /\ new <> "" /\ new <> n
            /\ ValidateDB new = None
            /\ exists d r t p,
                 In (Site.Changed (Site.Change.SaveDBSettings o f n d r t p) true)
                    (Site.acts s))
      /\ (forall target status,
            In (Site.Did (RedirectTo target status)) (Site.acts s) ->
            exists o f n d r t p,
              In (Site.Changed (Site.Change.SaveDBSettings o f n d r t p) true) (Site.acts s)
              /\ target = ("/" ++ o ++ f ++ form (Site.req v) "newname")%string)
      /\ Forall (fun a => match a with
                          | Site.Did (Call (Op.MinioBucketID _ _ _ _) _)
                          | Site.Did (Call (Op.OpenMinioObject _ _) _) => True
                          | Site.Did (Call _ _) => False
                          | _ => True
                          end) (Site.acts s)
  end.
Proof.
  unfold Site.serve, Site.saveSettingsHandler. sexec.
  all: split; [intros zo zf zn zd zr zt zp zok HIn; split_in HIn
              | split; [intros zo zf zn znew zok HIn; split_in HIn
                       | split; [intros ztarget zstatus HIn; split_in HIn
                                | repeat (constructor; try exact I)]]].
  all: try solve [exfalso; congruence].
  all: try solve [exfalso;
                  match goal with
                  | E : _ && _ = true |- _ =>
                      repeat match type of E with
                             | context [if ?b then _ else _] => destruct b
                             end;
                      cbn [andb] in E; discriminate E
                  end].
  all: try (injection HIn as <- <- <- <- <- <- <- <-; do 4 eexists).
  all: try (injection HIn as <- <- <- <- <-).
  all: try (injection HIn as <- <-; do 7 eexists).
  all: repeat match goal with
              | |- _ /\ _ => split
              end.
  all: try first
         [ reflexivity | eassumption
         | match goal with
           | E : com.canRead _ ?a ?b ?c ?d ?e = true |- com.canRead _ ?a ?b ?c ?d ?e = true =>
               exact E
           end
         | left; apply String.eqb_eq; assumption
         | right; assumption | right; reflexivity
         | apply String.eqb_neq; assumption
         | apply Z.ltb_ge; assumption
         | solve [find_in]
         | do 4 eexists; solve [find_in]
         | match goal with
           | E : _ || (?x =? "")%string = false |- ?x <> "" =>
               apply orb_false_elim in E; destruct E as (_ & E);
               apply String.eqb_neq; exact E
           end
         | match goal with
           | E : _ && _ = true |- ?x <> ?y =>
               destruct (String.eqb_spec x y) as [Exy|Exy]; [|exact Exy];
               rewrite ?Exy in *; rewrite ?String.eqb_refl in *;
               cbn [andb] in E; try discriminate E;
               destruct (String.eqb _ _); discriminate E
           end ].
Qed.

(** X23. The settings of a database are saved only for a logged in user
    whose form has passed the checks (owner, version and public flag
    given, new name unchanged or valid, description of at most 80
    characters, valid default table) and who may read the database: the
    access check of [com.MinioBucketID] for that user has succeeded. The
    handler does not require the user to own the database. *)
Theorem settings_saved_after_checks (v : Site.Visit) (w : World) (st : Site.Store)
    (o f n d r t : string) (p ok : bool) :
  In (Site.Changed (Site.Change.SaveDBSettings o f n d r t p) ok)
     (Site.actions Site.saveSettingsHandler v w st) ->
  exists user u0 f0 ver,
    req_session (Site.req v) = SessionOf user
    /\ Site.form_ufd v = (u0, f0, n, None)
    /\ o = Site.strings_ToLower u0 /\ o <> ""
    /\ f = (if String.eqb f0 "" then "/" else f0)
    /\ Site.form_version v = (ver, None)
    /\ form_public (Site.req v) = (p, None)
    /\ (form (Site.req v) "newname" = n \/ ValidateDB (form (Site.req v) "newname") = None)
    /\ len (form (Site.req v) "descrip") <= 80
    /\ t = form (Site.req v) "defaulttable"
    /\ Site.ValidatePGTable t = None
    /\ com.canRead w user o "/" n ver = true
    /\ In (Site.Did (Call (Op.MinioBucketID o n ver user) true))
         (Site.actions Site.saveSettingsHandler v w st).
Proof.
  intros HIn. pose proof (saveSettings_exec v w st) as E.
  unfold Site.actions in *. destruct (Site.serve Site.saveSettingsHandler v w st) as [x s].
  exact (proj1 E o f n d r t p ok HIn).
Qed.

(** X24. A database is renamed only after its settings have been saved, and
    only to a new name that is not empty, differs from the current name
    and passes [com.ValidateDB]. The redirect that ends a successful run
    goes to owner, folder and the new name of the form, also when no
    rename was made. The handler calls no service but the access check
    and the opening of the blob: it does not invalidate the cache itself. *)
Theorem settings_rename_and_redirect (v : Site.Visit) (w : World) (st : Site.Store) :
  (forall o f n new ok,
     In (Site.Changed (Site.Change.RenameDatabase o f n new) ok)
        (Site.actions Site.saveSettingsHandler v w st) ->
     new = form (Site.req v) "newname" /\ new <> "" /\ new <> n
     /\ ValidateDB new = None
     /\ exists d r t p,
          In (Site.Changed (Site.Change.SaveDBSettings o f n d r t p) true)
             (Site.actions Site.saveSettingsHandler v w st))
  /\ (forall target status,
        In (Site.Did (RedirectTo target status))
           (Site.actions Site.saveSettingsHandler v w st) ->
        exists o f n d r t p,
          In (Site.Changed (Site.Change.SaveDBSettings o f n d r t p) true)
             (Site.actions Site.saveSettingsHandler v w st)
          /\ target = ("/" ++ o ++ f ++ form (Site.req v) "newname")%string)
  /\ Forall (fun a => match a with
                      | Site.Did (Call (Op.MinioBucketID _ _ _ _) _)
                      | Site.Did (Call (Op.OpenMinioObject _ _) _) => True
                      | Site.Did (Call _ _) => False
                      | _ => True
                      end) (Site.actions Site.saveSettingsHandler v w st).
Proof.
  pose proof (saveSettings_exec v w st) as E.
  unfold Site.actions. destruct (Site.serve Site.saveSettingsHandler v w st) as [x s].
  exact (proj2 E).
Qed.

(** Facts about the services of the first world, carried to the worlds of
    later steps, which differ in their traces only. *)
Ltac same_services :=
  try solve
    [ exfalso;
      match goal with
      | E : com.canRead ?w1 ?a ?b ?c ?d ?e = false, E' : com.canRead ?w2 ?a ?b ?c ?d ?e = true
        |- _ => assert (X : com.canRead w2 a b c d e = false) by exact E;
                rewrite E' in X; discriminate X
      | E : com.resolve ?w1 ?i ?v = None, E' : com.resolve ?w2 ?i ?v = Some _
        |- _ => assert (X : com.resolve w2 i v = None) by exact E;
                rewrite E' in X; discriminate X
      | E : com.find_object ?w1 ?b ?i = None, E' : com.find_object ?w2 ?b ?i = Some _
        |- _ => assert (X : com.find_object w2 b i = None) by exact E;
                rewrite E' in X; discriminate X
      end ].

Lemma saveSettings_accepts (v : Site.Visit) (w : World) (st : Site.Store)
    (user u0 f0 n : string) (ver : Z) (p : bool) (b : BlobRef) (m : MinioObject) :
  req_session (Site.req v) = SessionOf user ->
  Site.form_ufd v = (u0, f0, n, None) ->
  Site.strings_ToLower u0 <> "" ->
  Site.form_version v = (ver, None) ->
  form_public (Site.req v) = (p, None) ->
  form (Site.req v) "newname" = n ->
  len (form (Site.req v) "descrip") <= 80 ->
  form (Site.req v) "defaulttable" = "" ->
  Site.ValidatePGTable "" = None ->
  fails w (Op.MinioBucketID (Site.strings_ToLower u0) n ver user) = false ->
  com.canRead w user (Site.strings_ToLower u0) "/" n ver = true ->
  com.resolve w (mkIdentity (Site.strings_ToLower u0) "/" n) ver = Some b ->
  fails w (Op.OpenMinioObject (bucket b) (objid b)) = false ->
  com.find_object w (bucket b) (objid b) = Some m ->
  snd (Site.Tables (Some (o_data m))
         (Site.strings_ToLower u0 ++ (if String.eqb f0 "" then "/" else f0) ++ n)) = None ->
  match Site.serve Site.saveSettingsHandler v w st with
  | (_, s) =>
      exists d r ok,
        In (Site.Changed
              (Site.Change.SaveDBSettings (Site.strings_ToLower u0)
                 (if String.eqb f0 "" then "/" else f0) n d r "" p) ok) (Site.acts s)
  end.
Proof.
  intros Hs Hu Ho Hv Hp Hn Hd Ht Hvt Hf1 Hc Hr Hf2 Hm Htb.
  assert (Hl : (len (Site.strings_ToLower u0) =? 0)
               || String.eqb (Site.strings_ToLower u0) "" = false).
  { apply orb_false_intro; [|apply String.eqb_neq; exact Ho].
    apply Z.eqb_neq. unfold len. destruct (Site.strings_ToLower u0); [contradiction|].
    cbn [String.length]. lia. }
  apply Z.ltb_ge in Hd. apply String.eqb_eq in Hn. rewrite <- Ht in Hvt.
  apply String.eqb_eq in Ht.
  unfold Site.serve, Site.saveSettingsHandler. sexec.
  all: injection Hs as ->; injection Hu as -> -> ->; injection Hv as ->; injection Hp as ->.
  all: try solve [exfalso; congruence].
  all: same_services.
  all: try match goal with
       | E : com.resolve (set_trace _ _) _ _ = Some ?b1 |- _ =>
           assert (X : Some b = Some b1) by (rewrite <- Hr; exact E); injection X as <-
       end.
  all: try solve [exfalso; congruence].
  all: same_services.
  all: try match goal with
       | E : com.find_object (set_trace _ _) _ _ = Some ?m1 |- _ =>
           assert (X : Some m = Some m1) by (rewrite <- Hm; exact E); injection X as <-
       end.
  all: try match goal with
       | E : Site.Tables _ _ = _ |- _ => rewrite E in Htb; cbn [snd] in Htb
       end.
  all: try solve [exfalso; congruence].
  all: match goal with
       | E : String.eqb (form _ "defaulttable") "" = true |- _ =>
           apply String.eqb_eq in E; rewrite E
       end.
  all: do 3 eexists; find_in.
Qed.

(** X25. Any logged in user can save the settings of a database they can
    read, and so of every public database: for a form that passes the
    checks and names no default table and no new name, the handler calls
    [com.SaveDBSettings] for the owner named in the form, whoever the
    logged in user is. *)
Theorem settings_saved_for_any_reader (v : Site.Visit) (w : World) (st : Site.Store)
    (user u0 f0 n : string) (ver : Z) (p : bool) (b : BlobRef) (m : MinioObject) :
  req_session (Site.req v) = SessionOf user ->
  Site.form_ufd v = (u0, f0, n, None) ->
  Site.strings_ToLower u0 <> "" ->
  Site.form_version v = (ver, None) ->
  form_public (Site.req v) = (p, None) ->
  form (Site.req v) "newname" = n ->
  len (form (Site.req v) "descrip") <= 80 ->
  form (Site.req v) "defaulttable" = "" ->
  Site.ValidatePGTable "" = None ->
  fails w (Op.MinioBucketID (Site.strings_ToLower u0) n ver user) = false ->
  com.canRead w user (Site.strings_ToLower u0) "/" n ver = true ->
  com.resolve w (mkIdentity (Site.strings_ToLower u0) "/" n) ver = Some b ->
  fails w (Op.OpenMinioObject (bucket b) (objid b)) = false ->
  com.find_object w (bucket b) (objid b) = Some m ->
  snd (Site.Tables (Some (o_data m))
         (Site.strings_ToLower u0 ++ (if String.eqb f0 "" then "/" else f0) ++ n)) = None ->
  exists d r ok,
    In (Site.Changed
          (Site.Change.SaveDBSettings (Site.strings_ToLower u0)
             (if String.eqb f0 "" then "/" else f0) n d r "" p) ok)
       (Site.actions Site.saveSettingsHandler v w st).
Proof.
  intros Hs Hu Ho Hv Hp Hn Hd Ht Hvt Hf1 Hc Hr Hf2 Hm Htb.
  pose proof (saveSettings_accepts v w st user u0 f0 n ver p b m
                Hs Hu Ho Hv Hp Hn Hd Ht Hvt Hf1 Hc Hr Hf2 Hm Htb) as E.
  unfold Site.actions. destruct (Site.serve Site.saveSettingsHandler v w st) as [x s].
  exact E.
Qed.

(** *** Downloads *)

(** Facts about the services of a later world, stated for the first world. *)
Ltac in_first_world :=
  match goal with
  | E : com.canRead _ _ _ _ _ _ = true |- com.canRead _ _ _ _ _ _ = true => exact E
  | E : com.resolve _ _ _ = Some _ |- com.resolve _ _ _ = Some _ => exact E
  | E : com.find_object _ _ _ = Some _ |- com.find_object _ _ _ = Some _ => exact E
  end.

Lemma download_exec (v : Site.Visit) (w : World) (st : Site.Store) :
  match Site.serve Site.downloadHandler v w st with
  | (_, s) =>
      forall data,
        In (Site.Body data) (Site.acts s) ->
        url_err (Site.req v) = None
        /\ com.canRead w (viewer_of (Site.req v)) (url_owner (Site.req v)) "/"
             (url_dbname (Site.req v)) (url_version (Site.req v)) = true
        /\ exists b m,
             com.resolve w (mkIdentity (url_owner (Site.req v)) "/" (url_dbname (Site.req v)))
               (url_version (Site.req v)) = Some b
             /\ com.find_object w (bucket b) (objid b) = Some m
             /\ In (Site.Handle (bucket b) (objid b) true) (Site.acts s)
             /\ match Site.io_Copy_cut (o_data m) with
                | None => data = o_data m
                | Some n => data = substring 0 n (o_data m)
                end
  end.
Proof.
  unfold Site.serve, Site.downloadHandler, viewer_of. sexec.
  all: intros zdata HIn; split_in HIn.
  all: injection HIn as <-.
  all: split; [reflexivity | split; [in_first_world|]].
  all: do 2 eexists; split; [in_first_world | split; [in_first_world | split; [find_in|]]].
  all: match goal with
       | E : Site.io_Copy_cut _ = _ |- _ => rewrite E
       end; reflexivity.
Qed.

Lemma downloadCSV_exec (v : Site.Visit) (w : World) (st : Site.Store) :
  match Site.serve Site.downloadCSVHandler v w st with
  | (_, s) =>
      forall data,
        In (Site.Body data) (Site.acts s) ->
        url_err (Site.req v) = None
        /\ url_table (Site.req v) <> ""
        /\ com.canRead w (viewer_of (Site.req v)) (url_owner (Site.req v)) "/"
             (url_dbname (Site.req v)) (url_version (Site.req v)) = true
        /\ exists b m,
             com.resolve w (mkIdentity (url_owner (Site.req v)) "/" (url_dbname (Site.req v)))
               (url_version (Site.req v)) = Some b
             /\ com.find_object w (bucket b) (objid b) = Some m
             /\ In (Site.Did (Call (Op.OpenMinioObject (bucket b) (objid b)) true))
                  (Site.acts s)
             /\ data = fst (Site.csv_WriteAll
                              (fst (Site.ReadSQLiteDBCSV (Some (o_data m))
                                      (url_table (Site.req v)))))
  end.
Proof.
  unfold Site.serve, Site.downloadCSVHandler, viewer_of. sexec.
  all: intros zdata HIn; split_in HIn.
  all: injection HIn as <-.
  all: split; [reflexivity | split; [apply String.eqb_neq; assumption
                                    | split; [in_first_world|]]].
  all: do 2 eexists; split; [in_first_world | split; [in_first_world | split; [find_in|]]].
  all: match goal with
       | E : Site.ReadSQLiteDBCSV _ _ = _ |- _ => rewrite E; cbn [fst]
       end.
  all: match goal with
       | E : Site.csv_WriteAll _ = _ |- _ => rewrite E
       end; reflexivity.
Qed.

(** X26. The download of a database sends bytes only after the access check
    for the viewer has succeeded, and the bytes it sends are those of the
    object the requested version resolves to: all of them, or the first
    ones when the copy to the response fails. *)
Theorem download_sends_readable_blob (v : Site.Visit) (w : World) (st : Site.Store)
    (data : bytes) :
  In (Site.Body data) (Site.actions Site.downloadHandler v w st) ->
  url_err (Site.req v) = None
  /\ com.canRead w (viewer_of (Site.req v)) (url_owner (Site.req v)) "/"
       (url_dbname (Site.req v)) (url_version (Site.req v)) = true
  /\ exists b m,
       com.resolve w (mkIdentity (url_owner (Site.req v)) "/" (url_dbname (Site.req v)))
         (url_version (Site.req v)) = Some b
       /\ com.find_object w (bucket b) (objid b) = Some m
       /\ In (Site.Handle (bucket b) (objid b) true)
            (Site.actions Site.downloadHandler v w st)
       /\ match Site.io_Copy_cut (o_data m) with
          | None => data = o_data m
          | Some n => data = substring 0 n (o_data m)
          end.
Proof.
  intros HIn. pose proof (download_exec v w st) as E.
  unfold Site.actions in *. destruct (Site.serve Site.downloadHandler v w st) as [x s].
  exact (E data HIn).
Qed.

(** X27. The download of a table as CSV sends a body only for a request
    that names a table and after the access check for the viewer has
    succeeded; the body is the CSV of the rows read from the object the
    requested version resolves to. The error of the read is not checked:
    the rows returned with it are sent all the same. *)
Theorem csv_download_sends_readable_table (v : Site.Visit) (w : World) (st : Site.Store)
    (data : bytes) :
  In (Site.Body data) (Site.actions Site.downloadCSVHandler v w st) ->
  url_err (Site.req v) = None
  /\ url_table (Site.req v) <> ""
  /\ com.canRead w (viewer_of (Site.req v)) (url_owner (Site.req v)) "/"
       (url_dbname (Site.req v)) (url_version (Site.req v)) = true
  /\ exists b m,
       com.resolve w (mkIdentity (url_owner (Site.req v)) "/" (url_dbname (Site.req v)))
         (url_version (Site.req v)) = Some b
       /\ com.find_object w (bucket b) (objid b) = Some m
       /\ In (Site.Did (Call (Op.OpenMinioObject (bucket b) (objid b)) true))
            (Site.actions Site.downloadCSVHandler v w st)
       /\ data = fst (Site.csv_WriteAll
                        (fst (Site.ReadSQLiteDBCSV (Some (o_data m))
                                (url_table (Site.req v))))).
Proof.
  intros HIn. pose proof (downloadCSV_exec v w st) as E.
  unfold Site.actions in *. destruct (Site.serve Site.downloadCSVHandler v w st) as [x s].
  exact (E data HIn).
Qed.

(** *** Pages and data of the logged in user *)

Lemma visitor_refused_exec (v : Site.Visit) (w : World) (st : Site.Store)
    (h : Site.Visit -> Site.Script unit) :
  (forall u, req_session (Site.req v) <> SessionOf u) ->
  In h [Site.prefHandler; Site.saveSettingsHandler; Site.downloadCertHandler;
        Site.generateCertHandler; Site.uploadFormHandler] ->
  match Site.serve h v w st with
  | (o, s) =>
      o = Site.Exit /\ Site.store s = st
      /\ exists status msg,
           400 <= status < 500
           /\ Site.acts s =
              match req_session (Site.req v) with
              | SessionWithoutUser => [Site.Did SessionRemove]
              | _ => []
              end ++ [Site.Did (ErrorPage status msg)]
  end.
Proof.
  intros Hs Hh. unfold Site.serve.
  destruct Hh as [<-|[<-|[<-|[<-|[<-|[]]]]]].
  all: unfold Site.prefHandler, Site.saveSettingsHandler, Site.downloadCertHandler,
         Site.generateCertHandler, Site.uploadFormHandler; sunfold; ssimpl.
  all: destruct (req_session (Site.req v)) as [| |u] eqn:S;
       [| |exfalso; exact (Hs u eq_refl)]; sunfold; ssimpl.
  all: split; [reflexivity | split; [reflexivity|]].
  all: do 2 eexists; split; [|reflexivity]; cbv; split; [discriminate | reflexivity].
Qed.

(** X28. For a visitor who is not logged in, the preferences, settings,
    certificate and upload form handlers return after one error page with
    a status between 400 and 499 (and the removal of a session without a
    user name): no page is rendered, nothing is sent and the store is not
    changed. *)
Theorem visitors_are_refused (v : Site.Visit) (w : World) (st : Site.Store)
    (h : Site.Visit -> Site.Script unit) :
  (forall u, req_session (Site.req v) <> SessionOf u) ->
  In h [Site.prefHandler; Site.saveSettingsHandler; Site.downloadCertHandler;
        Site.generateCertHandler; Site.uploadFormHandler] ->
  fst (Site.serve h v w st) = Site.Exit
  /\ Site.store (snd (Site.serve h v w st)) = st
  /\ exists status msg,
       400 <= status < 500
       /\ Site.actions h v w st =
          match req_session (Site.req v) with
          | SessionWithoutUser => [Site.Did SessionRemove]
          | _ => []
          end ++ [Site.Did (ErrorPage status msg)].
Proof.
  intros Hs Hh. pose proof (visitor_refused_exec v w st h Hs Hh) as E.
  unfold Site.actions. destruct (Site.serve h v w st) as [o s]. exact E.
Qed.

Lemma pref_exec (v : Site.Visit) (w : World) (st : Site.Store) :
  match Site.serve Site.prefHandler v w st with
  | (_, s) =>
      forall c ok,
        In (Site.Changed c ok) (Site.acts s) ->
        exists user n,
          req_session (Site.req v) = SessionOf user
          /\ c = Site.Change.SetPrefUserMaxRows user n
          /\ Atoi (form (Site.req v) "maxrows") = (n, None)
          /\ Site.Validate_Var (form (Site.req v) "maxrows") "required,numeric,min=1,max=500"
             = None
  end.
Proof.
  unfold Site.serve, Site.prefHandler. sexec.
  all: intros zc zok HIn; split_in HIn.
  all: injection HIn as <- <-; do 2 eexists; repeat split; first [reflexivity | assumption].
Qed.

Lemma generateCert_exec (v : Site.Visit) (w : World) (st : Site.Store) :
  match Site.serve Site.generateCertHandler v w st with
  | (_, s) =>
      (forall c ok,
         In (Site.Changed c ok) (Site.acts s) ->
         exists user cert,
           req_session (Site.req v) = SessionOf user
           /\ c = Site.Change.SetClientCert cert user
           /\ Site.GenerateClientCert user 14 = (cert, None))
      /\ (forall data,
            In (Site.Body data) (Site.acts s) ->
            exists user,
              req_session (Site.req v) = SessionOf user
              /\ In (Site.Changed (Site.Change.SetClientCert data user) true) (Site.acts s))
  end.
Proof.
  unfold Site.serve, Site.generateCertHandler. sexec.
  all: (split; [intros zc zok HIn | intros zdata HIn]); split_in HIn.
  all: try (injection HIn as <- <-; do 2 eexists; repeat split;
            first [reflexivity | assumption]).
  all: injection HIn as <-; eexists; split; [reflexivity | find_in].
Qed.

Lemma downloadCert_exec (v : Site.Visit) (w : World) (st : Site.Store) :
  match Site.serve Site.downloadCertHandler v w st with
  | (_, s) =>
      forall data,
        In (Site.Body data) (Site.acts s) ->
        exists user,
          req_session (Site.req v) = SessionOf user
          /\ Site.ClientCert st user = (data, None)
  end.
Proof.
  unfold Site.serve, Site.downloadCertHandler. sexec.
  all: intros zdata HIn; split_in HIn.
  all: injection HIn as <-; eexists; split; [reflexivity | assumption].
Qed.

(** X29. The preferences and certificate handlers read and change only
    data of the logged in user: the row limit that is stored is the number
    of the form, after it has passed the validation; the certificate that
    is stored is the one generated for the user, and it is sent only after
    it has been stored; the certificate that is downloaded is the one of
    the user. *)
Theorem own_preferences_and_certificates (v : Site.Visit) (w : World) (st : Site.Store) :
  (forall c ok,
     In (Site.Changed c ok) (Site.actions Site.prefHandler v w st) ->
     exists user n,
       req_session (Site.req v) = SessionOf user
       /\ c = Site.Change.SetPrefUserMaxRows user n
       /\ Atoi (form (Site.req v) "maxrows") = (n, None)
       /\ Site.Validate_Var (form (Site.req v) "maxrows") "required,numeric,min=1,max=500"
          = None)
  /\ (forall c ok,
        In (Site.Changed c ok) (Site.actions Site.generateCertHandler v w st) ->
        exists user cert,
          req_session (Site.req v) = SessionOf user
          /\ c = Site.Change.SetClientCert cert user
          /\ Site.GenerateClientCert user 14 = (cert, None))
  /\ (forall data,
        In (Site.Body data) (Site.actions Site.generateCertHandler v w st) ->
        exists user,
          req_session (Site.req v) = SessionOf user
          /\ In (Site.Changed (Site.Change.SetClientCert data user) true)
               (Site.actions Site.generateCertHandler v w st))
  /\ (forall data,
        In (Site.Body data) (Site.actions Site.downloadCertHandler v w st) ->
        exists user,
          req_session (Site.req v) = SessionOf user
          /\ Site.ClientCert st user = (data, None)).
Proof.
  pose proof (pref_exec v w st) as P. pose proof (generateCert_exec v w st) as G.
  pose proof (downloadCert_exec v w st) as D. unfold Site.actions.
  destruct (Site.serve Site.prefHandler v w st) as [o1 s1].
  destruct (Site.serve Site.generateCertHandler v w st) as [o2 s2].
  destruct (Site.serve Site.downloadCertHandler v w st) as [o3 s3].
  split; [exact P | split; [exact (proj1 G) | split; [exact (proj2 G) | exact D]]].
Qed.

End SiteProofs.
Import Demo.

(** ** The handlers at work *)

Lemma upload_assigns_next_version_witness :
  com.versions_of
    (pg_versions (after (uploadDataHandler (upload_req "alice" "sales.db" "v2" false)) alice_v1))
    alice_sales
  = com.versions_of (pg_versions alice_v1) alice_sales ++ [2].
Proof.
  refine (proj2 (proj2
    (upload_assigns_next_version (upload_req "alice" "sales.db" "v2" false) alice_v1
       (after (uploadDataHandler (upload_req "alice" "sales.db" "v2" false)) alice_v1)
       "alice" (mkFormFile "sales.db" "application/x-sqlite3" "v2" None) 2
       eq_refl eq_refl _ _ _ _))).
  - intros _. vm_compute. left. reflexivity.
  - vm_compute. reflexivity.
  - vm_compute. reflexivity.
  - vm_compute. reflexivity.
Defined.

(** C2, as stated, fails: two uploads of sales.db by alice whose runs
    overlap both read that the identity has no version, and both are
    assigned version 1; the identity ends with the single version 1. *)
Lemma concurrent_uploads_share_version :
  assigned_versions (fst (run_schedule interleaved two_threads empty)) = [Some 1; Some 1]
  /\ com.versions_of (pg_versions (snd (run_schedule interleaved two_threads empty)))
       alice_sales = [1].
Proof. split; vm_compute; reflexivity. Qed.

Lemma serial_uploads_number_consecutively_witness :
  recorded (snd three_results) = [1; 2; 3]
  /\ com.versions_of (pg_versions (fst three_results)) alice_sales = [1; 2; 3].
Proof.
  assert (L : List.length (recorded (snd three_results)) = 3%nat) by (vm_compute; reflexivity).
  destruct (serial_uploads_number_consecutively "alice" "sales.db" three_uploads empty
              (fst three_results) (snd three_results)) as (A & B).
  - repeat constructor.
  - reflexivity.
  - vm_compute. discriminate.
  - vm_compute. reflexivity.
  - rewrite L in A. unfold alice_sales. split; [exact A | rewrite B; exact A].
Defined.

Lemma cache_lookup_after_access_check_witness :
  In (Call (Op.MinioBucketID "alice" "sales.db" 1 "alice") true)
     [Call (Op.MinioBucketID "alice" "sales.db" 1 "alice") true]
  /\ com.canRead alice_v1 "alice" "alice" "/" "sales.db" 1 = true.
Proof.
  destruct (cache_lookup_after_access_check
              (table_req (SessionOf "alice") "alice" "sales.db" "t" 1) alice_v1
              (after (tableViewHandler (table_req (SessionOf "alice") "alice" "sales.db" "t" 1))
                 alice_v1)
              [Call (Op.MinioBucketID "alice" "sales.db" 1 "alice") true]
              [Call (Op.OpenMinioObject "bkt-alice" "aaaaaaaa.db") true;
               Call (Op.CacheData
                       (dataCacheKey "alice" "alice" "/" "sales.db" 1 "t" "" "" 0 25)) true;
               Fprint "t"]
              (dataCacheKey "alice" "alice" "/" "sales.db" 1 "t" "" "" 0 25) true)
    as (A & B & _).
  - vm_compute. reflexivity.
  - vm_compute. reflexivity.
  - split; [exact A | exact B].
Defined.

Lemma mutations_invalidate_cache_witness :
  exists ok rest,
    skip_logs
      [Log ("Upload DB handler: Username: alice, database 'sales.db' uploaded as "
            ++ "'aaaaaaaa.db', bytes: 6" ++ nl);
       Call (Op.InvalidateCacheEntry "alice" "alice" "/" "sales.db" 0) true;
       RedirectTo "/alice/sales.db" 307]
    = Call (Op.InvalidateCacheEntry "alice" "alice" "/" "sales.db" 0) ok :: rest.
Proof.
  refine (mutations_invalidate_cache (upload_req "alice" "sales.db" "SQLite" false) empty
            (after (uploadDataHandler (upload_req "alice" "sales.db" "SQLite" false)) empty)
            [Call Op.TempFile true; Call Op.TempFileWrite true; Sha256Sum;
             Call (Op.HighestDBVersion "alice" "sales.db" "/" "alice") true;
             Call (Op.MinioUserBucket "alice") true;
             Call (Op.CheckMinioIDAvail "alice" "aaaaaaaa.db") true;
             Call (Op.StoreMinioObject "bkt-alice" "aaaaaaaa.db") true]
            _
            (Call (Op.AddDatabase "alice" "/" "sales.db" 1 "bkt-alice" "aaaaaaaa.db") true)
            "alice" "alice" "/" "sales.db" _ _ _).
  - left. vm_compute. reflexivity.
  - vm_compute. reflexivity.
  - reflexivity.
Defined.

(** C7 at work. An upload and a star toggle whose cache invalidation fails:
    the new version is recorded and the star is set, the failure is
    logged, and the handler returns there, without the redirect to the
    new database and without the star count the front end waits for. A
    table view whose cache write fails logs it and still sends the rows. *)
Lemma invalidation_failure_ends_request :
  option_map (new_events (with_fails invalidate_down empty))
    (run (uploadDataHandler (upload_req "alice" "sales.db" "SQLite" false))
       (with_fails invalidate_down empty))
  = Some [Call Op.TempFile true; Call Op.TempFileWrite true; Sha256Sum;
          Call (Op.HighestDBVersion "alice" "sales.db" "/" "alice") true;
          Call (Op.MinioUserBucket "alice") true;
          Call (Op.CheckMinioIDAvail "alice" "aaaaaaaa.db") true;
          Call (Op.StoreMinioObject "bkt-alice" "aaaaaaaa.db") true;
          Call (Op.AddDatabase "alice" "/" "sales.db" 1 "bkt-alice" "aaaaaaaa.db") true;
          Log ("Upload DB handler: Username: alice, database 'sales.db' uploaded as "
               ++ "'aaaaaaaa.db', bytes: 6" ++ nl);
          Call (Op.InvalidateCacheEntry "alice" "alice" "/" "sales.db" 0) false;
          Log ("Error when invalidating memcache entries: UpstreamUnavailable" ++ nl)]
  /\ com.versions_of
       (pg_versions
          (after (uploadDataHandler (upload_req "alice" "sales.db" "SQLite" false))
             (with_fails invalidate_down empty))) alice_sales = [1]
  /\ option_map (new_events empty)
       (run (uploadDataHandler (upload_req "alice" "sales.db" "SQLite" false)) empty)
     = Some [Call Op.TempFile true; Call Op.TempFileWrite true; Sha256Sum;
             Call (Op.HighestDBVersion "alice" "sales.db" "/" "alice") true;
             Call (Op.MinioUserBucket "alice") true;
             Call (Op.CheckMinioIDAvail "alice" "aaaaaaaa.db") true;
             Call (Op.StoreMinioObject "bkt-alice" "aaaaaaaa.db") true;
             Call (Op.AddDatabase "alice" "/" "sales.db" 1 "bkt-alice" "aaaaaaaa.db") true;
             Log ("Upload DB handler: Username: alice, database 'sales.db' uploaded as "
                  ++ "'aaaaaaaa.db', bytes: 6" ++ nl);
             Call (Op.InvalidateCacheEntry "alice" "alice" "/" "sales.db" 0) true;
             RedirectTo "/alice/sales.db" StatusTemporaryRedirect]
  /\ option_map (new_events (with_fails invalidate_down alice_v1))
       (run (starToggleHandler (table_req (SessionOf "alice") "alice" "sales.db" "" 0))
          (with_fails invalidate_down alice_v1))
     = Some [Call (Op.ToggleDBStar "alice" "alice" "/" "sales.db") true;
             Call (Op.InvalidateCacheEntry "alice" "alice" "/" "sales.db" 0) false;
             Log ("Error when invalidating memcache entries: UpstreamUnavailable" ++ nl)]
  /\ option_map (new_events alice_v1)
       (run (starToggleHandler (table_req (SessionOf "alice") "alice" "sales.db" "" 0))
          alice_v1)
     = Some [Call (Op.ToggleDBStar "alice" "alice" "/" "sales.db") true;
             Call (Op.InvalidateCacheEntry "alice" "alice" "/" "sales.db" 0) true;
             Call (Op.DBStars "alice" "sales.db") true;
             Fprint "1"]
  /\ option_map (new_events (with_fails cache_write_down alice_v1))
       (run (tableViewHandler (table_req (SessionOf "alice") "alice" "sales.db" "t" 1))
          (with_fails cache_write_down alice_v1))
     = Some [Call (Op.MinioBucketID "alice" "sales.db" 1 "alice") true;
             Call (Op.GetCachedData
                     (dataCacheKey "alice" "alice" "/" "sales.db" 1 "t" "" "" 0 25)) true;
             Call (Op.OpenMinioObject "bkt-alice" "aaaaaaaa.db") true;
             Call (Op.CacheData
                     (dataCacheKey "alice" "alice" "/" "sales.db" 1 "t" "" "" 0 25)) false;
             Log ("Table data handler: Error when caching table data: UpstreamUnavailable"
                  ++ nl);
             Fprint "t"].
Proof. repeat split; vm_compute; reflexivity. Qed.

(** C8, as stated, fails: alice asks to fork her own sales.db without
    naming a version; the request is rejected by the check for the version
    number, not by the same-owner check. *)
Lemma fork_own_database_without_version :
  option_map (new_events alice_v1)
    (run (forkDBHandler (fork_req "alice" "alice" "sales.db" 0)) alice_v1)
  = Some [ErrorPage StatusBadRequest "No database version number given"].
Proof. vm_compute. reflexivity. Qed.

Lemma fork_same_owner_rejected_witness :
  exists w',
    run (forkDBHandler (fork_req "alice" "alice" "sales.db" 1)) alice_v1 = Some w'
    /\ same_stores alice_v1 w'
    /\ new_events alice_v1 w' =
         [Call (Op.CheckUserDBVAccess "alice" "/" "sales.db" 1 "alice") true;
          ErrorPage StatusBadRequest "Forking your own database in-place doesn't make sense"].
Proof.
  destruct (fork_same_owner_rejected (fork_req "alice" "alice" "sales.db" 1)
              alice_v1 "alice" eq_refl eq_refl) as (w' & R & S & _ & _ & E).
  exists w'. split; [exact R | split; [exact S |]].
  apply E; [reflexivity | discriminate | reflexivity].
Defined.

(** C9, as stated, fails: alice forks her own sales.db, and bob, who has a
    sales.db of his own, forks the private sales.db of alice. In both
    requests the logged in user already has a database of that name, and
    the error page is not the one of the name check. *)
Lemma fork_existing_name_other_errors :
  com.highest (pg_versions both_v1) (mkIdentity "alice" "/" "sales.db") = 1
  /\ option_map (new_events both_v1)
       (run (forkDBHandler (fork_req "alice" "alice" "sales.db" 1)) both_v1)
     = Some [Call (Op.CheckUserDBVAccess "alice" "/" "sales.db" 1 "alice") true;
             ErrorPage StatusBadRequest
               "Forking your own database in-place doesn't make sense"]
  /\ com.highest (pg_versions both_v1) (mkIdentity "bob" "/" "sales.db") = 1
  /\ option_map (new_events both_v1)
       (run (forkDBHandler (fork_req "bob" "alice" "sales.db" 1)) both_v1)
     = Some [Call (Op.CheckUserDBVAccess "alice" "/" "sales.db" 1 "bob") true;
             ErrorPage StatusBadRequest
               "You don't have access to the requested database version"].
Proof. repeat split; vm_compute; reflexivity. Qed.

Lemma fork_existing_name_rejected_witness :
  exists w',
    run (forkDBHandler (fork_req "bob" "alice" "sales.db" 1)) public_v1 = Some w'
    /\ same_stores public_v1 w'
    /\ new_events public_v1 w' =
         [Call (Op.CheckUserDBVAccess "alice" "/" "sales.db" 1 "bob") true;
          Call (Op.HighestDBVersion "bob" "sales.db" "/" "bob") true;
          ErrorPage StatusBadRequest "You already have a database of this name"].
Proof.
  destruct (fork_existing_name_rejected (fork_req "bob" "alice" "sales.db" 1)
              public_v1 "bob" eq_refl) as (w' & R & S & _ & _ & E).
  - vm_compute. discriminate.
  - exists w'. split; [exact R | split; [exact S |]].
    apply E; try reflexivity; try discriminate.
Defined.

Lemma upload_empty_file_rejected_witness :
  exists w',
    run (uploadDataHandler (upload_req "alice" "sales.db" "" false)) empty = Some w'
    /\ same_stores empty w'
    /\ new_events empty w' =
         [Log ("Upload DB handler: Database seems to be 0 bytes in length. Username: "
               ++ "alice" ++ ", Database: " ++ "sales.db" ++ nl);
          ErrorPage StatusBadRequest "Database file is 0 length?"].
Proof.
  destruct (upload_empty_file_rejected (upload_req "alice" "sales.db" "" false) empty
              (mkFormFile "sales.db" "application/x-sqlite3" "" None) "alice"
              eq_refl eq_refl) as (w' & R & S & _ & _ & _ & E).
  exists w'. split; [exact R | split; [exact S |]].
  apply E; try reflexivity. vm_compute. discriminate.
Defined.

(** ** More runs of the handlers *)

Import SiteDemo.

(** Evaluates a run and finds the event or action that is asked for. *)
Ltac by_run := vm_compute; repeat first [reflexivity | left; reflexivity | right].

Lemma sort_prefix_determines_inputs_witness : "a/b" = "a/b" /\ "ASC" = "ASC" /\ 0 = 0.
Proof.
  apply (sort_prefix_determines_inputs "a/b" "a/b" "ASC" "ASC" 0 0); reflexivity.
Defined.


Lemma invalidation_failure_returns_witness :
  stops_after_failed_invalidation
    (new_events (with_fails invalidate_down empty)
       (after (uploadDataHandler (upload_req "alice" "sales.db" "SQLite" false))
          (with_fails invalidate_down empty))).
Proof.
  apply (invalidation_failure_returns (upload_req "alice" "sales.db" "SQLite" false)
           (with_fails invalidate_down empty)).
  left. vm_compute. reflexivity.
Defined.

Lemma upload_stores_only_checked_files_witness :
  exists user f,
    req_session (upload_req "alice" "sales.db" "SQLite" false) = SessionOf user
    /\ form_file (upload_req "alice" "sales.db" "SQLite" false) = Some f
    /\ SanityCheck (file_data f) = None
    /\ "bkt-alice" = userBucket user.
Proof.
  destruct (upload_stores_only_checked_files
              (upload_req "alice" "sales.db" "SQLite" false) empty
              (after (uploadDataHandler (upload_req "alice" "sales.db" "SQLite" false)) empty)
              "bkt-alice" "aaaaaaaa.db" true)
    as (user & f & A & B & _ & _ & _ & _ & _ & _ & C & D).
  - vm_compute. reflexivity.
  - by_run.
  - exists user, f. repeat split; assumption.
Defined.

Lemma upload_failed_record_leaves_blob_witness :
  exists file,
    form_file (upload_req "alice" "sales.db" "SQLite" false) = Some file
    /\ minio (after (uploadDataHandler (upload_req "alice" "sales.db" "SQLite" false))
                (with_fails add_down empty))
       = [mkMinioObject "bkt-alice" "aaaaaaaa.db" (file_data file) (ContentType file)]
    /\ pg_versions (after (uploadDataHandler (upload_req "alice" "sales.db" "SQLite" false))
                      (with_fails add_down empty)) = [].
Proof.
  destruct (upload_failed_record_leaves_blob
              (upload_req "alice" "sales.db" "SQLite" false) (with_fails add_down empty)
              (after (uploadDataHandler (upload_req "alice" "sales.db" "SQLite" false))
                 (with_fails add_down empty))
              "alice" "/" "sales.db" 1 "bkt-alice" "aaaaaaaa.db")
    as (file & A & B & C & _).
  - vm_compute. reflexivity.
  - by_run.
  - exists file. split; [exact A | split; [exact B | exact C]].
Defined.

Lemma upload_then_resolve_witness :
  com.resolve (after (uploadDataHandler (upload_req "alice" "sales.db" "SQLite" false)) empty)
    alice_sales 1
  = Some (mkBlobRef "bkt-alice" "aaaaaaaa.db" 6 "SQLite").
Proof.
  destruct (upload_then_resolve
              (upload_req "alice" "sales.db" "SQLite" false) empty
              (after (uploadDataHandler (upload_req "alice" "sales.db" "SQLite" false)) empty)
              "alice" "/" "sales.db" 1 "bkt-alice" "aaaaaaaa.db")
    as (file & _ & F & _ & R & _).
  - vm_compute. reflexivity.
  - by_run.
  - injection F as <-. exact R.
Defined.

Lemma upload_ignores_failed_version_lookup_witness :
  In (Call (Op.MinioUserBucket "alice") true)
     (new_events (with_fails highest_down empty)
        (after (uploadDataHandler (upload_req "alice" "sales.db" "SQLite" false))
           (with_fails highest_down empty))).
Proof.
  apply (upload_ignores_failed_version_lookup
           (upload_req "alice" "sales.db" "SQLite" false) (with_fails highest_down empty)
           (after (uploadDataHandler (upload_req "alice" "sales.db" "SQLite" false))
              (with_fails highest_down empty))
           "alice" "sales.db" "/" "alice").
  - vm_compute. reflexivity.
  - by_run.
Defined.

Lemma fork_copies_only_checked_sources_witness :
  exists user,
    req_session (fork_req "carol" "alice" "sales.db" 1) = SessionOf user
    /\ com.canRead public_v1 user "alice" "/" "sales.db" 1 = true
    /\ user <> "alice"
    /\ "bkt-carol" = userBucket user.
Proof.
  destruct (fork_copies_only_checked_sources
              (fork_req "carol" "alice" "sales.db" 1) public_v1
              (after (forkDBHandler (fork_req "carol" "alice" "sales.db" 1)) public_v1)
              "bkt-alice" "aaaaaaaa.db" "bkt-carol" true)
    as (user & b & A & _ & _ & B & C & _ & _ & _ & _ & D).
  - vm_compute. reflexivity.
  - by_run.
  - exists user. repeat split; assumption.
Defined.

Lemma fork_then_resolve_witness :
  exists b o,
    com.resolve public_v1 alice_sales 1 = Some b
    /\ com.find_object public_v1 (bucket b) (objid b) = Some o
    /\ com.resolve (after (forkDBHandler (fork_req "carol" "alice" "sales.db" 1)) public_v1)
         (mkIdentity "carol" "/" "sales.db") 1
       = Some (mkBlobRef "bkt-carol" "cccccccc" (size b) (digest b))
    /\ com.find_object
         (after (forkDBHandler (fork_req "carol" "alice" "sales.db" 1)) public_v1)
         "bkt-carol" "cccccccc"
       = Some (mkMinioObject "bkt-carol" "cccccccc" (o_data o) (o_ctype o)).
Proof.
  destruct (fork_then_resolve
              (fork_req "carol" "alice" "sales.db" 1) public_v1
              (after (forkDBHandler (fork_req "carol" "alice" "sales.db" 1)) public_v1)
              "alice" "/" "sales.db" 1 "carol" "/" "cccccccc")
    as (b & o & _ & A & B & C & D & _).
  - vm_compute. reflexivity.
  - by_run.
  - exists b, o. repeat split; assumption.
Defined.

Lemma visitors_reach_no_service_witness :
  exists w',
    run (forkDBHandler (table_req NoSession "alice" "sales.db" "" 1)) public_v1 = Some w'
    /\ same_stores public_v1 w'
    /\ Forall no_service (new_events public_v1 w').
Proof.
  apply (visitors_reach_no_service (table_req NoSession "alice" "sales.db" "" 1) public_v1
           forkDBHandler).
  - intros u. discriminate.
  - right. left. reflexivity.
Defined.

Lemma table_view_checks_before_services_witness :
  url_err alice_views = None /\ valid_sort_dir (form alice_views "dir") = true.
Proof.
  destruct (table_view_checks_before_services alice_views alice_v1
              (after (tableViewHandler alice_views) alice_v1)
              (Op.MinioBucketID "alice" "sales.db" 1 "alice") true)
    as (A & _ & _ & B).
  - vm_compute. reflexivity.
  - by_run.
  - split; [exact A | exact B].
Defined.

Lemma table_view_key_of_request_witness :
  dataCacheKey "alice" "alice" "/" "sales.db" 1 "t" "" "" 0 25
  = dataCacheKey (viewer_of alice_views) (url_owner alice_views) "/" (url_dbname alice_views)
      (url_version alice_views) (url_table alice_views) (form alice_views "sort")
      (form alice_views "dir")
      (if String.eqb (form alice_views "offset") "" then 0
       else Z.max 0 (fst (Atoi (form alice_views "offset"))))
      (if String.eqb (viewer_of alice_views) "" then com.DefaultNumDisplayRows
       else PrefUserMaxRows (viewer_of alice_views)).
Proof.
  apply (table_view_key_of_request alice_views alice_v1
           (after (tableViewHandler alice_views) alice_v1)
           (dataCacheKey "alice" "alice" "/" "sales.db" 1 "t" "" "" 0 25) true).
  - vm_compute. reflexivity.
  - by_run.
Defined.

Lemma table_view_answers_from_cache_witness :
  same_stores (after (tableViewHandler alice_views) alice_v1)
    (after (tableViewHandler alice_views) (after (tableViewHandler alice_views) alice_v1))
  /\ Forall (cache_hit_call (cacheKey alice_key))
       (new_events (after (tableViewHandler alice_views) alice_v1)
          (after (tableViewHandler alice_views)
             (after (tableViewHandler alice_views) alice_v1))).
Proof.
  destruct (table_view_answers_from_cache alice_views
              (after (tableViewHandler alice_views) alice_v1)
              (after (tableViewHandler alice_views)
                 (after (tableViewHandler alice_views) alice_v1))
              (cacheKey alice_key) (mkRecordSet "t" ["c"] [["1"]] 1))
    as (A & B & _).
  - vm_compute. reflexivity.
  - by_run.
  - vm_compute. reflexivity.
  - split; [exact A | exact B].
Defined.

Lemma table_view_repeated_is_cached_witness :
  exists w2,
    run (tableViewHandler alice_views) (after (tableViewHandler alice_views) alice_v1)
    = Some w2
    /\ same_stores (after (tableViewHandler alice_views) alice_v1) w2
    /\ In (Call (Op.GetCachedData (cacheKey alice_key)) true)
         (new_events (after (tableViewHandler alice_views) alice_v1) w2).
Proof.
  destruct (table_view_repeated_is_cached alice_views alice_v1
              (after (tableViewHandler alice_views) alice_v1) (cacheKey alice_key))
    as (w2 & A & B & C & _).
  - vm_compute. reflexivity.
  - by_run.
  - reflexivity.
  - exists w2. split; [exact A | split; [exact B | exact C]].
Defined.

Lemma mainHandler_user_page_witness :
  Site.actions Site.mainHandler (visit NoSession "" "" "" 0 no_form "/alice") empty
    (users [])
  = [Site.Render (Site.userPage "alice")].
Proof.
  refine (proj1 (mainHandler_user_page (visit NoSession "" "" "" 0 no_form "/alice") empty
                   (users []) "alice" _) eq_refl).
  cbn. repeat split; discriminate.
Defined.

Lemma mainHandler_database_page_checked_witness :
  Site.ValidateUserDB "alice" "sales.db" = None /\ valid_sort_dir "" = true /\ 0 <= 0.
Proof.
  destruct (mainHandler_database_page_checked
              (visit NoSession "" "" "" 0 no_form "/alice/sales.db") empty (users [])
              "alice" "sales.db" 0 "" "" "" 0)
    as (_ & _ & _ & A & _ & _ & _ & _ & _ & B & C).
  - by_run.
  - split; [exact A | split; [exact B | exact C]].
Defined.

Lemma registration_adds_only_checked_names_witness :
  Site.cattr (register "carol") "registrationinprogress" = Some (Site.ABool true)
  /\ Site.CheckUserExists (users ["alice"]) "carol" = (false, None).
Proof.
  destruct (registration_adds_only_checked_names (register "carol") empty (users ["alice"])
              "auth0|carol" "carol" "aaaaaaaa" "carol@example.org" true)
    as (_ & A & _ & _ & _ & _ & _ & _ & _ & B & _).
  - by_run.
  - split; [exact A | exact B].
Defined.

Lemma registration_session_after_account_witness :
  exists a p e,
    Site.actions Site.createUserHandler (register "carol") empty (users ["alice"]) =
    [Site.Changed (Site.Change.AddUser a "carol" p e) true;
     Site.Did SessionRemove;
     Site.SessionAdd [("UserName", Site.AString "carol")];
     Site.Did (RedirectTo "/carol" StatusTemporaryRedirect)].
Proof.
  destruct (registration_session_after_account (register "carol") empty (users ["alice"])
              [("UserName", Site.AString "carol")])
    as (a & p & e & A & _).
  - by_run.
  - exists a, p, e. exact A.
Defined.

Lemma name_check_agrees_with_registration_witness :
  exists ok,
    In (Site.Changed
          (Site.Change.AddUser "auth0|carol" "carol" "aaaaaaaa" "carol@example.org") ok)
       (Site.actions Site.createUserHandler (register "carol") empty (users ["alice"])).
Proof.
  refine (proj2 (name_check_agrees_with_registration
                   (visit NoSession "" "" "" 0 (chosen_name "carol") "/x/checkname")
                   (register "carol") empty (users ["alice"]) eq_refl)
            _ "auth0|carol" "carol@example.org" "aaaaaaaa" ["bbbbbbbb"; "cccccccc"]
            _ _ eq_refl eq_refl eq_refl eq_refl eq_refl).
  - by_run.
  - discriminate.
  - discriminate.
Defined.

Lemma auth0_callback_falls_through_witness :
  exists pre,
    Site.actions Site.auth0CallbackHandler (callback "auth0|dave") empty (users []) =
    pre ++ [Site.SessionAdd [("registrationinprogress", Site.ABool true);
                             ("auth0id", Site.AString "auth0|dave");
                             ("email", Site.AString ""); ("nickname", Site.AString "")];
            Site.Did (RedirectTo "/selectusername" StatusTemporaryRedirect);
            Site.SessionAdd [("UserName", Site.AString "")];
            Site.Did (RedirectTo "/" StatusTemporaryRedirect)].
Proof.
  apply (auth0_callback_falls_through (callback "auth0|dave") empty (users [])).
  - by_run.
  - left. reflexivity.
Defined.

Lemma auth0_callback_sessions_witness :
  exists auth0ID name,
    auth0ID <> ""
    /\ Site.UserNameFromAuth0ID (users []) auth0ID = (name, None)
    /\ ([("UserName", Site.AString "alice")] = [("UserName", Site.AString name)] \/ name = "").
Proof.
  destruct (auth0_callback_sessions (callback "auth0|alice") empty (users [])
              [("UserName", Site.AString "alice")])
    as (token & userInfo & raw & profile & auth0ID & name & _ & _ & _ & _ & _ & A & _ & B & C).
  - by_run.
  - exists auth0ID, name. split; [exact A | split; [exact B | exact C]].
Defined.

Lemma settings_saved_after_checks_witness :
  exists user,
    req_session (Site.req (visit (SessionOf "bob") "alice" "sales.db" "" 1
                             (settings_form "sales.db") "/x/savesettings")) = SessionOf user
    /\ com.canRead public_v1 user "alice" "/" "sales.db" 1 = true.
Proof.
  destruct (settings_saved_after_checks
              (visit (SessionOf "bob") "alice" "sales.db" "" 1 (settings_form "sales.db")
                 "/x/savesettings") public_v1 (users [])
              "alice" "/" "sales.db" "" "" "" false true)
    as (user & u0 & f0 & ver & A & E & -> & _ & _ & V & _ & _ & _ & _ & _ & B & _).
  - by_run.
  - exists user. split; [exact A|]. injection E as <- _. injection V as <-. exact B.
Defined.

Lemma settings_saved_for_any_reader_witness :
  exists d r ok,
    In (Site.Changed (Site.Change.SaveDBSettings "alice" "/" "sales.db" d r "" false) ok)
       (Site.actions Site.saveSettingsHandler
          (visit (SessionOf "bob") "alice" "sales.db" "" 1 (settings_form "sales.db")
             "/x/savesettings") public_v1 (users [])).
Proof.
  apply (settings_saved_for_any_reader
           (visit (SessionOf "bob") "alice" "sales.db" "" 1 (settings_form "sales.db")
              "/x/savesettings") public_v1 (users [])
           "bob" "alice" "" "sales.db" 1 false
           (mkBlobRef "bkt-alice" "aaaaaaaa.db" 6 "SQLite")
           (mkMinioObject "bkt-alice" "aaaaaaaa.db" "SQLite" "application/x-sqlite3")).
  all: try reflexivity.
  - discriminate.
  - vm_compute. discriminate.
Defined.

Lemma download_sends_readable_blob_witness :
  com.canRead public_v1 "bob" "alice" "/" "sales.db" 1 = true
  /\ exists b m,
       com.resolve public_v1 alice_sales 1 = Some b
       /\ com.find_object public_v1 (bucket b) (objid b) = Some m
       /\ "SQLite" = o_data m.
Proof.
  destruct (download_sends_readable_blob
              (visit (SessionOf "bob") "alice" "sales.db" "" 1 no_form "/x/download/")
              public_v1 (users []) "SQLite")
    as (_ & A & b & m & B & C & _ & D).
  - by_run.
  - split; [exact A|]. exists b, m. split; [exact B | split; [exact C | exact D]].
Defined.

Lemma csv_download_sends_readable_table_witness :
  com.canRead public_v1 "" "alice" "/" "sales.db" 1 = true.
Proof.
  destruct (csv_download_sends_readable_table
              (visit NoSession "alice" "sales.db" "t" 1 no_form "/x/downloadcsv/")
              public_v1 (users []) ("c" ++ nl ++ "1")%string)
    as (_ & _ & A & _).
  - by_run.
  - exact A.
Defined.

Lemma visitors_are_refused_witness :
  exists status msg,
    400 <= status < 500
    /\ Site.actions Site.prefHandler (visit NoSession "" "" "" 0 no_form "/pref") empty
         (users [])
       = [Site.Did (ErrorPage status msg)].
Proof.
  destruct (visitors_are_refused (visit NoSession "" "" "" 0 no_form "/pref") empty (users [])
              Site.prefHandler)
    as (_ & _ & status & msg & R & A).
  - intros u. discriminate.
  - left. reflexivity.
  - exists status, msg. split; [exact R | exact A].
Defined.
